(** * voice-pdf-assistant: artifact lifecycle and admission control

    A shallow embedding of the storage lifecycle code of the backend
    ([app/utils/file_manager.py], [app/utils/scheduler.py],
    [app/middleware/rate_limiter.py] and the download endpoint of
    [app/main.py]) together with the properties the specification states
    about it.

    Conventions.
    - A Python [str] is a [string] with one [ascii] for each of its
      characters: the embedding covers the strings whose characters are
      the code points below 256 (ASCII and Latin-1), and on them [len],
      slices and searches count characters as Python's do.  A name with
      other characters has no counterpart here; a [string] is never the
      UTF-8 encoding of a name.  [bytes] is a [list byte].
    - A [dict] keyed by strings is a [gmap string _]; no property below
      depends on the iteration order of a dictionary.
    - A naive [datetime] is the number of microseconds since
      1970-01-01T00:00:00 as a [Z]; a [timedelta] is a number of
      microseconds.
    - Methods that raise are computations in a state-and-exception monad
      [M]; every change of the state is also recorded in a trace, so that
      the states a concurrent reader could observe are explicit.
    - The values the code receives from its environment (the uuid that
      [uuid.uuid4] draws, the readings of the clock) are arguments.
    - [with self.lock] is not modelled: the model is sequential. *)

From Stdlib Require Import ZArith Ascii String List Lia Bool.
From Stdlib.Strings Require Import Byte.
From stdpp Require Import base option gmap strings list fin_maps.

Local Open Scope string_scope.
Local Open Scope Z_scope.

(** ** Python's string and path primitives *)

Module Py.

(** [s[:n]] and [s[n:]] for [0 <= n]. *)
Fixpoint str_take (n : nat) (s : string) : string :=
  match n, s with
  | S k, String c tl => String c (str_take k tl)
  | _, _ => EmptyString
  end.

Fixpoint str_drop (n : nat) (s : string) : string :=
  match n, s with
  | S k, String _ tl => str_drop k tl
  | _, _ => s
  end.

(** [len(s)]: the number of characters, one [ascii] each. *)
Definition len (s : string) : nat := String.length s.

(** [c in s] for a one-character [c]. *)
Fixpoint has_char (c : ascii) (s : string) : bool :=
  match s with
  | EmptyString => false
  | String a tl => Ascii.eqb a c || has_char c tl
  end.

(** [sub in s] *)
Fixpoint contains (sub s : string) : bool :=
  String.prefix sub s ||
  match s with
  | EmptyString => false
  | String _ tl => contains sub tl
  end.

(** [s.rfind(c)] for a one-character [c]: the highest index, or [-1]. *)
Fixpoint rfind (c : ascii) (s : string) : Z :=
  match s with
  | EmptyString => -1
  | String a tl =>
      let r := rfind c tl in
      if 0 <=? r then r + 1 else if Ascii.eqb a c then 0 else -1
  end.

(** [s.replace(old, new)]: occurrences are found from the left and do not
    overlap.  [skip] counts the characters of a match still to be dropped. *)
Fixpoint replace_from (old new : string) (skip : nat) (s : string) : string :=
  match s with
  | EmptyString => EmptyString
  | String c tl =>
      match skip with
      | S k => replace_from old new k tl
      | O =>
          if String.prefix old s
          then new ++ replace_from old new (len old - 1) tl
          else String c (replace_from old new 0 tl)
      end
  end.

(** With an empty [old], Python puts [new] before every character and at
    the end. *)
Fixpoint interleave (new s : string) : string :=
  match s with
  | EmptyString => new
  | String c tl => new ++ String c (interleave new tl)
  end.

Definition replace (old new s : string) : string :=
  match old with
  | EmptyString => interleave new s
  | _ => replace_from old new 0 s
  end.

(** [s.split(c)] for a one-character separator. *)
Fixpoint split (c : ascii) (s : string) : list string :=
  match s with
  | EmptyString => [EmptyString]
  | String a tl =>
      if Ascii.eqb a c then EmptyString :: split c tl
      else match split c tl with
           | hd :: rest => String a hd :: rest
           | [] => [String a EmptyString]
           end
  end.

(** [PurePosixPath(s).name]: the last component of the path, where empty
    components and ["."] components are dropped when the path is parsed;
    [""] when nothing is left. *)
Definition path_parts (s : string) : list string :=
  List.filter (fun x => negb (String.eqb x "" || String.eqb x ".")) (split "/" s).

Definition path_name (s : string) : string :=
  List.last (path_parts s) "".

(** [PurePosixPath(s).suffix] *)
Definition path_suffix (s : string) : string :=
  let name := path_name s in
  let i := rfind "." name in
  if (0 <? i) && (i <? Z.of_nat (len name) - 1)
  then str_drop (Z.to_nat i) name
  else "".

(** The loop of [genericpath._splitext] that skips the leading dots of the
    file name: [n] positions from [filenameIndex] up to [dotIndex] remain. *)
Fixpoint splitext_scan (p : string) (dotIndex filenameIndex n : nat)
  : option (string * string) :=
  match n with
  | O => None
  | S k =>
      if negb (String.eqb (str_take 1 (str_drop filenameIndex p)) ".")
      then Some (str_take dotIndex p, str_drop dotIndex p)
      else splitext_scan p dotIndex (S filenameIndex) k
  end.

(** [os.path.splitext(p)] of [posixpath]. *)
Definition splitext (p : string) : string * string :=
  let sepIndex := rfind "/" p in
  let dotIndex := rfind "." p in
  if sepIndex <? dotIndex then
    let filenameIndex := sepIndex + 1 in
    match splitext_scan p (Z.to_nat dotIndex) (Z.to_nat filenameIndex)
            (Z.to_nat (dotIndex - filenameIndex)) with
    | Some r => r
    | None => (p, "")
    end
  else (p, "").

(** [str(n)] zero-padded to [width] digits, as [%0*d] prints it. *)
Fixpoint digits (fuel : nat) (n : Z) (acc : string) : string :=
  match fuel with
  | O => acc
  | S k =>
      let d := ascii_of_nat (48 + Z.to_nat (n mod 10)) in
      if n <? 10 then String d acc else digits k (n / 10) (String d acc)
  end.

Fixpoint zeros (n : nat) : string :=
  match n with O => "" | S k => String "0" (zeros k) end.

Definition pad_dec (width : nat) (n : Z) : string :=
  let s := digits 64 n "" in
  zeros (width - len s) ++ s.

(** The calendar date of a day number counted from 1970-01-01
    (proleptic Gregorian calendar). *)
Definition civil_from_days (z0 : Z) : Z * Z * Z :=
  let z := z0 + 719468 in
  let era := z / 146097 in
  let doe := z - era * 146097 in
  let yoe := (doe - doe / 1460 + doe / 36524 - doe / 146096) / 365 in
  let doy := doe - (365 * yoe + yoe / 4 - yoe / 100) in
  let mp := (5 * doy + 2) / 153 in
  let d := doy - (153 * mp + 2) / 5 + 1 in
  let m := if mp <? 10 then mp + 3 else mp - 9 in
  let y := yoe + era * 400 + (if m <=? 2 then 1 else 0) in
  (y, m, d).

(** [datetime.isoformat()] of a naive datetime:
    [YYYY-MM-DDTHH:MM:SS], followed by [.ffffff] when the microsecond
    field is not zero. *)
Definition isoformat (t : Z) : string :=
  let us := t mod 1000000 in
  let secs := t / 1000000 in
  let '(y, m, d) := civil_from_days (secs / 86400) in
  let sod := secs mod 86400 in
  pad_dec 4 y ++ "-" ++ pad_dec 2 m ++ "-" ++ pad_dec 2 d ++ "T" ++
  pad_dec 2 (sod / 3600) ++ ":" ++ pad_dec 2 (sod mod 3600 / 60) ++ ":" ++
  pad_dec 2 (sod mod 60) ++
  (if us =? 0 then "" else "." ++ pad_dec 6 us).

(** [timedelta(hours=h)] and [timedelta(seconds=s)] in microseconds. *)
Definition timedelta_hours (h : Z) : Z := h * 3600 * 1000000.
Definition timedelta_seconds (s : Z) : Z := s * 1000000.

(** The values that meet in the comparison of the sweep. *)
Inductive value :=
| VStr (s : string)
| VDatetime (t : Z).

(** Exceptions, with the text [str(e)] gives. *)
Inductive exn :=
| ValueError (msg : string)
| TypeError (msg : string)
| OSError (msg : string)
| PermissionError (msg : string)
| FileNotFoundError (msg : string)
| HTTPException (status_code : Z) (detail : string).

Definition exn_str (e : exn) : string :=
  match e with
  | ValueError m | TypeError m | OSError m | PermissionError m
  | FileNotFoundError m => m
  | HTTPException c d => pad_dec 0 c ++ ": " ++ d
  end.

Definition is_HTTPException (e : exn) : bool :=
  match e with HTTPException _ _ => true | _ => false end.

(** [a < b]: two strings compare by code points, two datetimes by
    instant; a [str] and a [datetime] do not compare, both [__lt__] and
    the reflected [__gt__] give [NotImplemented] and Python raises
    [TypeError]. *)
Definition lt (a b : value) : exn + bool :=
  match a, b with
  | VStr x, VStr y => inr (String.ltb x y)
  | VDatetime x, VDatetime y => inr (x <? y)
  | VStr _, VDatetime _ =>
      inl (TypeError "'<' not supported between instances of 'str' and 'datetime.datetime'")
  | VDatetime _, VStr _ =>
      inl (TypeError "'<' not supported between instances of 'datetime.datetime' and 'str'")
  end.

(** Truth value of a string: empty strings are false. *)
Definition truthy (s : string) : bool := negb (String.eqb s "").

End Py.

(** ** The monad of the methods: state, exceptions and a trace *)

Module FM.
Import Py.

(** One entry of [FileManager.metadata]. *)
Record file_meta := {
  filename : string;
  path : string;
  mime_type : string;
  size_bytes : nat;
  created_at : string;
  type : string
}.

(** The part of the file system the store touches: the regular files by
    path, the paths the process may neither open for writing nor unlink,
    and the room left on the device. *)
Record disk := {
  files : gmap string (list byte);
  protected : gset string;
  free_bytes : nat
}.

(** A [FileManager] object and the disk under it. *)
Record state := {
  uploads_dir : string;
  results_dir : string;
  metadata : gmap string file_meta;
  fs : disk
}.

Definition set_metadata (md : gmap string file_meta) (s : state) : state :=
  {| uploads_dir := uploads_dir s; results_dir := results_dir s;
     metadata := md; fs := fs s |}.

Definition set_fs (d : disk) (s : state) : state :=
  {| uploads_dir := uploads_dir s; results_dir := results_dir s;
     metadata := metadata s; fs := d |}.

Definition set_files (fl : gmap string (list byte)) (free : nat) (d : disk) : disk :=
  {| files := fl; protected := protected d; free_bytes := free |}.

Inductive outcome (A : Type) :=
| Return (a : A)
| Raise (e : exn).
Arguments Return {A} a.
Arguments Raise {A} e.

(** What running a method gives: how it ended, the state it left, and the
    states it went through (one per change, the last one being [final]). *)
Record run (A : Type) := Run {
  result : outcome A;
  final : state;
  trace : list state
}.
Arguments Run {A} _ _ _.
Arguments result {A} _.
Arguments final {A} _.
Arguments trace {A} _.

Definition M (A : Type) : Type := state -> run A.

Definition ret {A} (a : A) : M A := fun s => Run (Return a) s [].
Definition raise {A} (e : exn) : M A := fun s => Run (Raise e) s [].
Definition get : M state := fun s => Run (Return s) s [].
Definition put (s' : state) : M unit := fun _ => Run (Return tt) s' [s'].

Definition bind {A B} (m : M A) (f : A -> M B) : M B :=
  fun s =>
    let r := m s in
    match result r with
    | Return a =>
        let r2 := f a (final r) in
        Run (result r2) (final r2) (trace r ++ trace r2)%list
    | Raise e => Run (Raise e) (final r) (trace r)
    end.

(** [try: body except Exception as e: handler e] *)
Definition try_except {A} (body : M A) (handler : exn -> M A) : M A :=
  fun s =>
    let r := body s in
    match result r with
    | Return a => r
    | Raise e =>
        let r2 := handler e (final r) in
        Run (result r2) (final r2) (trace r ++ trace r2)%list
    end.

Declare Scope py_scope.
Delimit Scope py_scope with py.
Notation "x <- m ;; k" := (bind m (fun x => k))
  (at level 100, m at next level, right associativity) : py_scope.
Notation "m ;; k" := (bind m (fun _ => k))
  (at level 100, right associativity) : py_scope.
Local Open Scope py_scope.

(** [for x in l: acc = body x acc] *)
Fixpoint for_each {A S} (l : list A) (acc : S) (body : A -> S -> M S) : M S :=
  match l with
  | [] => ret acc
  | x :: tl => acc' <- body x acc ;; for_each tl acc' body
  end.

Definition lift {A} (r : exn + A) : M A :=
  match r with
  | inl e => raise e
  | inr a => ret a
  end.

(** *** The file system calls *)

(** [Path.exists()] *)
Definition path_exists (p : string) : M bool :=
  s <- get ;; ret (bool_decide (is_Some (files (fs s) !! p))).

(** [Path.unlink()] *)
Definition unlink (p : string) : M unit :=
  s <- get ;;
  if bool_decide (p ∈ protected (fs s))
  then raise (PermissionError ("[Errno 13] Permission denied: '" ++ p ++ "'"))
  else match files (fs s) !! p with
       | None => raise (FileNotFoundError ("[Errno 2] No such file or directory: '" ++ p ++ "'"))
       | Some _ => put (set_fs (set_files (delete p (files (fs s))) (free_bytes (fs s)) (fs s)) s)
       end.

(** [Path.write_bytes(data)]: the file is opened for writing, which
    creates it or empties it, and then filled; when the device has less
    room than [data] needs the file keeps what fitted and [OSError] is
    raised. *)
Definition write_bytes (p : string) (data : list byte) : M unit :=
  s <- get ;;
  if bool_decide (p ∈ protected (fs s))
  then raise (PermissionError ("[Errno 13] Permission denied: '" ++ p ++ "'"))
  else
    put (set_fs (set_files (<[p := []]> (files (fs s))) (free_bytes (fs s)) (fs s)) s) ;;
    s <- get ;;
    let room := free_bytes (fs s) in
    if (length data <=? room)%nat
    then put (set_fs (set_files (<[p := data]> (files (fs s))) (room - length data) (fs s)) s)
    else
      put (set_fs (set_files (<[p := take room data]> (files (fs s))) 0 (fs s)) s) ;;
      raise (OSError "[Errno 28] No space left on device").

(** *** [FileManager] *)

(** [FileManager._sanitize_filename], in the three stages of its body:
    the replacements, the length limit, the default. *)
Definition dangerous_chars : list string :=
  [".."; "/"; "\"; String zero EmptyString].

Definition strip_dangerous (filename : string) : string :=
  fold_left (fun filename char => replace char "_" filename) dangerous_chars filename.

(** [len(filename) > 255] and [name[:250]] count characters; a character
    is one [ascii], a code point below 256. *)
Definition limit_length (filename : string) : string :=
  if (255 <? len filename)%nat
  then let '(name, ext) := splitext filename in str_take 250 name ++ ext
  else filename.

Definition _sanitize_filename (filename : string) : string :=
  let filename := path_name filename in
  let filename := strip_dangerous filename in
  let filename := limit_length filename in
  if truthy filename then filename else "document.pdf".

(** [self.uploads_dir / f"{file_id}{file_extension}"] as [save_upload]
    computes it; [str] of the joined path puts one separator between the
    directory and a relative last component. *)
Definition upload_location (dir file_id original_filename : string) : string :=
  let safe_filename := _sanitize_filename original_filename in
  let file_extension :=
    if truthy (path_suffix safe_filename) then path_suffix safe_filename else ".pdf" in
  dir ++ "/" ++ file_id ++ file_extension.

(** [FileManager.save_upload]; [file_id] is [str(uuid.uuid4())] and
    [utcnow] is [datetime.utcnow()]. *)
Definition save_upload (file_id : string) (utcnow : Z)
    (content : list byte) (original_filename : string) : M string :=
  try_except
    (let safe_filename := _sanitize_filename original_filename in
     s <- get ;;
     let file_path := upload_location (uploads_dir s) file_id original_filename in
     write_bytes file_path content ;;
     s <- get ;;
     put (set_metadata
            (<[file_id := {| filename := safe_filename;
                             path := file_path;
                             mime_type := "application/pdf";
                             size_bytes := length content;
                             created_at := isoformat utcnow;
                             type := "upload" |}]> (metadata s)) s) ;;
     ret file_id)
    (fun e => raise (ValueError ("Failed to save file: " ++ exn_str e))).

(** [FileManager.get_file_path] *)
Definition get_file_path (file_id : string) : M string :=
  s <- get ;;
  match metadata s !! file_id with
  | None => raise (ValueError ("File not found: " ++ file_id))
  | Some m => ret (path m)
  end.

(** [FileManager.get_file_info] *)
Definition get_file_info (file_id : string) : M file_meta :=
  s <- get ;;
  match metadata s !! file_id with
  | None => raise (ValueError ("File not found: " ++ file_id))
  | Some m => ret m
  end.

(** [FileManager.file_exists] *)
Definition file_exists (file_id : string) : M bool :=
  s <- get ;;
  match metadata s !! file_id with
  | None => ret false
  | Some m => path_exists (path m)
  end.

(** [FileManager.delete_file]; the handler only logs a warning. *)
Definition delete_file (file_id : string) : M unit :=
  try_except
    (s <- get ;;
     match metadata s !! file_id with
     | Some m =>
         let file_path := path m in
         ex <- path_exists file_path ;;
         (if ex then unlink file_path else ret tt) ;;
         s <- get ;;
         put (set_metadata (delete file_id (metadata s)) s)
     | None => ret tt
     end)
    (fun e => ret tt).

(** One turn of the loop of [cleanup_old_files]. *)
Definition sweep_turn (cutoff_time : Z) (file_id : string) (deleted_count : Z) : M Z :=
  s <- get ;;
  match metadata s !! file_id with
  | Some metadata =>
      let created_at := created_at metadata in
      if truthy created_at
      then
        older <- lift (lt (VStr created_at) (VDatetime cutoff_time)) ;;
        if older : bool
        then delete_file file_id ;; ret (deleted_count + 1)
        else ret deleted_count
      else ret deleted_count
  | None => ret deleted_count
  end.

(** [FileManager.cleanup_old_files]; [now] is [datetime.now()]. *)
Definition cleanup_old_files (hours : Z) (now : Z) : M Z :=
  try_except
    (let cutoff_time := now - timedelta_hours hours in
     s <- get ;;
     let file_ids := (map_to_list (metadata s)).*1 in
     for_each file_ids 0 (sweep_turn cutoff_time))
    (fun e => ret 0).

(** The states [write_bytes] and [save_upload] go through: the file
    opened and still empty, the file holding all of the data, the file
    holding what fitted on the device, and the entry inserted. *)
Definition opened (p : string) (s : state) : state :=
  set_fs (set_files (<[p := []]> (files (fs s))) (free_bytes (fs s)) (fs s)) s.

Definition written (p : string) (data : list byte) (s : state) : state :=
  set_fs (set_files (<[p := data]> (files (fs (opened p s))))
            (free_bytes (fs s) - length data) (fs (opened p s))) (opened p s).

Definition truncated (p : string) (data : list byte) (s : state) : state :=
  set_fs (set_files (<[p := take (free_bytes (fs s)) data]> (files (fs (opened p s))))
            0 (fs (opened p s))) (opened p s).

Definition registered (file_id : string) (utcnow : Z) (content : list byte)
    (name : string) (s : state) : state :=
  let p := upload_location (uploads_dir s) file_id name in
  set_metadata
    (<[file_id := {| filename := _sanitize_filename name;
                     path := p;
                     mime_type := "application/pdf";
                     size_bytes := length content;
                     created_at := isoformat utcnow;
                     type := "upload" |}]> (metadata s))
    (written p content s).

(** Whether the [unlink] inside [delete_file] is reached and raises. *)
Definition unlink_raises (file_id : string) (s : state) : bool :=
  match metadata s !! file_id with
  | Some m =>
      match result (path_exists (path m) s), result (unlink (path m) s) with
      | Return true, Raise _ => true
      | _, _ => false
      end
  | None => false
  end.

(** "[file_id] is not found": what [get_file_path] and [get_file_info]
    answer for an id without entry. *)
Definition not_found (file_id : string) (s : state) : Prop :=
  result (get_file_path file_id s) = Raise (ValueError ("File not found: " ++ file_id)) /\
  result (get_file_info file_id s) = Raise (ValueError ("File not found: " ++ file_id)).

(** The isolation the specification asks of every [delete_file]. *)
Definition not_found_after_delete (file_id : string) (s : state) : Prop :=
  not_found file_id (final (delete_file file_id s)).

(** No state a reader can see has an entry for [file_id] whose file does
    not hold all of [content]. *)
Definition never_half_written (file_id : string) (content : list byte)
    (seen : list state) : Prop :=
  Forall (fun s' => forall m, metadata s' !! file_id = Some m ->
                      files (fs s') !! path m = Some content) seen.

(** The location of an upload does not depend on the name the caller
    supplied. *)
Definition location_ignores_name (dir file_id name1 name2 : string) : Prop :=
  upload_location dir file_id name1 = upload_location dir file_id name2.

(** *** The rest of [FileManager] *)

(** [FileManager.get_temp_path]; [temp_id] is [str(uuid.uuid4())]. *)
Definition get_temp_path (temp_id suffix : string) : M string :=
  s <- get ;; ret (results_dir s ++ "/" ++ "temp_" ++ temp_id ++ suffix).

(** [Path.stat().st_size] *)
Definition stat_size (p : string) : M nat :=
  s <- get ;;
  match files (fs s) !! p with
  | Some data => ret (length data)
  | None => raise (FileNotFoundError ("[Errno 2] No such file or directory: '" ++ p ++ "'"))
  end.

(** [shutil.copy2(src, dst)] between two file paths given as [Path]s: the
    source is read, and the destination written as [write_bytes] writes;
    copying a file onto itself is refused with [shutil.SameFileError], an
    [OSError]. *)
Definition copy2 (src dst : string) : M unit :=
  s <- get ;;
  match files (fs s) !! src with
  | Some data =>
      if String.eqb src dst
      then raise (OSError ("PosixPath('" ++ src ++ "') and PosixPath('" ++ dst ++
                           "') are the same file"))
      else write_bytes dst data
  | None => raise (FileNotFoundError ("[Errno 2] No such file or directory: '" ++ src ++ "'"))
  end.

(** [self.results_dir / f"{file_id}{file_extension}"] as [save_result]
    computes it: here a name without suffix gets none. *)
Definition result_location (dir file_id original_filename : string) : string :=
  dir ++ "/" ++ file_id ++ path_suffix (_sanitize_filename original_filename).

(** The entry [save_result] inserts for a file of [data] at [p]. *)
Definition result_entry (file_id : string) (utcnow : Z) (name mime : string)
    (p : string) (data : list byte) : file_meta :=
  {| filename := _sanitize_filename name;
     path := p;
     mime_type := mime;
     size_bytes := length data;
     created_at := isoformat utcnow;
     type := "result" |}.

(** [FileManager.save_result]; [file_id] is [str(uuid.uuid4())] and
    [utcnow] is [datetime.utcnow()]. *)
Definition save_result (file_id : string) (utcnow : Z)
    (source_path original_filename mime_type : string) : M string :=
  try_except
    (let safe_filename := _sanitize_filename original_filename in
     s <- get ;;
     let result_path := result_location (results_dir s) file_id original_filename in
     copy2 source_path result_path ;;
     s <- get ;;
     size <- stat_size result_path ;;
     put (set_metadata
            (<[file_id := {| filename := safe_filename;
                             path := result_path;
                             mime_type := mime_type;
                             size_bytes := size;
                             created_at := isoformat utcnow;
                             type := "result" |}]> (metadata s)) s) ;;
     ret file_id)
    (fun e => raise (ValueError ("Failed to save result: " ++ exn_str e))).

(** The store after [delete_file] has been called for each id in turn. *)
Definition delete_all (ids : list string) (st : state) : state :=
  fold_left (fun st file_id => final (delete_file file_id st)) ids st.

End FM.

(** ** Deferred deletion: [schedule_cleanup] on the event loop *)

Module Loop.

(** The event loop as far as [schedule_cleanup] uses it: the store, the
    loop's clock in seconds, and the [schedule_cleanup] coroutines that
    are suspended in [asyncio.sleep], each with the instant at which its
    sleep ends and the [file_id] it was called with. *)
Record world := {
  store : FM.state;
  clock : Z;
  sleeping : list (Z * string)
}.

(** [FileManager.schedule_cleanup] up to its [await asyncio.sleep]. *)
Definition schedule_cleanup (file_id : string) (delay_seconds : Z) (w : world) : world :=
  {| store := store w;
     clock := clock w;
     sleeping := (sleeping w ++ [(clock w + delay_seconds, file_id)])%list |}.

(** [FileManager.schedule_cleanup] after the sleep:
    [self.delete_file(file_id)]. *)
Definition wake (st : FM.state) (sleeper : Z * string) : FM.state :=
  FM.final (FM.delete_file sleeper.2 st).

(** Sleepers wake in the order of their deadlines. *)
Fixpoint insert_sleeper (x : Z * string) (l : list (Z * string)) : list (Z * string) :=
  match l with
  | [] => [x]
  | y :: tl => if x.1 <=? y.1 then x :: y :: tl else y :: insert_sleeper x tl
  end.

Definition by_deadline (l : list (Z * string)) : list (Z * string) :=
  fold_right insert_sleeper [] l.

(** The loop runs until its clock shows [t]: every sleeper whose
    deadline is reached by then wakes, the others stay suspended. *)
Definition run_until (t : Z) (w : world) : world :=
  let due := List.filter (fun x => x.1 <=? t) (sleeping w) in
  {| store := fold_left wake (by_deadline due) (store w);
     clock := Z.max (clock w) t;
     sleeping := List.filter (fun x => negb (x.1 <=? t)) (sleeping w) |}.

(** The deadlines pending for [file_id]. *)
Definition deadlines_of (file_id : string) (w : world) : list Z :=
  List.map fst (List.filter (fun x => String.eqb x.2 file_id) (sleeping w)).

(** Registering a second expiry for an id replaces the first: what the
    specification says of the expiry registry. *)
Definition reschedule_replaces (file_id : string) (delay1 delay2 : Z) (w : world) : Prop :=
  deadlines_of file_id
    (schedule_cleanup file_id delay2 (schedule_cleanup file_id delay1 w))
  = [clock w + delay2].

End Loop.

(** ** The periodic sweep: [CleanupScheduler] *)

Module Sched.

(** Where a [_cleanup_loop] task stands between two runs: created by
    [asyncio.create_task] and not yet run, suspended in
    [asyncio.sleep(self.cleanup_interval)], or returned. *)
Inductive task :=
| Created
| Sleeping
| Done.

(** A [CleanupScheduler] with the [_cleanup_loop] tasks it has spawned;
    [sweeps] counts the calls of [_run_cleanup] so far. *)
Record state := {
  file_manager : FM.state;
  is_running : bool;
  tasks : list task;
  sweeps : nat
}.

Definition init (fm : FM.state) : state :=
  {| file_manager := fm; is_running := false; tasks := []; sweeps := 0 |}.

(** [CleanupScheduler.start] *)
Definition start (s : state) : state :=
  if is_running s then s
  else {| file_manager := file_manager s;
          is_running := true;
          tasks := (tasks s ++ [Created])%list;
          sweeps := sweeps s |}.

(** [CleanupScheduler.stop] *)
Definition stop (s : state) : state :=
  {| file_manager := file_manager s;
     is_running := false;
     tasks := tasks s;
     sweeps := sweeps s |}.

(** [CleanupScheduler._run_cleanup]: the sweep of the files, with the
    handler that logs what [cleanup_old_files] raises.  The job records
    it cleans next belong to the job tracker and are not part of this
    state. *)
Definition _run_cleanup (now : Z) (s : state) : state :=
  {| file_manager :=
       FM.final (FM.try_except (FM.cleanup_old_files 1 now) (fun e => FM.ret 0)
                   (file_manager s));
     is_running := is_running s;
     tasks := tasks s;
     sweeps := S (sweeps s) |}.

(** The test [while self.is_running] at the head of [_cleanup_loop]:
    the task goes to sleep or returns. *)
Definition loop_head (i : nat) (s : state) : state :=
  {| file_manager := file_manager s;
     is_running := is_running s;
     tasks := <[i := if is_running s then Sleeping else Done]> (tasks s);
     sweeps := sweeps s |}.

(** The event loop runs task [i] until it suspends again or returns.  A
    task that was sleeping continues behind [asyncio.sleep]: it sweeps
    and only then reaches the head of the loop. *)
Definition resume (i : nat) (now : Z) (s : state) : state :=
  match tasks s !! i with
  | Some Created => loop_head i s
  | Some Sleeping => loop_head i (_run_cleanup now s)
  | Some Done | None => s
  end.

Inductive event :=
| Start
| Stop
| Resume (i : nat) (now : Z).

Definition step (s : state) (e : event) : state :=
  match e with
  | Start => start s
  | Stop => stop s
  | Resume i now => resume i now s
  end.

Definition steps (s : state) (evs : list event) : state := fold_left step evs s.



(** The number of loops suspended in their sleep. *)
Definition is_asleep (t : task) : bool :=
  match t with Sleeping => true | _ => false end.

Definition asleep (s : state) : nat :=
  length (List.filter is_asleep (tasks s)).


End Sched.

(** ** Admission control: [RateLimiter] *)

Module RL.
Import Py.

Record state := {
  requests : gmap string (list Z);
  upload_requests : gmap string (list Z)
}.

Definition init : state := {| requests := ∅; upload_requests := ∅ |}.

(** Reading [d[ip]] from a [defaultdict(list)]. *)
Definition getitem (d : gmap string (list Z)) (ip : string) : list Z :=
  default [] (d !! ip).

Definition set_requests (d : gmap string (list Z)) (s : state) : state :=
  {| requests := d; upload_requests := upload_requests s |}.

Definition set_upload_requests (d : gmap string (list Z)) (s : state) : state :=
  {| requests := requests s; upload_requests := d |}.

(** [RateLimiter._clean_old_requests]; [now] is [datetime.now()]. *)
Definition _clean_old_requests (ip : string) (window_seconds : Z) (now : Z)
    (s : state) : state :=
  let cutoff := now - timedelta_seconds window_seconds in
  set_requests
    (<[ip := List.filter (fun timestamp => cutoff <? timestamp)
               (getitem (requests s) ip)]> (requests s)) s.

(** [RateLimiter._clean_old_uploads] *)
Definition _clean_old_uploads (ip : string) (window_seconds : Z) (now : Z)
    (s : state) : state :=
  let cutoff := now - timedelta_seconds window_seconds in
  set_upload_requests
    (<[ip := List.filter (fun timestamp => cutoff <? timestamp)
               (getitem (upload_requests s) ip)]> (upload_requests s)) s.

(** [RateLimiter.is_allowed]; the clock is read twice, [now_clean] in
    [_clean_old_requests] and [now_record] for the appended timestamp. *)
Definition is_allowed (ip : string) (max_requests window_seconds : Z)
    (now_clean now_record : Z) (s : state) : bool * state :=
  let s := _clean_old_requests ip window_seconds now_clean s in
  if max_requests <=? Z.of_nat (length (getitem (requests s) ip))
  then (false, s)
  else (true, set_requests
                (<[ip := (getitem (requests s) ip ++ [now_record])%list]> (requests s)) s).

(** [RateLimiter.is_upload_allowed] *)
Definition is_upload_allowed (ip : string) (max_uploads window_seconds : Z)
    (now_clean now_record : Z) (s : state) : bool * state :=
  let s := _clean_old_uploads ip window_seconds now_clean s in
  if max_uploads <=? Z.of_nat (length (getitem (upload_requests s) ip))
  then (false, s)
  else (true, set_upload_requests
                (<[ip := (getitem (upload_requests s) ip ++ [now_record])%list]>
                   (upload_requests s)) s).

(** The timestamps of [ip] that [_clean_old_requests] keeps. *)
Definition kept (ip : string) (window_seconds now : Z) (s : state) : list Z :=
  List.filter (fun timestamp => now - timedelta_seconds window_seconds <? timestamp)
    (getitem (requests s) ip).

(** The admission rule in the words of the specification, to compare
    [is_allowed] with: the timestamps older than [now - window] are
    discarded, and the rest decides. *)
Definition is_allowed_as_specified (ip : string) (max_requests window_seconds : Z)
    (now : Z) (s : state) : bool * state :=
  let cutoff := now - timedelta_seconds window_seconds in
  let remaining :=
    List.filter (fun timestamp => negb (timestamp <? cutoff)) (getitem (requests s) ip) in
  if max_requests <=? Z.of_nat (length remaining)
  then (false, set_requests (<[ip := remaining]> (requests s)) s)
  else (true, set_requests (<[ip := (remaining ++ [now])%list]> (requests s)) s).

(** *** Runs of calls *)

(** One identity calls [is_allowed] again and again with the same limit
    and window; each call comes with its two readings of the clock. *)
Fixpoint serve (ip : string) (max_requests window_seconds : Z)
    (calls : list (Z * Z)) (s : state) : list bool * state :=
  match calls with
  | [] => ([], s)
  | (now_clean, now_record) :: rest =>
      let r := is_allowed ip max_requests window_seconds now_clean now_record s in
      let rs := serve ip max_requests window_seconds rest r.2 in
      (r.1 :: rs.1, rs.2)
  end.

(** The same for [is_upload_allowed]. *)
Fixpoint serve_uploads (ip : string) (max_uploads window_seconds : Z)
    (calls : list (Z * Z)) (s : state) : list bool * state :=
  match calls with
  | [] => ([], s)
  | (now_clean, now_record) :: rest =>
      let r := is_upload_allowed ip max_uploads window_seconds now_clean now_record s in
      let rs := serve_uploads ip max_uploads window_seconds rest r.2 in
      (r.1 :: rs.1, rs.2)
  end.

(** The timestamps of the calls that were admitted. *)
Fixpoint granted (calls : list (Z * Z)) (answers : list bool) : list Z :=
  match calls, answers with
  | (_, now_record) :: calls, true :: answers => now_record :: granted calls answers
  | _ :: calls, false :: answers => granted calls answers
  | _, _ => []
  end.

(** The clock does not run backwards: each reading is at least the one
    before, within a call and from one call to the next. *)
Fixpoint clock_runs_forward (from : Z) (calls : list (Z * Z)) : bool :=
  match calls with
  | [] => true
  | (now_clean, now_record) :: rest =>
      (from <=? now_clean) && (now_clean <=? now_record) && clock_runs_forward now_record rest
  end.

(** The timestamps of [l] that are newer than [cutoff]. *)
Definition newer (cutoff : Z) (l : list Z) : list Z :=
  List.filter (fun timestamp => cutoff <? timestamp) l.

(** The table of [ip] and the admitted timestamps [A] hold the same
    timestamps newer than any cutoff from [k] on. *)
Definition tracks (ip : string) (s : state) (A : list Z) (k : Z) : Prop :=
  forall c, k <= c -> newer c (getitem (requests s) ip) = newer c A.

(** The limiter with its two tables exchanged. *)
Definition swap_tables (s : state) : state :=
  {| requests := upload_requests s; upload_requests := requests s |}.

End RL.

(** ** The middleware: [RateLimitMiddleware] *)

Module Mw.
Import Py RL.

(** What [dispatch] reads of a request. *)
Record request := {
  client_host : string;
  url_path : string;
  http_method : string
}.

(** [RateLimitMiddleware.dispatch] up to [call_next]: [inr tt] when the
    request is handed on, the [HTTPException] raised otherwise.  The four
    times are the readings of the clock inside [is_allowed] and, for an
    upload, inside [is_upload_allowed]. *)
Definition dispatch (req : request) (t1 t2 t3 t4 : Z) (rl : state)
  : (exn + unit) * state :=
  let client_ip := client_host req in
  let general := is_allowed client_ip 60 60 t1 t2 rl in
  if negb general.1
  then (inl (HTTPException 429
               "Too many requests. Please try again later. (Limit: 60 requests/minute)"),
        general.2)
  else
    if String.eqb (url_path req) "/api/upload" && String.eqb (http_method req) "POST"
    then
      let upload := is_upload_allowed client_ip 5 600 t3 t4 general.2 in
      if negb upload.1
      then (inl (HTTPException 429
                   "Too many uploads. Please try again later. (Limit: 5 uploads per 10 minutes)"),
            upload.2)
      else (inr tt, upload.2)
    else (inr tt, general.2).

Definition is_upload (req : request) : bool :=
  String.eqb (url_path req) "/api/upload" && String.eqb (http_method req) "POST".

(** The two refusals of [dispatch]. *)
Definition general_refusal : exn :=
  HTTPException 429 "Too many requests. Please try again later. (Limit: 60 requests/minute)".

Definition upload_refusal : exn :=
  HTTPException 429 "Too many uploads. Please try again later. (Limit: 5 uploads per 10 minutes)".

End Mw.

(** ** The download endpoint *)

Module Api.
Import Py FM.
Local Open Scope py_scope.

Inductive response :=
| FileResponse (path filename media_type : string).

(** [download_file] of [app/main.py]: [HTTPException] passes through the
    first handler, every other exception becomes a 500. *)
Definition download_file (file_id : string) : M response :=
  try_except
    (file_path <- get_file_path file_id ;;
     ex <- path_exists file_path ;;
     (if negb ex
      then raise (HTTPException 404 ("File not found or has expired: " ++ file_id))
      else ret tt) ;;
     file_info <- get_file_info file_id ;;
     ret (FileResponse file_path (filename file_info) (mime_type file_info)))
    (fun e =>
       if is_HTTPException e then raise e
       else raise (HTTPException 500 ("Failed to download file: " ++ exn_str e))).

(** The status the client sees. *)
Definition status_of (r : run response) : Z :=
  match result r with
  | Return _ => 200
  | Raise (HTTPException c _) => c
  | Raise _ => 500
  end.

(** *** The other endpoints of [app/main.py] that work on the store *)

(** [delete_file] of [app/main.py]; the answer is the message of the
    dictionary it returns. *)
Definition delete_file (file_id : string) : M string :=
  try_except
    (FM.delete_file file_id ;;
     ret ("File " ++ file_id ++ " deleted successfully"))
    (fun e => raise (HTTPException 404 ("File not found: " ++ file_id))).

(** The constants of [app/utils/validators.py]. *)
Definition MAX_FILE_SIZE : Z := 50 * 1024 * 1024.
Definition DEFAULT_PAGE_LIMIT : Z := 50.
Definition HARD_PAGE_LIMIT : Z := 100.

(** The uploaded file as [upload_pdf] reads it. *)
Record UploadFile := {
  content_type : string;
  upload_filename : string;
  body : list byte
}.

(** [round(n / (1024 * 1024), 2)] in hundredths.  The quotient of a
    length below 2^53 by a power of two is an exact float, and both
    [round] and the format [.2f] round its exact value to the nearest
    hundredth, ties to even. *)
Definition hundredths_mb (n : Z) : Z :=
  let q := 100 * n / 1048576 in
  let rem := (100 * n) mod 1048576 in
  if (524288 <? rem) || ((rem =? 524288) && Z.odd q) then q + 1 else q.

(** [f"{x:.2f}"] of a number of hundredths. *)
Definition format_2f (h : Z) : string :=
  pad_dec 0 (h / 100) ++ "." ++ pad_dec 2 (h mod 100).

(** [validate_file_size] as [upload_pdf] calls it, with the default
    [max_size], whose [max_mb] prints as [50.0]. *)
Definition validate_file_size (file : UploadFile) : M (list byte) :=
  let contents := body file in
  let file_size := Z.of_nat (length contents) in
  if MAX_FILE_SIZE <? file_size
  then raise (HTTPException 413
                ("File too large. Maximum size is 50.0MB. Your file is " ++
                 format_2f (hundredths_mb file_size) ++ "MB."))
  else ret contents.

(** The dictionary [validate_pdf_pages] returns. *)
Record pdf_validation := {
  page_count : Z;
  is_within_default : bool;
  is_within_hard_limit : bool;
  warning : option string
}.

(** [validate_pdf_pages] with the default [default_limit].  [fitz_open]
    stands for PyMuPDF: the page count it reports for the bytes of a
    file, or [None] when [fitz.open] raises. *)
Definition validate_pdf_pages (fitz_open : list byte -> option Z) (pdf_path : string)
  : M pdf_validation :=
  try_except
    (s <- get ;;
     match files (fs s) !! pdf_path ≫= fitz_open with
     | None => raise (OSError ("Failed to open file '" ++ pdf_path ++ "'."))
     | Some page_count =>
         if HARD_PAGE_LIMIT <? page_count
         then raise (HTTPException 413
                       ("PDF has too many pages. Maximum is " ++ pad_dec 0 HARD_PAGE_LIMIT ++
                        " pages. Your PDF has " ++ pad_dec 0 page_count ++ " pages."))
         else ret {| page_count := page_count;
                     is_within_default := page_count <=? DEFAULT_PAGE_LIMIT;
                     is_within_hard_limit := page_count <=? HARD_PAGE_LIMIT;
                     warning :=
                       if page_count <=? DEFAULT_PAGE_LIMIT then None
                       else Some ("PDF has " ++ pad_dec 0 page_count ++
                                  " pages. Processing may be slower for large documents.") |}
     end)
    (fun e =>
       if is_HTTPException e then raise e
       else raise (HTTPException 400 "Invalid PDF file. Unable to read document.")).

(** [UploadResponse]; [size_mb] in hundredths. *)
Record UploadResponse := {
  response_file_id : string;
  response_filename : string;
  response_page_count : Z;
  response_size_mb : Z
}.

(** The body of [upload_pdf] inside its [try], without the registration
    of the background task, which changes nothing of the store. *)
Definition upload_pdf_store (fitz_open : list byte -> option Z) (file : UploadFile)
    (file_id : string) (utcnow : Z) : M UploadResponse :=
  try_except
    ((if negb (String.eqb (content_type file) "application/pdf")
      then raise (HTTPException 400 "Invalid file type. Only PDF files are accepted.")
      else ret tt) ;;
     content <- validate_file_size file ;;
     file_id <- save_upload file_id utcnow content (upload_filename file) ;;
     file_path <- get_file_path file_id ;;
     pdf_validation <- validate_pdf_pages fitz_open file_path ;;
     ret {| response_file_id := file_id;
            response_filename := upload_filename file;
            response_page_count := page_count pdf_validation;
            response_size_mb := hundredths_mb (Z.of_nat (length content)) |})
    (fun e =>
       if is_HTTPException e then raise e
       else raise (HTTPException 500 ("Failed to upload PDF: " ++ exn_str e))).

(** [upload_pdf] on the event loop: when the body has not raised and
    [background_tasks] is there, [schedule_cleanup] is registered for the
    new id with a delay of 3600 seconds.  Nothing between the
    registration and the [return] can raise, so the registration is placed
    after the body; the task starts to sleep at the loop's time of the
    request. *)
Definition upload_pdf (fitz_open : list byte -> option Z) (file : UploadFile)
    (background_tasks : bool) (file_id : string) (utcnow : Z) (w : Loop.world)
  : outcome UploadResponse * Loop.world :=
  let r := upload_pdf_store fitz_open file file_id utcnow (Loop.store w) in
  let w' := {| Loop.store := final r; Loop.clock := Loop.clock w;
               Loop.sleeping := Loop.sleeping w |} in
  match result r with
  | Return response =>
      (Return response,
       if background_tasks then Loop.schedule_cleanup file_id 3600 w' else w')
  | Raise e => (Raise e, w')
  end.

End Api.

(** ** Shutdown: [cleanup_all] and the directories *)

Module Dirs.
Import Py FM.

(** The store together with the directories that exist. *)
Record world := {
  store : FM.state;
  dirs : gset string
}.

Definition M (A : Type) : Type := world -> outcome A * world.

Definition ret {A} (a : A) : M A := fun w => (Return a, w).
Definition raise {A} (e : exn) : M A := fun w => (Raise e, w).

Definition bind {A B} (m : M A) (f : A -> M B) : M B :=
  fun w =>
    match m w with
    | (Return a, w') => f a w'
    | (Raise e, w') => (Raise e, w')
    end.

Definition try_except {A} (body : M A) (handler : exn -> M A) : M A :=
  fun w =>
    match body w with
    | (Return a, w') => (Return a, w')
    | (Raise e, w') => handler e w'
    end.

(** A method of the store run in the world. *)
Definition lift {A} (m : FM.M A) : M A :=
  fun w =>
    let r := m (store w) in
    (result r, {| store := final r; dirs := dirs w |}).

Fixpoint for_each {A} (l : list A) (body : A -> M unit) : M unit :=
  match l with
  | [] => ret tt
  | x :: tl => bind (body x) (fun _ => for_each tl body)
  end.

(** The directory a path lies in: the path up to its last separator. *)
Definition parent (p : string) : string :=
  str_take (Z.to_nat (rfind "/" p)) p.

(** [Path.exists()] of a path that may be a directory or a file. *)
Definition path_exists (d : string) : M bool :=
  fun w => (Return (bool_decide (d ∈ dirs w) ||
                    bool_decide (is_Some (files (fs (store w)) !! d))), w).

(** [any(directory.iterdir())]: whether a file or a directory lies in
    [d]; on a path that is not a directory [iterdir] raises. *)
Definition iterdir_any (d : string) : M bool :=
  fun w =>
    if bool_decide (d ∈ dirs w)
    then (Return (existsb (fun p => String.eqb (parent p) d)
                    ((map_to_list (files (fs (store w)))).*1 ++ elements (dirs w))%list), w)
    else (Raise (OSError ("[Errno 20] Not a directory: '" ++ d ++ "'")), w).

(** [Path.rmdir()] *)
Definition rmdir (d : string) : M unit :=
  fun w =>
    if bool_decide (d ∈ protected (fs (store w)))
    then (Raise (PermissionError ("[Errno 13] Permission denied: '" ++ d ++ "'")), w)
    else if existsb (fun p => String.eqb (parent p) d)
              ((map_to_list (files (fs (store w)))).*1 ++ elements (dirs w))%list
         then (Raise (OSError ("[Errno 39] Directory not empty: '" ++ d ++ "'")), w)
         else (Return tt, {| store := store w; dirs := dirs w ∖ {[d]} |}).

(** One turn of the loop of [cleanup_all] over the two directories:
    [if directory.exists() and not any(directory.iterdir()):
    directory.rmdir()]. *)
Definition remove_if_empty (directory : string) : M unit :=
  bind (path_exists directory) (fun ex =>
    if ex
    then bind (iterdir_any directory) (fun occupied =>
           if negb occupied then rmdir directory else ret tt)
    else ret tt).

(** [FileManager.cleanup_all]; the handler only logs.  The ids are taken
    in the order of the map, which need not be the order of the
    dictionary's keys. *)
Definition cleanup_all : M unit :=
  try_except
    (fun w =>
       let file_ids := (map_to_list (metadata (store w))).*1 in
       bind (for_each file_ids (fun file_id => lift (FM.delete_file file_id)))
         (fun _ =>
            for_each [uploads_dir (store w); results_dir (store w)] remove_if_empty) w)
    (fun e => ret tt).

End Dirs.

(** ** Sample inputs *)

Module Sample.
Import Py FM.

Fixpoint repeat_char (n : nat) (c : ascii) : string :=
  match n with
  | O => ""
  | S k => String c (repeat_char k c)
  end.

(** A name of 259 characters: 249 letters, a dot, five letters, [.pdf]. *)
Definition long_name : string :=
  repeat_char 249 "a" ++ "." ++ "bbbbb" ++ ".pdf".

(** A name of 1002 characters: one letter and an extension of 1000. *)
Definition long_extension : string :=
  "a." ++ repeat_char 1000 "b".

Definition empty_disk : disk :=
  {| files := ∅; protected := ∅; free_bytes := 1000 |}.

(** A fresh [FileManager] after [initialize]. *)
Definition fresh : state :=
  {| uploads_dir := "/tmp/voice_pdf_assistant/uploads";
     results_dir := "/tmp/voice_pdf_assistant/results";
     metadata := ∅;
     fs := empty_disk |}.

Definition pdf_bytes : list byte := [x25; x50; x44; x46].

(** 2024-02-29T12:34:56.000123 *)
Definition upload_time : Z := 1709210096000123.

(** The store after one upload with id [f1]. *)
Definition one_upload : state :=
  final (save_upload "f1" upload_time pdf_bytes "report.pdf" fresh).

(** The same store when the process may no longer unlink the file. *)
Definition one_upload_protected : state :=
  set_fs {| files := files (fs one_upload);
            protected := {["/tmp/voice_pdf_assistant/uploads/f1.pdf"]};
            free_bytes := free_bytes (fs one_upload) |} one_upload.

(** The same store when the file has vanished from the disk. *)
Definition one_upload_file_missing : state :=
  set_fs empty_disk one_upload.

(** A device with room for two bytes only. *)
Definition nearly_full : state :=
  set_fs {| files := ∅; protected := ∅; free_bytes := 2 |} fresh.

(** An event loop with the one upload and nothing scheduled. *)
Definition idle_world : Loop.world :=
  {| Loop.store := one_upload; Loop.clock := 0; Loop.sleeping := [] |}.

(** A scheduler that was started and whose loop has gone to sleep. *)
Definition sleeping_scheduler : Sched.state :=
  Sched.steps (Sched.init one_upload) [Sched.Start; Sched.Resume 0 upload_time].

(** The store with a converted document waiting in a temporary file. *)
Definition with_temp_file : state :=
  set_fs {| files := <["/tmp/voice_pdf_assistant/results/temp_t1.docx" := pdf_bytes]>
                       (files (fs one_upload));
            protected := ∅;
            free_bytes := free_bytes (fs one_upload) |} one_upload.

(** The store with its two directories. *)
Definition at_shutdown : Dirs.world :=
  {| Dirs.store := one_upload;
     Dirs.dirs := {["/tmp/voice_pdf_assistant/uploads"; "/tmp/voice_pdf_assistant/results"]} |}.

(** An uploaded PDF and one that is not a PDF. *)
Definition pdf_upload : Api.UploadFile :=
  {| Api.content_type := "application/pdf";
     Api.upload_filename := "report.pdf";
     Api.body := pdf_bytes |}.

Definition text_upload : Api.UploadFile :=
  {| Api.content_type := "text/plain";
     Api.upload_filename := "notes.txt";
     Api.body := pdf_bytes |}.

(** An event loop over a fresh store. *)
Definition fresh_world : Loop.world :=
  {| Loop.store := fresh; Loop.clock := 0; Loop.sleeping := [] |}.

(** Requests as the middleware sees them. *)
Definition upload_request : Mw.request :=
  {| Mw.client_host := "ip1"; Mw.url_path := "/api/upload"; Mw.http_method := "POST" |}.

Definition health_request : Mw.request :=
  {| Mw.client_host := "ip1"; Mw.url_path := "/api/health"; Mw.http_method := "GET" |}.

(** Four calls of one identity: at 0 s, 1 s and 2 s, and at 60.5 s. *)
Definition early_calls : list (Z * Z) :=
  [(0, 0); (1000000, 1000000); (2000000, 2000000)].

Definition late_call : Z * Z := (60500000, 60500000).

End Sample.

(** * Properties *)

Import Py.

(** ** The primitives on examples *)

Section Primitives.

Example replace_is_leftmost_and_disjoint : replace ".." "_" "a...b....c" = "a_.b__c".
Proof. reflexivity. Qed.

Example replace_of_empty_pattern : replace "" "_" "ab" = "_a_b_".
Proof. reflexivity. Qed.

Example path_name_examples :
  path_name "../../etc/passwd" = "passwd" /\ path_name "a/b/." = "b" /\
  path_name "a//b/" = "b" /\ path_name "/" = "" /\ path_name "" = "" /\
  path_name ".." = ".." /\ path_name "a\b" = "a\b".
Proof. repeat split; reflexivity. Qed.

Example path_suffix_examples :
  path_suffix "a.tar.gz" = ".gz" /\ path_suffix ".bashrc" = "" /\
  path_suffix "abc." = "" /\ path_suffix "abc" = "".
Proof. repeat split; reflexivity. Qed.

Example splitext_examples :
  splitext "..abc.tar.gz" = ("..abc.tar", ".gz") /\ splitext "...gz" = ("...gz", "") /\
  splitext "abc" = ("abc", "") /\ splitext "a.b" = ("a", ".b").
Proof. repeat split; reflexivity. Qed.

Example rfind_examples : rfind "." "a.b.c" = 3 /\ rfind "." "abc" = -1.
Proof. split; reflexivity. Qed.

Example isoformat_examples :
  isoformat 0 = "1970-01-01T00:00:00" /\
  isoformat 1709210096000123 = "2024-02-29T12:34:56.000123" /\
  isoformat 951782400000000 = "2000-02-29T00:00:00".
Proof. repeat split; vm_compute; reflexivity. Qed.

Example lt_examples :
  lt (VDatetime 1) (VDatetime 2) = inr true /\
  lt (VStr "2024-01-01") (VStr "2024-01-02") = inr true /\
  lt (VStr "b") (VStr "a") = inr false.
Proof. repeat split; reflexivity. Qed.

End Primitives.

(** ** Running the methods of [FileManager] *)

Section FileManagerRuns.
Import FM.
Local Open Scope py_scope.

Lemma delete_file_unknown file_id s :
  metadata s !! file_id = None -> delete_file file_id s = Run (Return tt) s [].
Proof.
  intros H. unfold delete_file, try_except, bind, get. simpl. now rewrite H.
Qed.

(** The three ways a [delete_file] of a known id can go: the unlink is
    refused, the file is unlinked, or there was no file to unlink. *)
Lemma delete_file_known file_id s m :
  metadata s !! file_id = Some m ->
  delete_file file_id s =
    if bool_decide (is_Some (files (fs s) !! path m)) then
      if bool_decide (path m ∈ protected (fs s)) then Run (Return tt) s []
      else
        let s1 := set_fs (set_files (delete (path m) (files (fs s)))
                            (free_bytes (fs s)) (fs s)) s in
        let s2 := set_metadata (delete file_id (metadata s1)) s1 in
        Run (Return tt) s2 [s1; s2]
    else
      let s2 := set_metadata (delete file_id (metadata s)) s in
      Run (Return tt) s2 [s2].
Proof.
  intros H. unfold delete_file, try_except, path_exists, unlink, bind, get, ret. simpl.
  rewrite H. simpl.
  destruct (bool_decide (is_Some (files (fs s) !! path m))) eqn:E; simpl; [|reflexivity].
  destruct (bool_decide (path m ∈ protected (fs s))) eqn:P; simpl; [reflexivity|].
  apply bool_decide_eq_true in E. destruct E as [x Hx]. now rewrite Hx.
Qed.

Lemma unlink_raises_spec file_id s :
  unlink_raises file_id s = true <->
  exists m, metadata s !! file_id = Some m /\
            is_Some (files (fs s) !! path m) /\ path m ∈ protected (fs s).
Proof.
  unfold unlink_raises, path_exists, unlink, bind, get, ret. simpl.
  destruct (metadata s !! file_id) as [m|] eqn:H; simpl.
  - destruct (bool_decide (is_Some (files (fs s) !! path m))) eqn:E; simpl.
    + apply bool_decide_eq_true in E.
      destruct (bool_decide (path m ∈ protected (fs s))) eqn:P; simpl.
      * apply bool_decide_eq_true in P. split; [|easy]. intros _. now exists m.
      * apply bool_decide_eq_false in P. destruct E as [x Hx]. rewrite Hx. simpl.
        split; [easy|]. intros (m' & Hm & _ & Hp). now inversion Hm; subst.
    + apply bool_decide_eq_false in E. split; [easy|].
      intros (m' & Hm & He & _). now inversion Hm; subst.
  - split; [easy|]. now intros (m' & Hm & _).
Qed.

Lemma delete_file_result file_id s : result (delete_file file_id s) = Return tt.
Proof.
  destruct (metadata s !! file_id) as [m|] eqn:H.
  - rewrite (delete_file_known _ _ _ H).
    now destruct (bool_decide _); [destruct (bool_decide _)|].
  - now rewrite delete_file_unknown.
Qed.

(** What [delete_file] leaves of the metadata. *)
Lemma delete_file_metadata file_id s :
  metadata (final (delete_file file_id s)) =
    if unlink_raises file_id s then metadata s else delete file_id (metadata s).
Proof.
  destruct (metadata s !! file_id) as [m|] eqn:H.
  - rewrite (delete_file_known _ _ _ H).
    destruct (unlink_raises file_id s) eqn:U.
    + apply unlink_raises_spec in U. destruct U as (m' & Hm & He & Hp).
      rewrite H in Hm. inversion Hm; subst m'.
      now rewrite !bool_decide_eq_true_2.
    + destruct (bool_decide (is_Some _)) eqn:E; [|reflexivity].
      destruct (bool_decide (_ ∈ _)) eqn:P; [|reflexivity].
      apply bool_decide_eq_true in E, P.
      assert (unlink_raises file_id s = true) as U' by (apply unlink_raises_spec; eauto).
      congruence.
  - rewrite delete_file_unknown by assumption.
    assert (unlink_raises file_id s = false) as ->
      by (unfold unlink_raises; now rewrite H).
    simpl. symmetry. now apply delete_id.
Qed.

Lemma delete_file_protected file_id s :
  protected (fs (final (delete_file file_id s))) = protected (fs s).
Proof.
  destruct (metadata s !! file_id) as [m|] eqn:H.
  - rewrite (delete_file_known _ _ _ H).
    now destruct (bool_decide _); [destruct (bool_decide _)|].
  - now rewrite delete_file_unknown.
Qed.

(** The store [delete_file] leaves: the one it found when the unlink is
    refused, and otherwise that store without the entry and without the
    file of the entry. *)
Lemma delete_file_final file_id s :
  final (FM.delete_file file_id s) =
    if unlink_raises file_id s then s
    else {| uploads_dir := uploads_dir s;
            results_dir := results_dir s;
            metadata := delete file_id (metadata s);
            fs := {| files := match metadata s !! file_id with
                              | Some m => delete (path m) (files (fs s))
                              | None => files (fs s)
                              end;
                     protected := protected (fs s);
                     free_bytes := free_bytes (fs s) |} |}.
Proof.
  destruct s as [u r md [f p fb]].
  destruct (md !! file_id) as [m|] eqn:H.
  - rewrite (delete_file_known _ _ m) by exact H.
    destruct (unlink_raises file_id _) eqn:U.
    + apply unlink_raises_spec in U. destruct U as (m' & Hm & He & Hp).
      cbn [metadata fs files protected] in *.
      rewrite H in Hm. inversion Hm; subst m'.
      now rewrite !bool_decide_eq_true_2.
    + cbn [metadata fs files protected free_bytes uploads_dir results_dir].
      destruct (bool_decide (is_Some (f !! path m))) eqn:E.
      * destruct (bool_decide (path m ∈ p)) eqn:P; [|now rewrite H].
        apply bool_decide_eq_true in E, P.
        assert (unlink_raises file_id
                  {| uploads_dir := u; results_dir := r; metadata := md;
                     fs := {| files := f; protected := p; free_bytes := fb |} |} = true) as U'
          by (apply unlink_raises_spec; eauto).
        congruence.
      * apply bool_decide_eq_false in E. rewrite H. cbv zeta. cbn [final].
        unfold set_metadata. cbn [metadata fs files protected free_bytes uploads_dir results_dir].
        rewrite (delete_id f (path m)); [reflexivity|].
        destruct (f !! path m) eqn:F; [|reflexivity]. exfalso. apply E. eauto.
  - rewrite delete_file_unknown by exact H.
    assert (unlink_raises file_id
              {| uploads_dir := u; results_dir := r; metadata := md;
                 fs := {| files := f; protected := p; free_bytes := fb |} |} = false) as ->
      by (unfold unlink_raises; cbn [metadata]; now rewrite H).
    cbn [final metadata fs files protected free_bytes uploads_dir results_dir].
    rewrite H. now rewrite delete_id.
Qed.

(** Deleting one id does not change whether the unlink of another is
    refused. *)
Lemma unlink_raises_after_delete a b s :
  a <> b ->
  unlink_raises b (final (FM.delete_file a s)) = unlink_raises b s.
Proof.
  intros N. rewrite delete_file_final.
  destruct (unlink_raises a s) eqn:Ra; [reflexivity|].
  destruct (unlink_raises b s) eqn:Rb.
  - apply unlink_raises_spec in Rb. destruct Rb as (mb & Hb & Eb & Pb).
    apply unlink_raises_spec. exists mb.
    cbn [metadata fs files protected]. split; [|split].
    + rewrite lookup_delete_ne by exact N. exact Hb.
    + destruct (metadata s !! a) as [ma|] eqn:Ha; [|exact Eb].
      rewrite lookup_delete_is_Some. split; [|exact Eb].
      intros E. assert (unlink_raises a s = true) as Ra'.
      { apply unlink_raises_spec. exists ma. rewrite E. eauto. }
      congruence.
    + exact Pb.
  - apply not_true_is_false. intros Rb'. apply unlink_raises_spec in Rb'.
    destruct Rb' as (mb & Hb & Eb & Pb). cbn [metadata fs files protected] in *.
    rewrite lookup_delete_ne in Hb by exact N.
    assert (unlink_raises b s = true) as Rb''.
    { apply unlink_raises_spec. exists mb. split; [exact Hb|]. split; [|exact Pb].
      destruct (metadata s !! a) as [ma|]; [|exact Eb].
      apply lookup_delete_is_Some in Eb. tauto. }
    congruence.
Qed.

Lemma not_found_iff file_id s : not_found file_id s <-> metadata s !! file_id = None.
Proof.
  unfold not_found, get_file_path, get_file_info, bind, get, ret, raise. simpl.
  destruct (metadata s !! file_id); simpl; split; try easy; now intros [? _].
Qed.

End FileManagerRuns.

(** ** [delete_file]: errors and isolation *)

Section Delete.
Import FM.

(** C10: [delete_file] always returns normally, whatever the unlink does;
    and when the unlink raises the call changes nothing: the entry of the
    id is still there, so that a later call can try again. *)
Theorem delete_file_swallows_errors (file_id : string) (s : state) :
  result (delete_file file_id s) = Return tt /\
  (unlink_raises file_id s = true ->
   final (delete_file file_id s) = s /\
   is_Some (metadata (final (delete_file file_id s)) !! file_id) /\
   unlink_raises file_id (final (delete_file file_id s)) = true).
Proof.
  split; [apply delete_file_result|].
  intros U. pose proof U as U0.
  apply unlink_raises_spec in U. destruct U as (m & Hm & He & Hp).
  assert (final (delete_file file_id s) = s) as Hs.
  { rewrite (delete_file_known _ _ _ Hm). now rewrite !bool_decide_eq_true_2. }
  rewrite Hs. repeat split; eauto.
Qed.

Lemma delete_file_swallows_errors_witness :
  unlink_raises "f1" Sample.one_upload_protected = true /\
  final (delete_file "f1" Sample.one_upload_protected) = Sample.one_upload_protected.
Proof.
  split; [vm_compute; reflexivity|].
  apply (delete_file_swallows_errors "f1" Sample.one_upload_protected).
  vm_compute; reflexivity.
Defined.

(** C4, as the specification states it, fails where the unlink is
    refused: [delete_file] returns, and the id is still found. *)
Lemma delete_file_refused_unlink_keeps_id :
  ~ not_found_after_delete "f1" Sample.one_upload_protected.
Proof.
  intros [H _]. vm_compute in H. discriminate H.
Qed.

(** C4 (amended): when the unlink inside [delete_file] did not raise,
    the id is not found afterwards by [get_file_path] nor by
    [get_file_info], and a second [delete_file] changes nothing; a
    [delete_file] of an id without entry changes nothing either. *)
Theorem delete_file_isolates (file_id : string) (s : state) :
  unlink_raises file_id s = false ->
  let s' := final (delete_file file_id s) in
  not_found_after_delete file_id s /\
  delete_file file_id s' = Run (Return tt) s' [] /\
  (metadata s !! file_id = None -> delete_file file_id s = Run (Return tt) s []).
Proof.
  intros U s'.
  assert (metadata s' !! file_id = None) as Hgone.
  { unfold s'. rewrite delete_file_metadata, U. apply lookup_delete_eq. }
  repeat split.
  - now apply not_found_iff.
  - now apply not_found_iff.
  - now apply delete_file_unknown.
  - apply delete_file_unknown.
Qed.

Lemma delete_file_isolates_witness :
  not_found_after_delete "f1" Sample.one_upload /\
  is_Some (metadata Sample.one_upload !! "f1").
Proof.
  split.
  - apply (delete_file_isolates "f1" Sample.one_upload). vm_compute; reflexivity.
  - vm_compute. eexists; reflexivity.
Defined.

End Delete.

(** ** [save_upload]: all or nothing *)

Section Upload.
Import FM.
Local Open Scope py_scope.

Lemma write_bytes_run p data s :
  write_bytes p data s =
    if bool_decide (p ∈ protected (fs s))
    then Run (Raise (PermissionError ("[Errno 13] Permission denied: '" ++ p ++ "'"))) s []
    else if (length data <=? free_bytes (fs s))%nat
         then Run (Return tt) (written p data s) [opened p s; written p data s]
         else Run (Raise (OSError "[Errno 28] No space left on device"))
                (truncated p data s) [opened p s; truncated p data s].
Proof.
  unfold write_bytes, bind, get, put, raise. simpl.
  destruct (bool_decide (p ∈ protected (fs s))); simpl; [reflexivity|].
  destruct (length data <=? free_bytes (fs s))%nat; reflexivity.
Qed.

(** The three ways a [save_upload] can go. *)
Lemma save_upload_run file_id utcnow content name s :
  let p := upload_location (uploads_dir s) file_id name in
  save_upload file_id utcnow content name s =
    if bool_decide (p ∈ protected (fs s))
    then Run (Raise (ValueError ("Failed to save file: " ++
                                 "[Errno 13] Permission denied: '" ++ p ++ "'"))) s []
    else if (length content <=? free_bytes (fs s))%nat
         then Run (Return file_id) (registered file_id utcnow content name s)
                [opened p s; written p content s;
                 registered file_id utcnow content name s]
         else Run (Raise (ValueError ("Failed to save file: " ++
                                      "[Errno 28] No space left on device")))
                (truncated p content s) [opened p s; truncated p content s].
Proof.
  intros p. unfold save_upload, try_except, bind, get, ret, raise.
  cbn [result final trace]. fold p. rewrite write_bytes_run.
  destruct (bool_decide (p ∈ protected (fs s))); simpl; [reflexivity|].
  destruct (length content <=? free_bytes (fs s))%nat; reflexivity.
Qed.

(** C6: when the write inside [save_upload] fails, [save_upload] raises
    and the metadata is what it was, without entry for the new id; and in
    no state the call goes through, from the one it starts in to the one
    it leaves, is there an entry for the id whose file does not hold the
    whole content: the entry is inserted after the write has completed.
    The id is fresh, as [uuid.uuid4] makes it. *)
Theorem save_upload_all_or_nothing
    (file_id : string) (utcnow : Z) (content : list byte) (name : string) (s : state) :
  metadata s !! file_id = None ->
  let p := upload_location (uploads_dir s) file_id name in
  let r := save_upload file_id utcnow content name s in
  (forall e, result (write_bytes p content s) = Raise e ->
     (exists msg, result r = Raise (ValueError msg)) /\
     metadata (final r) = metadata s /\
     metadata (final r) !! file_id = None) /\
  never_half_written file_id content (s :: trace r) /\
  (result (write_bytes p content s) = Return tt ->
     result r = Return file_id /\
     exists m, metadata (final r) !! file_id = Some m /\ path m = p /\
               size_bytes m = length content /\
               files (fs (final r)) !! p = Some content).
Proof.
  intros Hfresh p r. unfold r. rewrite save_upload_run. fold p.
  rewrite write_bytes_run.
  destruct (bool_decide (p ∈ protected (fs s))); simpl.
  - split; [|split].
    + intros e _. eauto.
    + constructor; [|constructor]. intros m Hm. congruence.
    + discriminate.
  - destruct (length content <=? free_bytes (fs s))%nat; simpl.
    + split; [|split].
      * discriminate.
      * unfold never_half_written. repeat constructor; simpl.
        -- intros m Hm. congruence.
        -- intros m Hm. congruence.
        -- intros m Hm. congruence.
        -- intros m Hm. rewrite lookup_insert_eq in Hm. inversion Hm; subst m. simpl.
           fold p. apply lookup_insert_eq.
      * intros _. split; [reflexivity|]. eexists. split; [apply lookup_insert_eq|].
        simpl. fold p. repeat split. apply lookup_insert_eq.
    + split; [|split].
      * intros e _. eauto.
      * unfold never_half_written. repeat constructor; simpl; intros m Hm; congruence.
      * discriminate.
Qed.

Lemma save_upload_all_or_nothing_witness :
  never_half_written "f1" Sample.pdf_bytes
    (Sample.fresh ::
     trace (save_upload "f1" Sample.upload_time Sample.pdf_bytes "report.pdf" Sample.fresh)) /\
  never_half_written "f1" Sample.pdf_bytes
    (Sample.nearly_full ::
     trace (save_upload "f1" Sample.upload_time Sample.pdf_bytes "report.pdf"
              Sample.nearly_full)).
Proof.
  split.
  - apply (save_upload_all_or_nothing "f1" Sample.upload_time Sample.pdf_bytes
             "report.pdf" Sample.fresh).
    vm_compute; reflexivity.
  - apply (save_upload_all_or_nothing "f1" Sample.upload_time Sample.pdf_bytes
             "report.pdf" Sample.nearly_full).
    vm_compute; reflexivity.
Defined.

End Upload.

(** ** Strings and paths *)

Section Strings.

Lemma has_char_app c a b : has_char c (a ++ b) = has_char c a || has_char c b.
Proof.
  induction a as [|x a IH]; simpl; [reflexivity|]. now rewrite IH, orb_assoc.
Qed.

Lemma has_char_take c n s : has_char c (str_take n s) = true -> has_char c s = true.
Proof.
  revert s. induction n as [|n IH]; intros [|x s]; simpl; try discriminate.
  intros H. apply orb_true_iff in H. apply orb_true_iff.
  destruct H as [H|H]; [now left | right; now apply IH].
Qed.

Lemma has_char_drop c n s : has_char c (str_drop n s) = true -> has_char c s = true.
Proof.
  revert s. induction n as [|n IH]; intros [|x s]; simpl; try easy.
  intros H. apply orb_true_iff. right. now apply IH.
Qed.

Lemma split_no_sep c s x : In x (split c s) -> has_char c x = false.
Proof.
  revert x. induction s as [|a s IH]; simpl; intros x H.
  - destruct H as [<-|[]]. reflexivity.
  - destruct (Ascii.eqb a c) eqn:E.
    + destruct H as [<-|H]; [reflexivity | now apply IH].
    + destruct (split c s) as [|hd rest] eqn:S.
      * destruct H as [<-|[]]. simpl. now rewrite E.
      * destruct H as [<-|H].
        -- simpl. rewrite E. apply IH. now left.
        -- apply IH. now right.
Qed.

Lemma last_in_or_default {A} (l : list A) d : List.last l d = d \/ In (List.last l d) l.
Proof.
  induction l as [|x [|y l] IH]; simpl; [now left | right; now left |].
  destruct IH as [IH|IH]; [now left | right; right; exact IH].
Qed.

Lemma path_name_no_sep s : has_char "/" (path_name s) = false.
Proof.
  unfold path_name, path_parts.
  destruct (last_in_or_default
              (List.filter (fun x => negb (String.eqb x "" || String.eqb x "."))
                 (split "/" s)) "") as [->|H]; [reflexivity|].
  apply filter_In in H. destruct H as [H _]. now apply split_no_sep in H.
Qed.

Lemma rfind_points_at c s :
  0 <= rfind c s ->
  str_take 1 (str_drop (Z.to_nat (rfind c s)) s) = String c "".
Proof.
  induction s as [|a s IH]; simpl; [lia|].
  destruct (0 <=? rfind c s) eqn:E.
  - apply Z.leb_le in E. intros _.
    replace (Z.to_nat (rfind c s + 1)) with (S (Z.to_nat (rfind c s))) by lia.
    simpl. now apply IH.
  - destruct (Ascii.eqb a c) eqn:A; [|lia].
    intros _. apply Ascii.eqb_eq in A. subst a. simpl. now destruct s.
Qed.

(** A suffix is empty or starts with its dot, and holds no separator. *)
Lemma path_suffix_shape s :
  has_char "/" (path_suffix s) = false /\
  (path_suffix s = "" \/ str_take 1 (path_suffix s) = ".").
Proof.
  unfold path_suffix.
  destruct ((0 <? rfind "." (path_name s)) &&
            (rfind "." (path_name s) <? Z.of_nat (len (path_name s)) - 1)) eqn:E.
  - apply andb_true_iff in E. destruct E as [E _]. apply Z.ltb_lt in E. split.
    + destruct (has_char "/" (str_drop _ (path_name s))) eqn:H; [|reflexivity].
      apply has_char_drop in H. now rewrite path_name_no_sep in H.
    + right. apply rfind_points_at. lia.
  - split; [reflexivity | now left].
Qed.

(** *** [replace] *)

Lemma prefix_nil s : String.prefix "" s = true.
Proof. now destruct s. Qed.

Lemma prefix_cons c old a s :
  String.prefix (String c old) (String a s) = Ascii.eqb a c && String.prefix old s.
Proof.
  cbn [String.prefix]. destruct (ascii_dec c a) as [->|N].
  - now rewrite Ascii.eqb_refl.
  - assert (Ascii.eqb a c = false) as -> by (apply Ascii.eqb_neq; congruence).
    reflexivity.
Qed.

Lemma prefix_char c s :
  String.prefix (String c "") s =
    match s with
    | String a _ => Ascii.eqb a c
    | EmptyString => false
    end.
Proof.
  destruct s as [|a s]; [reflexivity|].
  now rewrite prefix_cons, prefix_nil, andb_true_r.
Qed.

Lemma prefix_dotdot s :
  String.prefix ".." s =
    match s with
    | String a tl => Ascii.eqb a "." && String.prefix "." tl
    | EmptyString => false
    end.
Proof.
  destruct s as [|a s]; [reflexivity|]. apply prefix_cons.
Qed.

Lemma contains_dotdot_cons a s :
  contains ".." (String a s) =
    (Ascii.eqb a "." && String.prefix "." s) || contains ".." s.
Proof.
  change (contains ".." (String a s))
    with (String.prefix ".." (String a s) || contains ".." s).
  now rewrite prefix_dotdot.
Qed.

(** The characters of a replacement by ["_"] are those of the string or
    the underscore. *)
Lemma replace_from_chars old skip s d :
  has_char d (replace_from old "_" skip s) = true ->
  d = "_"%char \/ has_char d s = true.
Proof.
  revert skip. induction s as [|a s IH]; intros skip; cbn [replace_from]; [discriminate|].
  assert (forall k, has_char d (replace_from old "_" k s) = true ->
                    d = "_"%char \/ has_char d (String a s) = true) as IH'.
  { intros k H. apply IH in H. destruct H as [H|H]; [now left|].
    right. cbn [has_char]. rewrite H. apply orb_true_r. }
  destruct skip as [|k]; [|apply IH'].
  destruct (String.prefix old (String a s)).
  - change ("_" ++ replace_from old "_" (len old - 1) s)
      with (String "_" (replace_from old "_" (len old - 1) s)).
    cbn [has_char]. intros H. apply orb_true_iff in H. destruct H as [H|H].
    + left. apply Ascii.eqb_eq in H. now subst.
    + now apply IH' in H.
  - cbn [has_char]. intros H. apply orb_true_iff in H. destruct H as [H|H].
    + right. now rewrite H.
    + now apply IH' in H.
Qed.

(** Replacing one character removes it. *)
Lemma replace_char_removes c s :
  c <> "_"%char -> has_char c (replace (String c "") "_" s) = false.
Proof.
  intros N. unfold replace.
  assert (Ascii.eqb "_" c = false) as U by (apply Ascii.eqb_neq; congruence).
  induction s as [|a s IH]; [reflexivity|].
  cbn [replace_from]. rewrite (prefix_char c (String a s)).
  change (len (String c "") - 1)%nat with 0%nat.
  destruct (Ascii.eqb a c) eqn:E.
  - change ("_" ++ replace_from (String c "") "_" 0 s)
      with (String "_" (replace_from (String c "") "_" 0 s)).
    cbn [has_char]. now rewrite U, IH.
  - cbn [has_char]. now rewrite E, IH.
Qed.

Lemma replace_chars old s d :
  old <> "" -> has_char d (replace old "_" s) = true ->
  d = "_"%char \/ has_char d s = true.
Proof.
  intros N. destruct old as [|c old]; [congruence|]. apply replace_from_chars.
Qed.

(** After the replacement of [".."] no two dots are left side by side. *)
Lemma replace_from_dotdot s skip :
  contains ".." (replace_from ".." "_" skip s) = false /\
  (String.prefix "." (str_drop skip s) = false ->
   String.prefix "." (replace_from ".." "_" skip s) = false).
Proof.
  revert skip. induction s as [|a s IH]; intros skip.
  - split; [reflexivity|]. intros _. now destruct skip.
  - destruct skip as [|k]; cbn [replace_from str_drop]; [|apply IH].
    rewrite prefix_dotdot. change (len ".." - 1)%nat with 1%nat.
    destruct (IH 0%nat) as [IH0 IH0']. destruct (IH 1%nat) as [IH1 _].
    cbn [str_drop] in IH0'.
    destruct (Ascii.eqb a ".") eqn:A; cbn [andb].
    + destruct (String.prefix "." s) eqn:P.
      * change ("_" ++ replace_from ".." "_" 1 s)
          with (String "_" (replace_from ".." "_" 1 s)).
        rewrite contains_dotdot_cons, IH1. split; [reflexivity|].
        intros _. now rewrite prefix_char.
      * rewrite contains_dotdot_cons, IH0, A. cbn [andb].
        rewrite IH0' by (destruct s; reflexivity). split; [reflexivity|].
        rewrite prefix_char, A. discriminate.
    + rewrite contains_dotdot_cons, IH0, A. split; [reflexivity|].
      intros _. now rewrite prefix_char.
Qed.

Lemma replace_dotdot_removes s : contains ".." (replace ".." "_" s) = false.
Proof. apply (replace_from_dotdot s 0). Qed.

(** Replacing a character other than the dot neither makes nor moves
    dots. *)
Lemma replace_char_keeps_dots c s :
  c <> "."%char ->
  String.prefix "." (replace (String c "") "_" s) = String.prefix "." s /\
  contains ".." (replace (String c "") "_" s) = contains ".." s.
Proof.
  intros N. unfold replace.
  assert (Ascii.eqb c "." = false) as C by now apply Ascii.eqb_neq.
  induction s as [|a s [IHp IHc]]; [now split|].
  cbn [replace_from]. rewrite (prefix_char c (String a s)).
  change (len (String c "") - 1)%nat with 0%nat.
  destruct (Ascii.eqb a c) eqn:E.
  - apply Ascii.eqb_eq in E. subst a.
    change ("_" ++ replace_from (String c "") "_" 0 s)
      with (String "_" (replace_from (String c "") "_" 0 s)).
    rewrite !contains_dotdot_cons, !prefix_char, IHc, C. now split.
  - rewrite !contains_dotdot_cons, IHc, IHp, !prefix_char. now split.
Qed.

Lemma replace_from_len old skip s :
  old <> "" -> (len (replace_from old "_" skip s) <= len s)%nat.
Proof.
  intros N. revert skip.
  induction s as [|a s IH]; intros skip; cbn [replace_from]; [reflexivity|].
  destruct skip as [|k].
  - destruct (String.prefix old (String a s)).
    + specialize (IH (len old - 1)%nat).
      change ("_" ++ replace_from old "_" (len old - 1) s)
        with (String "_" (replace_from old "_" (len old - 1) s)).
      unfold len in *. cbn [String.length]. lia.
    + specialize (IH 0%nat). unfold len in *. cbn [String.length]. lia.
  - specialize (IH k). unfold len in *. cbn [String.length]. lia.
Qed.

Lemma replace_len old s : old <> "" -> (len (replace old "_" s) <= len s)%nat.
Proof.
  intros N. destruct old as [|c old]; [congruence|]. now apply replace_from_len.
Qed.

End Strings.

(** ** [_sanitize_filename] *)

Section Sanitize.
Import FM.

Lemma strip_dangerous_unfold f :
  strip_dangerous f =
    replace (String zero "") "_" (replace "\" "_" (replace "/" "_" (replace ".." "_" f))).
Proof. reflexivity. Qed.

Lemma strip_dangerous_safe f :
  has_char "/" (strip_dangerous f) = false /\
  has_char "\" (strip_dangerous f) = false /\
  has_char zero (strip_dangerous f) = false /\
  contains ".." (strip_dangerous f) = false /\
  (len (strip_dangerous f) <= len f)%nat.
Proof.
  rewrite strip_dangerous_unfold.
  set (f1 := replace ".." "_" f). set (f2 := replace "/" "_" f1).
  set (f3 := replace "\" "_" f2). set (f4 := replace (String zero "") "_" f3).
  assert (has_char "/" f2 = false) as H2 by (apply replace_char_removes; discriminate).
  assert (has_char "\" f3 = false) as H3 by (apply replace_char_removes; discriminate).
  assert (has_char zero f4 = false) as H4 by (apply replace_char_removes; discriminate).
  assert (has_char "/" f3 = false) as H23.
  { destruct (has_char "/" f3) eqn:E; [|reflexivity].
    apply replace_chars in E; [|discriminate]. destruct E; [discriminate | congruence]. }
  repeat split.
  - destruct (has_char "/" f4) eqn:E; [|reflexivity].
    apply replace_chars in E; [|discriminate]. destruct E; [discriminate | congruence].
  - destruct (has_char "\" f4) eqn:E; [|reflexivity].
    apply replace_chars in E; [|discriminate]. destruct E; [discriminate | congruence].
  - exact H4.
  - unfold f4, f3, f2.
    rewrite (proj2 (replace_char_keeps_dots zero _ ltac:(discriminate))).
    rewrite (proj2 (replace_char_keeps_dots "\" _ ltac:(discriminate))).
    rewrite (proj2 (replace_char_keeps_dots "/" _ ltac:(discriminate))).
    apply replace_dotdot_removes.
  - unfold f4, f3, f2, f1.
    pose proof (replace_len ".." f ltac:(discriminate)).
    pose proof (replace_len "/" (replace ".." "_" f) ltac:(discriminate)).
    pose proof (replace_len "\" (replace "/" "_" (replace ".." "_" f)) ltac:(discriminate)).
    pose proof (replace_len (String zero "")
                  (replace "\" "_" (replace "/" "_" (replace ".." "_" f)))
                  ltac:(discriminate)).
    lia.
Qed.

Lemma splitext_scan_cut p d i n r :
  splitext_scan p d i n = Some r -> r = (str_take d p, str_drop d p).
Proof.
  revert i. induction n as [|n IH]; intros i; simpl; [discriminate|].
  destruct (negb _); [congruence | apply IH].
Qed.

(** Both halves of [splitext] are cut out of the name. *)
Lemma splitext_chars d p :
  (has_char d (splitext p).1 = true -> has_char d p = true) /\
  (has_char d (splitext p).2 = true -> has_char d p = true).
Proof.
  unfold splitext. destruct (rfind "/" p <? rfind "." p); [|split; [easy | discriminate]].
  destruct (splitext_scan _ _ _ _) as [r|] eqn:E; [|split; [easy | discriminate]].
  apply splitext_scan_cut in E. subst r. simpl. split.
  - apply has_char_take.
  - apply has_char_drop.
Qed.

Lemma limit_length_chars d f :
  has_char d (limit_length f) = true -> has_char d f = true.
Proof.
  unfold limit_length. destruct (255 <? len f)%nat; [|easy].
  destruct (splitext_chars d f) as [Hn He].
  destruct (splitext f) as [name ext]. simpl in Hn, He.
  rewrite has_char_app. intros H. apply orb_true_iff in H.
  destruct H as [H|H]; [apply Hn; now apply has_char_take in H | now apply He].
Qed.

(** What [_sanitize_filename] achieves on every name: no separator, no
    NUL, not empty; and, when the name is short enough to escape the
    length limit, no [".."] and at most 255 characters. *)
Lemma sanitize_filename_safe name :
  has_char "/" (_sanitize_filename name) = false /\
  has_char "\" (_sanitize_filename name) = false /\
  has_char zero (_sanitize_filename name) = false /\
  _sanitize_filename name <> "" /\
  ((len (path_name name) <= 255)%nat ->
   contains ".." (_sanitize_filename name) = false /\
   (len (_sanitize_filename name) <= 255)%nat).
Proof.
  unfold _sanitize_filename.
  destruct (strip_dangerous_safe (path_name name)) as (S1 & S2 & S3 & S4 & S5).
  set (f := strip_dangerous (path_name name)) in *.
  assert (forall d, has_char d f = false -> has_char d (limit_length f) = false) as L.
  { intros d H. destruct (has_char d (limit_length f)) eqn:E; [|reflexivity].
    apply limit_length_chars in E. congruence. }
  destruct (truthy (limit_length f)) eqn:T.
  - repeat split; auto.
    + intros E. rewrite E in T. discriminate.
    + unfold limit_length.
      destruct (255 <? len f)%nat eqn:C; [apply Nat.ltb_lt in C; lia | exact S4].
    + unfold limit_length.
      destruct (255 <? len f)%nat eqn:C; [apply Nat.ltb_lt in C; lia|].
      apply Nat.ltb_ge in C. exact C.
  - repeat split; try reflexivity; try discriminate. cbn. lia.
Qed.

(** The three names of the specification's test. *)
Example sanitize_filename_named_inputs :
  _sanitize_filename "../../etc/passwd" = "passwd" /\
  _sanitize_filename "a\..\b.pdf" = "a___b.pdf" /\
  _sanitize_filename ("test" ++ String zero "file.pdf") = "test_file.pdf" /\
  _sanitize_filename "" = "document.pdf".
Proof. repeat split; reflexivity. Qed.

(** C3 fails on the code at a name longer than 255 characters: the length
    limit joins the first 250 characters of the stem, which here end in a
    dot, with the extension, which starts with one, so that the result
    holds [".."] although the name did not; and the extension is kept
    whole, so that the result is not bounded by the limit either. *)
Theorem sanitize_filename_limit_rejoins_dots :
  len Sample.long_name = 259%nat /\
  contains ".." Sample.long_name = false /\
  contains ".." (_sanitize_filename Sample.long_name) = true /\
  len Sample.long_extension = 1002%nat /\
  len (_sanitize_filename Sample.long_extension) = 1002%nat.
Proof. repeat split; vm_compute; reflexivity. Qed.

End Sanitize.

(** ** Where [save_upload] writes *)

Section Location.
Import FM.

(** C7, as the specification states it, fails: two names give the same
    id two locations. *)
Lemma upload_location_depends_on_name :
  ~ location_ignores_name (uploads_dir Sample.fresh) "f1" "report.pdf" "report.docx" /\
  (map_to_list (files (fs (final (save_upload "f1" Sample.upload_time Sample.pdf_bytes
                                    "report.pdf" Sample.fresh))))).*1
    = ["/tmp/voice_pdf_assistant/uploads/f1.pdf"] /\
  (map_to_list (files (fs (final (save_upload "f1" Sample.upload_time Sample.pdf_bytes
                                    "report.docx" Sample.fresh))))).*1
    = ["/tmp/voice_pdf_assistant/uploads/f1.docx"].
Proof.
  split; [|split; vm_compute; reflexivity].
  unfold location_ignores_name. vm_compute. discriminate.
Qed.

(** C7 (amended): every [save_upload], whether it returns or raises,
    writes to [uploads_dir/<file_id><ext>] and to no other path: in every
    state the call goes through and in the one it leaves, the files at
    all other paths are as before, and what is at that path is the
    content or the part of it that has been written.  The directory and
    the base name come from the generated id alone, and of the caller's
    name only the extension is used, [.pdf] when the sanitized name has
    none; the extension starts with a dot and holds no path separator, so
    that the file lies directly in [uploads_dir].  A call that returns
    has left the whole content there and the path in the entry; a call
    that raises has left there what was there before or the part of the
    content that fitted. *)
Theorem save_upload_location
    (file_id : string) (utcnow : Z) (content : list byte) (name : string) (s : state) :
  exists ext,
    ext = (if truthy (path_suffix (_sanitize_filename name))
           then path_suffix (_sanitize_filename name) else ".pdf") /\
    str_take 1 ext = "." /\
    has_char "/" ext = false /\
    let p := uploads_dir s ++ "/" ++ file_id ++ ext in
    let r := save_upload file_id utcnow content name s in
    Forall (fun s' =>
              (forall q, q <> p -> files (fs s') !! q = files (fs s) !! q) /\
              exists n, files (fs s') !! p = Some (take n content))
           (trace r) /\
    (forall q, q <> p -> files (fs (final r)) !! q = files (fs s) !! q) /\
    (result r = Return file_id \/ exists msg, result r = Raise (ValueError msg)) /\
    (result r = Return file_id ->
       files (fs (final r)) !! p = Some content /\
       (path <$> metadata (final r) !! file_id) = Some p) /\
    (forall e, result r = Raise e ->
       files (fs (final r)) !! p = files (fs s) !! p \/
       exists n, files (fs (final r)) !! p = Some (take n content)).
Proof.
  eexists. split; [reflexivity|].
  destruct (path_suffix_shape (_sanitize_filename name)) as [Hsep Hdot].
  split; [|split].
  - destruct (truthy (path_suffix (_sanitize_filename name))) eqn:T; [|reflexivity].
    destruct Hdot as [E|E]; [rewrite E in T; discriminate | exact E].
  - now destruct (truthy (path_suffix (_sanitize_filename name))).
  - cbv zeta. rewrite save_upload_run.
    change (upload_location (uploads_dir s) file_id name)
      with (uploads_dir s ++ "/" ++ file_id ++
            (if truthy (path_suffix (_sanitize_filename name))
             then path_suffix (_sanitize_filename name) else ".pdf")).
    set (p := uploads_dir s ++ "/" ++ file_id ++ _).
    assert (forall q data, q <> p ->
              files (fs (opened p s)) !! q = files (fs s) !! q /\
              files (fs (written p data s)) !! q = files (fs s) !! q /\
              files (fs (truncated p data s)) !! q = files (fs s) !! q) as Hq.
    { intros q data N. unfold written, truncated, opened.
      cbn [files fs set_fs set_files].
      rewrite !lookup_insert_ne by (intros E; apply N; now rewrite <- E). now split. }
    assert (files (fs (opened p s)) !! p = Some (take 0 content)) as Ho.
    { unfold opened. cbn [files fs set_fs set_files]. apply lookup_insert_eq. }
    assert (files (fs (written p content s)) !! p = Some content) as Hw.
    { unfold written. cbn [files fs set_fs set_files]. apply lookup_insert_eq. }
    assert (files (fs (truncated p content s)) !! p
            = Some (take (free_bytes (fs s)) content)) as Ht.
    { unfold truncated. cbn [files fs set_fs set_files]. apply lookup_insert_eq. }
    assert (files (fs (registered file_id utcnow content name s))
            = files (fs (written p content s))) as Hr by reflexivity.
    destruct (bool_decide (p ∈ protected (fs s))); cbn [result final trace].
    + split; [constructor|]. split; [reflexivity|]. split; [right; eauto|].
      split; [discriminate|]. intros e _. now left.
    + destruct (length content <=? free_bytes (fs s))%nat; cbn [result final trace].
      * split.
        { constructor; [|constructor; [|constructor; [|constructor]]].
          - split; [intros q N; apply (Hq q content N) | eauto].
          - split; [intros q N; apply (Hq q content N)|].
            exists (length content). now rewrite firstn_all.
          - rewrite Hr. split; [intros q N; apply (Hq q content N)|].
            exists (length content). now rewrite firstn_all. }
        split; [rewrite Hr; intros q N; apply (Hq q content N)|].
        split; [now left|]. split; [|discriminate].
        intros _. split; [now rewrite Hr|].
        unfold registered. cbn [metadata set_metadata]. now rewrite lookup_insert_eq.
      * split.
        { constructor; [|constructor; [|constructor]].
          - split; [intros q N; apply (Hq q content N) | eauto].
          - split; [intros q N; apply (Hq q content N) | eauto]. }
        split; [intros q N; apply (Hq q content N)|].
        split; [right; eauto|]. split; [discriminate|].
        intros e _. right. eauto.
Qed.

Lemma save_upload_location_witness :
  exists ext,
    ext = ".pdf" /\
    files (fs Sample.one_upload) !! ("/tmp/voice_pdf_assistant/uploads" ++ "/" ++ "f1" ++ ext)
      = Some Sample.pdf_bytes /\
    forall q, q <> "/tmp/voice_pdf_assistant/uploads" ++ "/" ++ "f1" ++ ext ->
      files (fs (final (save_upload "f1" Sample.upload_time Sample.pdf_bytes "report.pdf"
                          Sample.nearly_full))) !! q = None.
Proof.
  destruct (save_upload_location "f1" Sample.upload_time Sample.pdf_bytes "report.pdf"
              Sample.fresh) as (ext & Hext & _ & _ & _ & _ & _ & Hfile & _).
  destruct (save_upload_location "f1" Sample.upload_time Sample.pdf_bytes "report.pdf"
              Sample.nearly_full) as (ext' & Hext' & _ & _ & _ & Hother & _).
  assert (ext = ".pdf") as E by (rewrite Hext; vm_compute; reflexivity).
  assert (ext' = ".pdf") as E' by (rewrite Hext'; vm_compute; reflexivity).
  subst ext ext'. exists ".pdf". split; [reflexivity|]. split.
  - apply Hfile. vm_compute; reflexivity.
  - intros q N. now rewrite (Hother q N).
Defined.

End Location.

(** ** The sweep: [cleanup_old_files] *)

Section Sweep.
Import FM.
Local Open Scope py_scope.

Lemma bind_get {A} (k : state -> M A) s : (s' <- get ;; k s') s = k s s.
Proof. unfold bind, get. cbn. now destruct (k s s). Qed.

(** A turn either skips the entry or dies in the comparison; it never
    reaches [delete_file]. *)
Lemma sweep_turn_run cutoff_time file_id deleted_count s :
  sweep_turn cutoff_time file_id deleted_count s = Run (Return deleted_count) s [] \/
  exists e, sweep_turn cutoff_time file_id deleted_count s = Run (Raise e) s [].
Proof.
  unfold sweep_turn, bind, get, ret. simpl.
  destruct (metadata s !! file_id) as [m|]; [|now left].
  destruct (truthy (created_at m)); [|now left].
  right. eexists. reflexivity.
Qed.

Lemma sweep_loop_run cutoff_time file_ids deleted_count s :
  for_each file_ids deleted_count (sweep_turn cutoff_time) s
    = Run (Return deleted_count) s [] \/
  exists e, for_each file_ids deleted_count (sweep_turn cutoff_time) s = Run (Raise e) s [].
Proof.
  induction file_ids as [|file_id tl IH]; [now left|].
  cbn [for_each]. unfold bind.
  destruct (sweep_turn_run cutoff_time file_id deleted_count s) as [->|[e ->]]; simpl.
  - destruct IH as [->|[e ->]]; [left | right; exists e]; reflexivity.
  - right. now exists e.
Qed.

(** The sweep never deletes anything: it returns 0 and leaves the store
    as it found it, whatever the ages of the artifacts. *)
Lemma cleanup_old_files_inert hours now s :
  cleanup_old_files hours now s = Run (Return 0) s [].
Proof.
  unfold cleanup_old_files, try_except. cbv zeta. rewrite bind_get.
  destruct (sweep_loop_run (now - timedelta_hours hours)
              (map_to_list (metadata s)).*1 0 s) as [->|[e ->]]; reflexivity.
Qed.

(** C1 fails on the code: an upload is two hours old when a sweep with a
    threshold of one hour runs; the sweep returns 0 and the artifact is
    still there.  The comparison [created_at < cutoff_time] has a [str]
    on its left and a [datetime] on its right, raises [TypeError], and
    the handler of [cleanup_old_files] turns that into the answer 0. *)
Theorem cleanup_old_files_keeps_old_upload :
  let now := Sample.upload_time + timedelta_hours 2 in
  created_at <$> metadata Sample.one_upload !! "f1" = Some "2024-02-29T12:34:56.000123" /\
  Sample.upload_time < now - timedelta_hours 1 /\
  lt (VStr "2024-02-29T12:34:56.000123") (VDatetime (now - timedelta_hours 1))
    = inl (TypeError "'<' not supported between instances of 'str' and 'datetime.datetime'") /\
  result (cleanup_old_files 1 now Sample.one_upload) = Return 0 /\
  final (cleanup_old_files 1 now Sample.one_upload) = Sample.one_upload /\
  result (file_exists "f1" (final (cleanup_old_files 1 now Sample.one_upload)))
    = Return true.
Proof.
  intros now. rewrite cleanup_old_files_inert. cbn [result final].
  repeat split; vm_compute; reflexivity.
Qed.

End Sweep.

(** ** Deferred deletion *)

Section Deferred.
Import FM Loop.

Lemma unprotected_never_raises file_id s :
  protected (fs s) = ∅ -> unlink_raises file_id s = false.
Proof.
  intros H. destruct (unlink_raises file_id s) eqn:U; [|reflexivity].
  apply unlink_raises_spec in U. destruct U as (m & _ & _ & Hp).
  rewrite H in Hp. now apply not_elem_of_empty in Hp.
Qed.

Lemma wake_protected st x : protected (fs (wake st x)) = protected (fs st).
Proof. apply delete_file_protected. Qed.

Lemma wake_own st x :
  protected (fs st) = ∅ -> metadata (wake st x) !! x.2 = None.
Proof.
  intros H. unfold wake. rewrite delete_file_metadata, unprotected_never_raises by exact H.
  apply lookup_delete_eq.
Qed.

Lemma wake_other st x file_id :
  x.2 <> file_id -> metadata (wake st x) !! file_id = metadata st !! file_id.
Proof.
  intros N. unfold wake. rewrite delete_file_metadata.
  destruct (unlink_raises x.2 st); [reflexivity | now apply lookup_delete_ne].
Qed.

Lemma wake_stays_gone st x file_id :
  metadata st !! file_id = None -> metadata (wake st x) !! file_id = None.
Proof.
  intros H. destruct (String.eqb_spec x.2 file_id) as [E|N].
  - unfold wake. rewrite delete_file_metadata.
    destruct (unlink_raises x.2 st); [exact H|]. subst. apply lookup_delete_eq.
  - now rewrite wake_other.
Qed.

Lemma wake_all_protected l st :
  protected (fs (fold_left wake l st)) = protected (fs st).
Proof.
  revert st. induction l as [|x l IH]; intros st; simpl; [reflexivity|].
  now rewrite IH, wake_protected.
Qed.

Lemma wake_all_stays_gone l st file_id :
  metadata st !! file_id = None -> metadata (fold_left wake l st) !! file_id = None.
Proof.
  revert st. induction l as [|x l IH]; intros st H; simpl; [exact H|].
  apply IH. now apply wake_stays_gone.
Qed.

Lemma wake_all_deletes l st file_id d :
  protected (fs st) = ∅ -> In (d, file_id) l ->
  metadata (fold_left wake l st) !! file_id = None.
Proof.
  revert st. induction l as [|x l IH]; intros st Hp Hin; simpl; [destruct Hin|].
  destruct Hin as [->|Hin].
  - apply wake_all_stays_gone. now apply (wake_own st (d, file_id)).
  - apply IH; [now rewrite wake_protected | exact Hin].
Qed.

Lemma wake_all_others l st file_id :
  (forall x, In x l -> x.2 <> file_id) ->
  metadata (fold_left wake l st) !! file_id = metadata st !! file_id.
Proof.
  revert st. induction l as [|x l IH]; intros st H; simpl; [reflexivity|].
  rewrite IH by (intros y Hy; apply H; now right).
  apply wake_other. apply H. now left.
Qed.

Lemma insert_sleeper_In x y l : In y (insert_sleeper x l) <-> y = x \/ In y l.
Proof.
  induction l as [|z l IH]; simpl; [intuition|].
  destruct (x.1 <=? z.1); simpl; [intuition | rewrite IH; intuition].
Qed.

Lemma by_deadline_In y l : In y (by_deadline l) <-> In y l.
Proof.
  induction l as [|x l IH]; simpl; [reflexivity|].
  rewrite insert_sleeper_In, IH. intuition.
Qed.

Lemma deadlines_of_In d file_id w :
  In d (deadlines_of file_id w) <-> In (d, file_id) (sleeping w).
Proof.
  unfold deadlines_of. rewrite in_map_iff. split.
  - intros ([d' f] & Hd & Hin). simpl in Hd. subst d'.
    apply filter_In in Hin. destruct Hin as [Hin E]. simpl in E.
    apply String.eqb_eq in E. now subst.
  - intros Hin. exists (d, file_id). split; [reflexivity|].
    apply filter_In. split; [exact Hin | apply String.eqb_refl].
Qed.

(** C2, as the specification states it, fails: a second
    [schedule_cleanup] for an id adds a deadline and leaves the first
    one pending, and the deletion happens at the first one, an hour
    before the deadline registered last. *)
Lemma reschedule_keeps_first_deadline :
  ~ reschedule_replaces "f1" 3600 7200 Sample.idle_world /\
  let w := schedule_cleanup "f1" 7200 (schedule_cleanup "f1" 3600 Sample.idle_world) in
  deadlines_of "f1" w = [3600; 7200] /\
  is_Some (metadata (store (run_until 3599 w)) !! "f1") /\
  metadata (store (run_until 3600 w)) !! "f1" = None /\
  deadlines_of "f1" (run_until 3600 w) = [7200].
Proof.
  split.
  - unfold reschedule_replaces. vm_compute. discriminate.
  - repeat split; try (vm_compute; reflexivity). vm_compute. eexists; reflexivity.
Qed.

(** A refused unlink stays refused whoever wakes, and the entry stays
    with it. *)
Lemma wake_keeps_refusal st x file_id :
  unlink_raises file_id st = true ->
  unlink_raises file_id (wake st x) = true /\
  metadata (wake st x) !! file_id = metadata st !! file_id.
Proof.
  intros U. destruct (String.eqb_spec x.2 file_id) as [E|N].
  - unfold wake. rewrite delete_file_final, E, U. now split.
  - split; [|now apply wake_other].
    unfold wake. now rewrite unlink_raises_after_delete.
Qed.

Lemma wake_all_refused l st file_id :
  unlink_raises file_id st = true ->
  metadata (fold_left wake l st) !! file_id = metadata st !! file_id.
Proof.
  revert st. induction l as [|x l IH]; intros st U; simpl; [reflexivity|].
  destruct (wake_keeps_refusal st x file_id U) as [U' M].
  now rewrite (IH _ U'), M.
Qed.

(** An unlink that is not refused removes the entry at the first wake
    for the id. *)
Lemma wake_all_removes l st file_id d :
  unlink_raises file_id st = false -> In (d, file_id) l ->
  metadata (fold_left wake l st) !! file_id = None.
Proof.
  revert st. induction l as [|x l IH]; intros st U Hin; simpl; [destruct Hin|].
  destruct (String.eqb_spec x.2 file_id) as [E|N].
  - apply wake_all_stays_gone. unfold wake. rewrite delete_file_metadata, E, U.
    apply lookup_delete_eq.
  - destruct Hin as [->|Hin]; [now contradiction N|].
    apply IH; [|exact Hin]. unfold wake. now rewrite unlink_raises_after_delete.
Qed.

(** C2 (amended): every call of [schedule_cleanup] registers a deferred
    deletion of its own and does nothing else: the store and the clock
    are as before, every sleeper already pending stays, and the new one
    is added behind them, so that the deadlines of the id are the earlier
    ones and the new one.  [delete_file] runs for the id when the loop
    reaches the earliest of its deadlines: from then on the id has no
    entry, also after the later deadlines, unless the unlink is refused,
    in which case the entry stays as it was.  While the loop has reached
    none of the id's deadlines the entry is as it was, and while it has
    reached no deadline at all the whole store is. *)
Theorem schedule_cleanup_adds_deadline (file_id : string) (delay : Z) (w : world) :
  let w' := schedule_cleanup file_id delay w in
  store w' = store w /\
  clock w' = clock w /\
  sleeping w' = (sleeping w ++ [(clock w + delay, file_id)])%list /\
  deadlines_of file_id w' = (deadlines_of file_id w ++ [clock w + delay])%list /\
  (forall t d,
     In d (deadlines_of file_id w') -> d <= t ->
     metadata (store (run_until t w')) !! file_id =
       if unlink_raises file_id (store w) then metadata (store w) !! file_id else None) /\
  (forall t,
     (forall d, In d (deadlines_of file_id w') -> t < d) ->
     metadata (store (run_until t w')) !! file_id = metadata (store w) !! file_id) /\
  (forall t,
     (forall x, In x (sleeping w') -> t < x.1) ->
     store (run_until t w') = store w).
Proof.
  intros w'. split; [reflexivity|]. split; [reflexivity|]. split; [reflexivity|].
  split; [|split; [|split]].
  - unfold w', deadlines_of, schedule_cleanup. simpl.
    rewrite List.filter_app, List.map_app. simpl. now rewrite String.eqb_refl.
  - intros t d Hd Ht. unfold run_until. cbn [store].
    change (store w') with (store w).
    destruct (unlink_raises file_id (store w)) eqn:U.
    + now apply wake_all_refused.
    + apply (wake_all_removes _ _ _ d); [exact U|].
      apply by_deadline_In, filter_In. split; [now apply deadlines_of_In|].
      simpl. now apply Z.leb_le.
  - intros t H. unfold run_until. cbn [store]. change (store w') with (store w).
    apply wake_all_others.
    intros [d f] Hin E. simpl in E. subst f.
    apply by_deadline_In, filter_In in Hin. destruct Hin as [Hin Hle].
    simpl in Hle. apply Z.leb_le in Hle.
    apply deadlines_of_In in Hin. apply H in Hin. lia.
  - intros t H. unfold run_until. cbn [store]. change (store w') with (store w).
    assert (List.filter (fun x : Z * string => x.1 <=? t) (sleeping w') = []) as ->.
    { induction (sleeping w') as [|x l IH]; [reflexivity|]. simpl.
      assert ((x.1 <=? t) = false) as -> by (apply Z.leb_gt, H; now left).
      apply IH. intros y Hy. apply H. now right. }
    reflexivity.
Qed.

Lemma schedule_cleanup_adds_deadline_witness :
  let w := schedule_cleanup "f1" 7200 (schedule_cleanup "f1" 3600 Sample.idle_world) in
  deadlines_of "f1" w = [3600; 7200] /\
  metadata (store (run_until 3600 w)) !! "f1" = None /\
  metadata (store (run_until 7200 w)) !! "f1" = None /\
  metadata (store (run_until 3599 w)) !! "f1" = metadata (store w) !! "f1" /\
  store (run_until 3599 w) = Sample.one_upload /\
  let refused := {| store := Sample.one_upload_protected; clock := 0; sleeping := [] |} in
  metadata (store (run_until 7200 (schedule_cleanup "f1" 3600 refused))) !! "f1"
    = metadata Sample.one_upload_protected !! "f1".
Proof.
  intros w.
  destruct (schedule_cleanup_adds_deadline "f1" 7200
              (schedule_cleanup "f1" 3600 Sample.idle_world))
    as (_ & _ & _ & Hd & Hfire & Hkeep & Hidle).
  fold w in Hd, Hfire, Hkeep, Hidle.
  split; [rewrite Hd; vm_compute; reflexivity|]. split; [|split; [|split]].
  - rewrite (Hfire 3600 3600); [vm_compute; reflexivity | rewrite Hd; vm_compute; now left | lia].
  - rewrite (Hfire 7200 3600); [vm_compute; reflexivity | rewrite Hd; vm_compute; now left | lia].
  - rewrite (Hkeep 3599); [reflexivity|].
    rewrite Hd. vm_compute. intros d [<-|[<-|[]]]; reflexivity.
  - split.
    + rewrite (Hidle 3599); [reflexivity|].
      vm_compute. intros x [<-|[<-|[]]]; reflexivity.
    + intros refused.
      destruct (schedule_cleanup_adds_deadline "f1" 3600 refused) as (_ & _ & _ & _ & H & _).
      rewrite (H 7200 3600); [vm_compute; reflexivity | vm_compute; now left | lia].
Defined.

End Deferred.

(** ** The lifecycle of the scheduler *)

Section Lifecycle.
Import Sched.











End Lifecycle.

(** ** Admission control *)

Section Admission.
Import RL.

Lemma getitem_insert d ip l : getitem (<[ip := l]> d) ip = l.
Proof. unfold getitem. now rewrite lookup_insert_eq. Qed.

Lemma is_allowed_run ip max_requests window_seconds now_clean now_record s :
  is_allowed ip max_requests window_seconds now_clean now_record s =
    let l := kept ip window_seconds now_clean s in
    if max_requests <=? Z.of_nat (length l)
    then (false, set_requests (<[ip := l]> (requests s)) s)
    else (true, set_requests (<[ip := (l ++ [now_record])%list]> (requests s)) s).
Proof.
  unfold is_allowed, _clean_old_requests, kept. cbn [requests set_requests].
  rewrite getitem_insert. cbv zeta.
  destruct (max_requests <=? _); [reflexivity|].
  unfold set_requests. cbn [requests upload_requests]. now rewrite insert_insert_eq.
Qed.

(** A call that finds fewer than [max_requests] timestamps within the
    window is admitted and leaves its own timestamp behind them. *)
Lemma is_allowed_admits ip max_requests window_seconds now s l :
  getitem (requests s) ip = l ->
  Forall (fun timestamp => now - timedelta_seconds window_seconds < timestamp) l ->
  Z.of_nat (length l) < max_requests ->
  (is_allowed ip max_requests window_seconds now now s).1 = true /\
  getitem (requests (is_allowed ip max_requests window_seconds now now s).2) ip
    = (l ++ [now])%list.
Proof.
  intros G F L. rewrite is_allowed_run. unfold kept. rewrite G. cbv zeta.
  assert (List.filter (fun timestamp => now - timedelta_seconds window_seconds <? timestamp) l
          = l) as ->.
  { clear G L. induction F as [|x l Hx F IH]; [reflexivity|]. simpl.
    apply Z.ltb_lt in Hx. now rewrite Hx, IH. }
  destruct (max_requests <=? Z.of_nat (length l)) eqn:E; [apply Z.leb_le in E; lia|].
  cbn [fst snd requests set_requests]. split; [reflexivity | apply getitem_insert].
Qed.

(** C5, as the specification states it, fails at the edge of the window:
    a timestamp that is exactly one window old is not older than
    [now - window], yet [_clean_old_requests] discards it; with a limit
    of 1 the code admits the call that the rule of the specification
    rejects. *)
Lemma is_allowed_discards_at_cutoff :
  let s := set_requests {["ip1" := [0]]} init in
  (is_allowed "ip1" 1 60 60000000 60000000 s).1 = true /\
  (is_allowed_as_specified "ip1" 1 60 60000000 s).1 = false /\
  getitem (requests (is_allowed "ip1" 1 60 60000000 60000000 s).2) "ip1" = [60000000] /\
  getitem (requests (is_allowed_as_specified "ip1" 1 60 60000000 s).2) "ip1" = [0].
Proof. repeat split; vm_compute; reflexivity. Qed.

(** C5 (amended): [is_allowed] first discards the timestamps of the
    identity that are not newer than [now] minus the window, those at
    the cutoff included; if at least [max_requests] remain it returns
    false and records nothing, otherwise it appends the time it reads
    then and returns true; the other identities and the upload windows
    are untouched.  So with a limit of 3, three calls one after the
    other are admitted, a fourth is rejected, and a call made once the
    window has elapsed is admitted again. *)
Theorem is_allowed_sliding_window :
  (forall ip max_requests window_seconds now_clean now_record s,
     let cutoff := now_clean - timedelta_seconds window_seconds in
     let remaining := kept ip window_seconds now_clean s in
     let r := is_allowed ip max_requests window_seconds now_clean now_record s in
     (forall t, In t remaining <-> In t (getitem (requests s) ip) /\ cutoff < t) /\
     (r.1 = false <-> max_requests <= Z.of_nat (length remaining)) /\
     (r.1 = false -> getitem (requests r.2) ip = remaining) /\
     (r.1 = true -> getitem (requests r.2) ip = (remaining ++ [now_record])%list) /\
     (forall other, other <> ip -> requests r.2 !! other = requests s !! other) /\
     upload_requests r.2 = upload_requests s) /\
  (forall ip window_seconds now later s,
     0 < window_seconds ->
     getitem (requests s) ip = [] ->
     now + timedelta_seconds window_seconds <= later ->
     let r1 := is_allowed ip 3 window_seconds now now s in
     let r2 := is_allowed ip 3 window_seconds now now r1.2 in
     let r3 := is_allowed ip 3 window_seconds now now r2.2 in
     let r4 := is_allowed ip 3 window_seconds now now r3.2 in
     let r5 := is_allowed ip 3 window_seconds later later r4.2 in
     (r1.1, r2.1, r3.1, r4.1, r5.1) = (true, true, true, false, true) /\
     getitem (requests r4.2) ip = [now; now; now] /\
     getitem (requests r5.2) ip = [later]).
Proof.
  split.
  - intros ip max_requests window_seconds now_clean now_record s cutoff remaining r.
    unfold r. rewrite is_allowed_run. fold remaining. cbv zeta.
    split; [|destruct (max_requests <=? Z.of_nat (length remaining)) eqn:E;
             cbn [fst snd requests upload_requests set_requests]].
    + intros t. unfold remaining, kept. rewrite filter_In, Z.ltb_lt. reflexivity.
    + apply Z.leb_le in E. repeat split; try easy.
      * intros _. apply getitem_insert.
      * intros other N. now apply lookup_insert_ne.
    + apply Z.leb_gt in E. repeat split; try easy; try lia.
      * intros _. apply getitem_insert.
      * intros other N. now apply lookup_insert_ne.
  - intros ip W now later s HW G HL r1 r2 r3 r4 r5.
    unfold timedelta_seconds in *.
    destruct (is_allowed_admits ip 3 W now s [] G) as [A1 G1];
      [constructor | simpl; lia |]. fold r1 in A1, G1.
    destruct (is_allowed_admits ip 3 W now r1.2 _ G1) as [A2 G2];
      [repeat constructor; unfold timedelta_seconds; lia | simpl; lia |].
    fold r2 in A2, G2.
    destruct (is_allowed_admits ip 3 W now r2.2 _ G2) as [A3 G3];
      [repeat constructor; unfold timedelta_seconds; lia | simpl; lia |].
    fold r3 in A3, G3. cbn [app] in G3.
    assert (r4 = (false, set_requests (<[ip := [now; now; now]]> (requests r3.2)) r3.2)) as E4.
    { unfold r4. rewrite is_allowed_run. unfold kept, timedelta_seconds. rewrite G3.
      cbn [List.filter].
      assert ((now - W * 1000000 <? now) = true) as -> by (apply Z.ltb_lt; lia).
      reflexivity. }
    assert (getitem (requests r4.2) ip = [now; now; now]) as G4.
    { rewrite E4. apply getitem_insert. }
    assert (r5 = (true, set_requests (<[ip := [later]]> (requests r4.2)) r4.2)) as E5.
    { unfold r5. rewrite is_allowed_run. unfold kept, timedelta_seconds. rewrite G4.
      cbn [List.filter].
      assert ((later - W * 1000000 <? now) = false) as -> by (apply Z.ltb_ge; lia).
      reflexivity. }
    rewrite A1, A2, A3, G4. rewrite E5. rewrite E4 at 1. cbn [fst snd].
    repeat split. apply getitem_insert.
Qed.

Lemma is_allowed_sliding_window_witness :
  let r1 := is_allowed "ip1" 3 60 0 0 init in
  let r2 := is_allowed "ip1" 3 60 0 0 r1.2 in
  let r3 := is_allowed "ip1" 3 60 0 0 r2.2 in
  let r4 := is_allowed "ip1" 3 60 0 0 r3.2 in
  let r5 := is_allowed "ip1" 3 60 60000000 60000000 r4.2 in
  (r1.1, r2.1, r3.1, r4.1, r5.1) = (true, true, true, false, true).
Proof.
  apply (proj2 is_allowed_sliding_window "ip1" 60 0 60000000 init).
  - lia.
  - reflexivity.
  - vm_compute. discriminate.
Defined.

End Admission.

(** ** The download endpoint *)

Section Download.
Import FM Api.

(** An id without entry: [get_file_path] raises [ValueError], which is
    not an [HTTPException], and the second handler answers 500. *)
Lemma download_file_unknown file_id s :
  metadata s !! file_id = None ->
  result (download_file file_id s) =
    Raise (HTTPException 500
             ("Failed to download file: " ++ "File not found: " ++ file_id)).
Proof.
  intros H. unfold download_file, try_except, get_file_path, bind, get, raise.
  cbn [result final trace]. rewrite H. reflexivity.
Qed.

(** An id with an entry whose file is gone: the endpoint answers 404. *)
Lemma download_file_missing file_id s m :
  metadata s !! file_id = Some m -> files (fs s) !! path m = None ->
  result (download_file file_id s) =
    Raise (HTTPException 404 ("File not found or has expired: " ++ file_id)).
Proof.
  intros H F. unfold download_file, try_except, get_file_path, path_exists, bind, get, ret, raise.
  cbn [result final trace]. rewrite H. cbn [result final trace]. rewrite F.
  rewrite bool_decide_eq_false_2 by (intros [x Hx]; discriminate). reflexivity.
Qed.

(** C8 fails on the code: for an id that has an entry but no file the
    endpoint answers 404, and for an id that was never known it answers
    500, so that the caller can tell the two apart; [get_file_path]
    itself returns the path of the missing file without any error.  Only
    [file_exists] answers alike in both cases. *)
Theorem download_file_tells_unknown_from_missing :
  metadata Sample.fresh !! "nonexistent-id" = None /\
  result (download_file "nonexistent-id" Sample.fresh) =
    Raise (HTTPException 500 "Failed to download file: File not found: nonexistent-id") /\
  status_of (download_file "nonexistent-id" Sample.fresh) = 500 /\
  is_Some (metadata Sample.one_upload_file_missing !! "f1") /\
  files (fs Sample.one_upload_file_missing) !! "/tmp/voice_pdf_assistant/uploads/f1.pdf"
    = None /\
  result (download_file "f1" Sample.one_upload_file_missing) =
    Raise (HTTPException 404 "File not found or has expired: f1") /\
  status_of (download_file "f1" Sample.one_upload_file_missing) = 404 /\
  result (get_file_path "f1" Sample.one_upload_file_missing) =
    Return "/tmp/voice_pdf_assistant/uploads/f1.pdf" /\
  result (file_exists "f1" Sample.one_upload_file_missing) = Return false /\
  result (file_exists "nonexistent-id" Sample.fresh) = Return false.
Proof.
  repeat split; try (vm_compute; reflexivity). vm_compute. eexists; reflexivity.
Qed.

End Download.

(** * Further properties of the code *)

#[local] Arguments isoformat : simpl never.
#[local] Arguments FM._sanitize_filename : simpl never.
#[local] Arguments FM.upload_location : simpl never.
#[local] Arguments FM.result_location : simpl never.
#[local] Arguments path_suffix : simpl never.
#[local] Arguments pad_dec : simpl never.
#[local] Arguments Api.hundredths_mb : simpl never.
#[local] Arguments Api.format_2f : simpl never.

Section Window.
Import RL.

Lemma newer_newer c1 c2 l : c1 <= c2 -> newer c2 (newer c1 l) = newer c2 l.
Proof.
  intros H. unfold newer. induction l as [|x l IH]; [reflexivity|]. simpl.
  destruct (c1 <? x) eqn:E1; simpl.
  - now rewrite IH.
  - destruct (c2 <? x) eqn:E2; [|exact IH].
    apply Z.ltb_lt in E2. apply Z.ltb_ge in E1. lia.
Qed.

Lemma newer_app c l1 l2 : newer c (l1 ++ l2) = (newer c l1 ++ newer c l2)%list.
Proof. apply List.filter_app. Qed.

Lemma is_allowed_tracks ip max_requests window_seconds now_clean now_record s A k :
  tracks ip s A k ->
  k <= now_clean - timedelta_seconds window_seconds ->
  let r := is_allowed ip max_requests window_seconds now_clean now_record s in
  let A' := if r.1 then (A ++ [now_record])%list else A in
  tracks ip r.2 A' (now_clean - timedelta_seconds window_seconds) /\
  (r.1 = true ->
   Z.of_nat (length (newer (now_clean - timedelta_seconds window_seconds) A)) < max_requests).
Proof.
  intros T K r A'. subst A' r. rewrite is_allowed_run. cbv zeta.
  change (kept ip window_seconds now_clean s)
    with (newer (now_clean - timedelta_seconds window_seconds) (getitem (requests s) ip)).
  rewrite (T _ K).
  set (cutoff := now_clean - timedelta_seconds window_seconds) in *.
  unfold tracks.
  destruct (max_requests <=? Z.of_nat (length (newer cutoff A))) eqn:E;
    cbn [fst snd requests set_requests].
  - split; [|discriminate]. intros c Hc. rewrite getitem_insert. now apply newer_newer.
  - apply Z.leb_gt in E. split; [|intros _; exact E].
    intros c Hc. rewrite getitem_insert, !newer_app. f_equal. now apply newer_newer.
Qed.

Lemma serve_cons ip max_requests window_seconds c r rest s :
  serve ip max_requests window_seconds ((c, r) :: rest) s =
    ((is_allowed ip max_requests window_seconds c r s).1
       :: (serve ip max_requests window_seconds rest
             (is_allowed ip max_requests window_seconds c r s).2).1,
     (serve ip max_requests window_seconds rest
        (is_allowed ip max_requests window_seconds c r s).2).2).
Proof. reflexivity. Qed.

Lemma serve_length ip max_requests window_seconds calls s :
  length (serve ip max_requests window_seconds calls s).1 = length calls.
Proof.
  revert s. induction calls as [|[c r] rest IH]; intros s; [reflexivity|].
  rewrite serve_cons. simpl. now rewrite IH.
Qed.

Lemma newer_length_snoc c l x :
  (length (newer c (l ++ [x])) <= S (length (newer c l)))%nat.
Proof.
  rewrite newer_app, length_app. unfold newer at 2. simpl.
  destruct (c <? x); simpl; lia.
Qed.

Lemma window_bound_from ip max_requests window_seconds before c r s A k from :
  tracks ip s A k ->
  k <= from - timedelta_seconds window_seconds ->
  clock_runs_forward from (before ++ [(c, r)]) = true ->
  List.last (serve ip max_requests window_seconds (before ++ [(c, r)]) s).1 false = true ->
  Z.of_nat (length (newer (c - timedelta_seconds window_seconds)
                      (A ++ granted (before ++ [(c, r)])
                              (serve ip max_requests window_seconds
                                 (before ++ [(c, r)]) s).1)))
    <= max_requests.
Proof.
  revert s A k from. induction before as [|[c0 r0] before IH]; intros s A k from T K C L.
  - cbn [app] in *. rewrite serve_cons in *. cbn [fst snd serve List.last] in L.
    cbn [clock_runs_forward] in C. apply andb_true_iff in C. destruct C as [C _].
    apply andb_true_iff in C. destruct C as [C1 C2]. apply Z.leb_le in C1, C2.
    destruct (is_allowed_tracks ip max_requests window_seconds c r s A k T ltac:(lia))
      as [_ B].
    specialize (B L). cbn [fst snd serve granted]. rewrite L. cbn [granted].
    pose proof (newer_length_snoc (c - timedelta_seconds window_seconds) A r). lia.
  - cbn [app] in *. rewrite serve_cons in *. cbn [fst snd] in *.
    cbn [clock_runs_forward] in C. apply andb_true_iff in C. destruct C as [C C3].
    apply andb_true_iff in C. destruct C as [C1 C2]. apply Z.leb_le in C1, C2.
    destruct (is_allowed_tracks ip max_requests window_seconds c0 r0 s A k T ltac:(lia))
      as [T1 _].
    set (r1 := is_allowed ip max_requests window_seconds c0 r0 s) in *.
    assert (List.last (serve ip max_requests window_seconds (before ++ [(c, r)]) r1.2).1
              false = true) as L1.
    { destruct (serve ip max_requests window_seconds (before ++ [(c, r)]) r1.2).1
        as [|a l] eqn:E; [|exact L].
      pose proof (serve_length ip max_requests window_seconds (before ++ [(c, r)]) r1.2)
        as H. rewrite E, length_app in H. simpl in H. lia. }
    specialize (IH r1.2 _ _ r0 T1 ltac:(lia) C3 L1).
    destruct r1.1; cbn [granted].
    + now rewrite <- app_assoc in IH.
    + exact IH.
Qed.

(** X1: the limit holds over every window.  One identity, starting from an
    empty table, calls [is_allowed] again and again with the same limit
    and window while the clock does not run backwards.  Whenever a call
    is admitted, the admitted calls whose timestamps are newer than that
    call's cutoff, the call itself included, are at most [max_requests]. *)
Theorem is_allowed_window_bound ip max_requests window_seconds before c r s from :
  getitem (requests s) ip = [] ->
  clock_runs_forward from (before ++ [(c, r)]) = true ->
  List.last (serve ip max_requests window_seconds (before ++ [(c, r)]) s).1 false = true ->
  Z.of_nat (length (newer (c - timedelta_seconds window_seconds)
                      (granted (before ++ [(c, r)])
                         (serve ip max_requests window_seconds (before ++ [(c, r)]) s).1)))
    <= max_requests.
Proof.
  intros G C L.
  apply (window_bound_from ip max_requests window_seconds before c r s []
           (from - timedelta_seconds window_seconds) from); try assumption; [|lia].
  intros c' _. now rewrite G.
Qed.

Lemma is_allowed_window_bound_witness :
  Z.of_nat (length (RL.newer (60500000 - timedelta_seconds 60)
                      (RL.granted (Sample.early_calls ++ [Sample.late_call])
                         (RL.serve "ip1" 2 60 (Sample.early_calls ++ [Sample.late_call])
                            RL.init).1)))
    <= 2.
Proof.
  apply (is_allowed_window_bound "ip1" 2 60 Sample.early_calls 60500000 60500000 RL.init 0).
  - reflexivity.
  - reflexivity.
  - vm_compute. reflexivity.
Defined.

End Window.

Section Tables.
Import RL.

Lemma swap_tables_involutive s : swap_tables (swap_tables s) = s.
Proof. now destruct s. Qed.

(** [is_upload_allowed] is [is_allowed] at work on the other table. *)
Lemma is_upload_allowed_swap ip max_uploads window_seconds now_clean now_record s :
  is_upload_allowed ip max_uploads window_seconds now_clean now_record s =
    ((is_allowed ip max_uploads window_seconds now_clean now_record (swap_tables s)).1,
     swap_tables
       (is_allowed ip max_uploads window_seconds now_clean now_record (swap_tables s)).2).
Proof.
  unfold is_upload_allowed, is_allowed, _clean_old_uploads, _clean_old_requests.
  cbn [requests upload_requests set_requests set_upload_requests swap_tables].
  now destruct (max_uploads <=? _).
Qed.

Lemma serve_uploads_swap ip max_uploads window_seconds calls s :
  serve_uploads ip max_uploads window_seconds calls s =
    ((serve ip max_uploads window_seconds calls (swap_tables s)).1,
     swap_tables (serve ip max_uploads window_seconds calls (swap_tables s)).2).
Proof.
  revert s. induction calls as [|[c r] rest IH]; intros s.
  - simpl. now rewrite swap_tables_involutive.
  - cbn [serve_uploads]. rewrite serve_cons, is_upload_allowed_swap. cbn [fst snd].
    rewrite IH, swap_tables_involutive. reflexivity.
Qed.

(** X2: the same bound for [is_upload_allowed] and its own table: whenever an
    upload is admitted, the admitted uploads whose timestamps are newer
    than that call's cutoff, the call itself included, are at most
    [max_uploads]. *)
Theorem is_upload_allowed_window_bound ip max_uploads window_seconds before c r s from :
  getitem (upload_requests s) ip = [] ->
  clock_runs_forward from (before ++ [(c, r)]) = true ->
  List.last (serve_uploads ip max_uploads window_seconds (before ++ [(c, r)]) s).1 false
    = true ->
  Z.of_nat (length (newer (c - timedelta_seconds window_seconds)
                      (granted (before ++ [(c, r)])
                         (serve_uploads ip max_uploads window_seconds
                            (before ++ [(c, r)]) s).1)))
    <= max_uploads.
Proof.
  rewrite serve_uploads_swap. cbn [fst]. intros G C L.
  apply (window_bound_from ip max_uploads window_seconds before c r (swap_tables s) []
           (from - timedelta_seconds window_seconds) from); try assumption; [|lia].
  intros c' _. change (requests (swap_tables s)) with (upload_requests s). now rewrite G.
Qed.

Lemma is_upload_allowed_window_bound_witness :
  Z.of_nat (length (RL.newer (60500000 - timedelta_seconds 60)
                      (RL.granted (Sample.early_calls ++ [Sample.late_call])
                         (RL.serve_uploads "ip1" 2 60
                            (Sample.early_calls ++ [Sample.late_call]) RL.init).1)))
    <= 2.
Proof.
  apply (is_upload_allowed_window_bound "ip1" 2 60 Sample.early_calls 60500000 60500000
           RL.init 0).
  - reflexivity.
  - reflexivity.
  - vm_compute. reflexivity.
Defined.

Lemma is_upload_allowed_run ip max_uploads window_seconds now_clean now_record s :
  is_upload_allowed ip max_uploads window_seconds now_clean now_record s =
    let l := kept ip window_seconds now_clean (swap_tables s) in
    if max_uploads <=? Z.of_nat (length l)
    then (false, set_upload_requests (<[ip := l]> (upload_requests s)) s)
    else (true, set_upload_requests (<[ip := (l ++ [now_record])%list]> (upload_requests s)) s).
Proof.
  rewrite is_upload_allowed_swap, is_allowed_run. cbv zeta.
  now destruct (max_uploads <=? _).
Qed.

(** X3: the two policies do not see each other.  A call of [is_allowed] and a
    call of [is_upload_allowed], for the same or different identities,
    give the same answers and the same tables in either order;
    [is_allowed] leaves the table of uploads as it is and
    [is_upload_allowed] the table of requests. *)
Theorem policies_commute ip max_requests window_seconds t1 t2
    ip' max_uploads window_seconds' t3 t4 s :
  let g := is_allowed ip max_requests window_seconds t1 t2 s in
  let u := is_upload_allowed ip' max_uploads window_seconds' t3 t4 g.2 in
  let u' := is_upload_allowed ip' max_uploads window_seconds' t3 t4 s in
  let g' := is_allowed ip max_requests window_seconds t1 t2 u'.2 in
  g'.1 = g.1 /\ u.1 = u'.1 /\ g'.2 = u.2 /\
  upload_requests g.2 = upload_requests s /\ requests u'.2 = requests s.
Proof.
  intros g u u' g'. subst g' u g u'.
  rewrite (is_allowed_run ip _ _ _ _ s), (is_upload_allowed_run ip' _ _ _ _ s). cbv zeta.
  destruct (max_requests <=? Z.of_nat (length (kept ip window_seconds t1 s))) eqn:E1;
  destruct (max_uploads <=? Z.of_nat (length (kept ip' window_seconds' t3 (swap_tables s))))
    eqn:E2;
    cbn [fst snd]; rewrite is_allowed_run, is_upload_allowed_run; cbv zeta;
    change (kept ip window_seconds t1 (set_upload_requests ?d s))
      with (kept ip window_seconds t1 s);
    change (kept ip' window_seconds' t3 (swap_tables (set_requests ?d s)))
      with (kept ip' window_seconds' t3 (swap_tables s));
    rewrite E1, E2; repeat split; reflexivity.
Qed.

Lemma getitem_insert_ne d ip ip' l : ip <> ip' -> getitem (<[ip := l]> d) ip' = getitem d ip'.
Proof. intros N. unfold getitem. now rewrite lookup_insert_ne. Qed.

(** X4: two identities do not see each other.  Calls of [is_allowed] for two
    different identities give the same answers and the same tables in
    either order, and a call for one identity leaves the timestamps of
    the other as they are. *)
Theorem identities_commute ip ip' max_requests window_seconds t1 t2
    max_requests' window_seconds' t3 t4 s :
  ip <> ip' ->
  let a := is_allowed ip max_requests window_seconds t1 t2 s in
  let b := is_allowed ip' max_requests' window_seconds' t3 t4 a.2 in
  let b' := is_allowed ip' max_requests' window_seconds' t3 t4 s in
  let a' := is_allowed ip max_requests window_seconds t1 t2 b'.2 in
  a'.1 = a.1 /\ b.1 = b'.1 /\ a'.2 = b.2 /\
  getitem (requests a.2) ip' = getitem (requests s) ip'.
Proof.
  intros N a b b' a'. subst a' b a b'. rewrite !is_allowed_run. cbv zeta.
  assert (forall W t d l, kept ip W t (set_requests (<[ip' := l]> d) s)
                          = kept ip W t (set_requests d s)) as K1.
  { intros. unfold kept. cbn [requests set_requests]. now rewrite getitem_insert_ne. }
  assert (forall W t d l, kept ip' W t (set_requests (<[ip := l]> d) s)
                          = kept ip' W t (set_requests d s)) as K2.
  { intros. unfold kept. cbn [requests set_requests]. now rewrite getitem_insert_ne. }
  assert (forall d, set_requests d s = set_requests d s) as _ by reflexivity.
  assert (forall W t, kept ip W t (set_requests (requests s) s) = kept ip W t s) as K3
    by reflexivity.
  assert (forall W t, kept ip' W t (set_requests (requests s) s) = kept ip' W t s) as K4
    by reflexivity.
  destruct (max_requests <=? Z.of_nat (length (kept ip window_seconds t1 s))) eqn:E1;
  destruct (max_requests' <=? Z.of_nat (length (kept ip' window_seconds' t3 s))) eqn:E2;
    cbn [fst snd requests set_requests]; rewrite ?is_allowed_run; cbv zeta;
    rewrite ?K1, ?K2, ?K3, ?K4, ?E1, ?E2; cbn [fst snd requests set_requests upload_requests];
    repeat split; try reflexivity;
    try (unfold set_requests; cbn [upload_requests]; f_equal;
         apply insert_insert_ne; congruence);
    try (now rewrite getitem_insert_ne).
Qed.

Lemma identities_commute_witness :
  (RL.is_allowed "ip1" 1 60 0 0 (RL.is_allowed "ip2" 1 60 0 0 RL.init).2).1
    = (RL.is_allowed "ip1" 1 60 0 0 RL.init).1.
Proof.
  apply (identities_commute "ip1" "ip2" 1 60 0 0 1 60 0 0 RL.init). discriminate.
Defined.

End Tables.

Section Dispatch.
Import RL Mw.

Lemma dispatch_run req t1 t2 t3 t4 rl :
  dispatch req t1 t2 t3 t4 rl =
    let g := is_allowed (client_host req) 60 60 t1 t2 rl in
    if negb g.1 then (inl general_refusal, g.2)
    else if is_upload req
         then let u := is_upload_allowed (client_host req) 5 600 t3 t4 g.2 in
              if negb u.1 then (inl upload_refusal, u.2) else (inr tt, u.2)
         else (inr tt, g.2).
Proof. reflexivity. Qed.

(** X5: the three ways [dispatch] ends.  It raises the general 429 only when
    the client has at least 60 timestamps within the last 60 seconds, and
    has then recorded nothing and left the table of uploads alone.  It
    raises the upload 429 only for a [POST] to [/api/upload] of a client
    with at least 5 uploads within the last 600 seconds, and the refused
    upload has still been recorded as a request.  Otherwise the request
    is handed on, recorded as a request and, when it is an upload, as an
    upload; a request that is no upload leaves the table of uploads
    alone. *)
Theorem dispatch_outcomes req t1 t2 t3 t4 rl :
  let ip := client_host req in
  let out := dispatch req t1 t2 t3 t4 rl in
  let general := kept ip 60 t1 rl in
  let uploads := kept ip 600 t3 (swap_tables rl) in
  (out.1 = inl general_refusal ->
     60 <= Z.of_nat (length general) /\
     getitem (requests out.2) ip = general /\
     upload_requests out.2 = upload_requests rl) /\
  (out.1 = inl upload_refusal ->
     is_upload req = true /\
     5 <= Z.of_nat (length uploads) /\
     getitem (requests out.2) ip = (general ++ [t2])%list /\
     getitem (upload_requests out.2) ip = uploads) /\
  (out.1 = inr tt ->
     getitem (requests out.2) ip = (general ++ [t2])%list /\
     (is_upload req = true ->
      getitem (upload_requests out.2) ip = (uploads ++ [t4])%list) /\
     (is_upload req = false -> upload_requests out.2 = upload_requests rl)) /\
  (out.1 = inl general_refusal \/ out.1 = inl upload_refusal \/ out.1 = inr tt).
Proof.
  intros ip out general uploads. subst out. rewrite dispatch_run. cbv zeta.
  rewrite is_allowed_run. cbv zeta. fold ip. fold general.
  destruct (60 <=? Z.of_nat (length general)) eqn:G; cbn [fst snd negb].
  - apply Z.leb_le in G. split; [|split; [|split]]; try discriminate; [|now left].
    intros _. split; [exact G|]. split; [apply getitem_insert | reflexivity].
  - apply Z.leb_gt in G. destruct (is_upload req) eqn:U.
    + rewrite is_upload_allowed_run. cbv zeta.
      change (kept ip 600 t3 (swap_tables (set_requests ?d rl))) with uploads.
      destruct (5 <=? Z.of_nat (length uploads)) eqn:E;
        cbn [fst snd negb requests upload_requests set_requests set_upload_requests].
      * apply Z.leb_le in E. split; [|split; [|split]]; try discriminate;
          [|right; now left].
        intros _. split; [reflexivity|]. split; [exact E|].
        split; apply getitem_insert.
      * split; [|split; [|split]]; try discriminate; [|right; now right].
        intros _. split; [apply getitem_insert|]. split; [|discriminate].
        intros _. apply getitem_insert.
    + cbn [fst snd requests set_requests]. split; [|split; [|split]]; try discriminate;
        [|right; now right].
      intros _. split; [apply getitem_insert|]. split; [discriminate | reflexivity].
Qed.

Lemma dispatch_outcomes_witness :
  RL.getitem (RL.requests (Mw.dispatch Sample.upload_request 0 0 0 0 RL.init).2) "ip1" = [0] /\
  RL.getitem (RL.upload_requests (Mw.dispatch Sample.upload_request 0 0 0 0 RL.init).2) "ip1"
    = [0].
Proof.
  destruct (dispatch_outcomes Sample.upload_request 0 0 0 0 RL.init) as (_ & _ & H & _).
  destruct (H eq_refl) as (H1 & H2 & _). split; [exact H1 | exact (H2 eq_refl)].
Defined.

(** X6: [dispatch] changes no entry of another client, in either table,
    however it ends. *)
Theorem dispatch_isolation req t1 t2 t3 t4 rl other :
  other <> client_host req ->
  let out := dispatch req t1 t2 t3 t4 rl in
  requests out.2 !! other = requests rl !! other /\
  upload_requests out.2 !! other = upload_requests rl !! other.
Proof.
  intros N out. subst out. rewrite dispatch_run. cbv zeta.
  rewrite is_allowed_run. cbv zeta.
  destruct (60 <=? _); cbn [fst snd negb].
  - split; [now apply lookup_insert_ne | reflexivity].
  - destruct (is_upload req).
    + rewrite is_upload_allowed_run. cbv zeta.
      destruct (5 <=? _); cbn [fst snd negb requests upload_requests set_requests
                                 set_upload_requests];
        split; now apply lookup_insert_ne.
    + split; [now apply lookup_insert_ne | reflexivity].
Qed.

Lemma dispatch_isolation_witness :
  RL.requests (Mw.dispatch Sample.upload_request 0 0 0 0 RL.init).2 !! "ip2" = None.
Proof.
  apply (dispatch_isolation Sample.upload_request 0 0 0 0 RL.init "ip2"). discriminate.
Defined.

End Dispatch.

Section Locations.
Import FM.

Lemma rfind_absent c s : rfind c s < 0 -> has_char c s = false.
Proof.
  induction s as [|a s IH]; simpl; [reflexivity|].
  destruct (0 <=? rfind c s) eqn:E.
  - apply Z.leb_le in E. lia.
  - apply Z.leb_gt in E. destruct (Ascii.eqb a c); [lia|]. intros _. now apply IH.
Qed.

Lemma rfind_is_last c s :
  0 <= rfind c s -> has_char c (str_drop (S (Z.to_nat (rfind c s))) s) = false.
Proof.
  induction s as [|a s IH]; simpl; [lia|].
  destruct (0 <=? rfind c s) eqn:E.
  - apply Z.leb_le in E. intros _.
    replace (Z.to_nat (rfind c s + 1)) with (S (Z.to_nat (rfind c s))) by lia.
    now apply IH.
  - apply Z.leb_gt in E. destruct (Ascii.eqb a c); [|lia].
    intros _. simpl. destruct s; [reflexivity|]. now apply rfind_absent.
Qed.

Lemma str_drop_S n s :
  str_drop (S n) s = str_drop 1 (str_drop n s).
Proof.
  revert s. induction n as [|n IH]; intros s; [reflexivity|].
  destruct s as [|a s]; [reflexivity|]. change (str_drop (S (S n)) (String a s))
    with (str_drop (S n) s). rewrite IH. reflexivity.
Qed.

Lemma take1_drop1 s c : str_take 1 s = String c "" -> s = String c (str_drop 1 s).
Proof. destruct s as [|a s]; simpl; [discriminate|]. intros H. now inversion H. Qed.

(** A suffix is its dot followed by characters that are not dots. *)
Lemma path_suffix_one_dot s :
  path_suffix s = "" \/
  exists x, path_suffix s = String "." x /\ has_char "." x = false.
Proof.
  unfold path_suffix.
  destruct ((0 <? rfind "." (path_name s)) &&
            (rfind "." (path_name s) <? Z.of_nat (len (path_name s)) - 1)) eqn:E;
    [|now left].
  apply andb_true_iff in E. destruct E as [E _]. apply Z.ltb_lt in E.
  right. exists (str_drop (S (Z.to_nat (rfind "." (path_name s)))) (path_name s)). split.
  - rewrite str_drop_S. apply take1_drop1. apply rfind_points_at. lia.
  - apply rfind_is_last. lia.
Qed.

Lemma upload_extension_one_dot name :
  exists x,
    (if truthy (path_suffix (_sanitize_filename name))
     then path_suffix (_sanitize_filename name) else ".pdf") = String "." x /\
    has_char "." x = false.
Proof.
  destruct (path_suffix_one_dot (_sanitize_filename name)) as [->|(x & -> & H)].
  - now exists "pdf".
  - now exists x.
Qed.

Lemma append_cancel_l (a b c : string) : a ++ b = a ++ c -> b = c.
Proof. induction a as [|x a IH]; simpl; [easy|]. intros H. inversion H. now apply IH. Qed.

Lemma has_char_app_dot a x : has_char "." (a ++ String "." x) = true.
Proof. rewrite has_char_app. simpl. apply orb_true_r. Qed.

Lemma stem_of_dotted a b x y :
  has_char "." x = false -> has_char "." y = false ->
  a ++ String "." x = b ++ String "." y -> a = b.
Proof.
  intros Hx Hy. revert b. induction a as [|c a IH]; intros [|d b]; simpl; intros H.
  - reflexivity.
  - inversion H; subst. rewrite has_char_app_dot in Hx. discriminate.
  - inversion H; subst. rewrite has_char_app_dot in Hy. discriminate.
  - inversion H; subst. f_equal. now apply IH.
Qed.

Lemma upload_location_apart dir id1 id2 name1 name2 :
  id1 <> id2 -> upload_location dir id1 name1 <> upload_location dir id2 name2.
Proof.
  intros N. unfold upload_location. cbv zeta.
  destruct (upload_extension_one_dot name1) as (x & -> & Hx).
  destruct (upload_extension_one_dot name2) as (y & -> & Hy).
  intros H. apply append_cancel_l in H. apply (append_cancel_l "/") in H.
  apply N. now apply (stem_of_dotted _ _ x y).
Qed.

(** X7: two ids never share a location in the uploads directory, whatever the
    names of the uploaded files: the location determines the id. *)
Theorem upload_location_injective dir id1 id2 name1 name2 :
  upload_location dir id1 name1 = upload_location dir id2 name2 -> id1 = id2.
Proof.
  intros H. destruct (decide (id1 = id2)) as [E|N]; [exact E|].
  exfalso. now apply (upload_location_apart dir id1 id2 name1 name2).
Qed.

Lemma upload_location_injective_witness : "f1" = "f1".
Proof.
  apply (upload_location_injective "/tmp/voice_pdf_assistant/uploads" "f1" "f1"
           "report.pdf" "scan.pdf").
  vm_compute. reflexivity.
Defined.

End Locations.

Section MonadSteps.
Import FM.
Local Open Scope py_scope.

Lemma run_eta {A} (r : run A) : Run (result r) (final r) (trace r) = r.
Proof. now destruct r. Qed.

(** A step that only reads hands its answer on. *)
Lemma bind_read {A B} (m : M A) (f : A -> M B) s a :
  m s = Run (Return a) s [] -> (x <- m ;; f x) s = f a s.
Proof. intros H. unfold bind. rewrite H. cbn [result final trace app]. apply run_eta. Qed.

Lemma bind_return {A B} (m : M A) (f : A -> M B) s a s' tr :
  m s = Run (Return a) s' tr ->
  (x <- m ;; f x) s = Run (result (f a s')) (final (f a s')) (tr ++ trace (f a s'))%list.
Proof. intros H. unfold bind. now rewrite H. Qed.

Lemma bind_raise {A B} (m : M A) (f : A -> M B) s e s' tr :
  m s = Run (Raise e) s' tr -> (x <- m ;; f x) s = Run (Raise e) s' tr.
Proof. intros H. unfold bind. now rewrite H. Qed.

Lemma try_except_return {A} (body : M A) handler s a s' tr :
  body s = Run (Return a) s' tr -> try_except body handler s = Run (Return a) s' tr.
Proof. intros H. unfold try_except. now rewrite H. Qed.

Lemma try_except_raise {A} (body : M A) handler s e s' tr :
  body s = Run (Raise e) s' tr ->
  try_except body handler s =
    Run (result (handler e s')) (final (handler e s')) (tr ++ trace (handler e s'))%list.
Proof. intros H. unfold try_except. now rewrite H. Qed.

Lemma get_file_path_run file_id s m :
  metadata s !! file_id = Some m -> get_file_path file_id s = Run (Return (path m)) s [].
Proof. intros H. unfold get_file_path, bind, get, ret. cbn [result final trace]. now rewrite H. Qed.

Lemma get_file_info_run file_id s m :
  metadata s !! file_id = Some m -> get_file_info file_id s = Run (Return m) s [].
Proof. intros H. unfold get_file_info, bind, get, ret. cbn [result final trace]. now rewrite H. Qed.

Lemma path_exists_run p s :
  path_exists p s = Run (Return (bool_decide (is_Some (files (fs s) !! p)))) s [].
Proof. reflexivity. Qed.

Lemma file_exists_run file_id s m :
  metadata s !! file_id = Some m ->
  file_exists file_id s = Run (Return (bool_decide (is_Some (files (fs s) !! path m)))) s [].
Proof. intros H. unfold file_exists, bind, get, ret. cbn [result final trace]. now rewrite H. Qed.

(** A download of an id whose entry and file are there. *)
Lemma download_file_found file_id s m :
  metadata s !! file_id = Some m -> is_Some (files (fs s) !! path m) ->
  Api.download_file file_id s =
    Run (Return (Api.FileResponse (path m) (filename m) (mime_type m))) s [].
Proof.
  intros H F. unfold Api.download_file. apply try_except_return.
  rewrite (bind_read _ _ _ _ (get_file_path_run _ _ _ H)).
  rewrite (bind_read _ _ _ _ (path_exists_run _ _)).
  rewrite bool_decide_eq_true_2 by exact F. cbn [negb].
  rewrite (bind_read _ _ s tt) by reflexivity.
  rewrite (bind_read _ _ _ _ (get_file_info_run _ _ _ H)). reflexivity.
Qed.

End MonadSteps.

Section Store.
Import FM Api.
Local Open Scope py_scope.

Lemma save_upload_frame file_id utcnow content name s :
  let r := save_upload file_id utcnow content name s in
  uploads_dir (final r) = uploads_dir s /\
  results_dir (final r) = results_dir s /\
  protected (fs (final r)) = protected (fs s) /\
  (forall other, other <> file_id -> metadata (final r) !! other = metadata s !! other) /\
  (forall q, q <> upload_location (uploads_dir s) file_id name ->
             files (fs (final r)) !! q = files (fs s) !! q).
Proof.
  intros r. subst r. rewrite save_upload_run. cbv zeta.
  set (p := upload_location (uploads_dir s) file_id name).
  destruct (bool_decide (p ∈ protected (fs s))); [now repeat split|].
  destruct (length content <=? free_bytes (fs s))%nat; simpl; repeat split; try reflexivity.
  - intros other N. now apply lookup_insert_ne.
  - intros q N. rewrite !lookup_insert_ne; [reflexivity | |]; intros E; apply N; now rewrite <- E.
  - intros q N. rewrite !lookup_insert_ne; [reflexivity | |]; intros E; apply N; now rewrite <- E.
Qed.

Lemma save_upload_success file_id utcnow content name s :
  result (save_upload file_id utcnow content name s) = Return file_id ->
  final (save_upload file_id utcnow content name s) = registered file_id utcnow content name s.
Proof.
  rewrite save_upload_run. cbv zeta.
  destruct (bool_decide _); [discriminate|].
  destruct (length content <=? free_bytes (fs s))%nat; [reflexivity | discriminate].
Qed.

Lemma registered_entry file_id utcnow content name s :
  metadata (registered file_id utcnow content name s) !! file_id =
    Some {| filename := _sanitize_filename name;
            path := upload_location (uploads_dir s) file_id name;
            mime_type := "application/pdf";
            size_bytes := length content;
            created_at := isoformat utcnow;
            type := "upload" |}.
Proof. unfold registered. cbn [metadata set_metadata]. apply lookup_insert_eq. Qed.

Lemma registered_file file_id utcnow content name s :
  files (fs (registered file_id utcnow content name s))
    !! upload_location (uploads_dir s) file_id name = Some content.
Proof.
  unfold registered, written.
  cbn [files fs set_fs set_files set_metadata]. apply lookup_insert_eq.
Qed.

Lemma save_upload_file file_id utcnow content name s :
  result (save_upload file_id utcnow content name s) = Return file_id ->
  files (fs (final (save_upload file_id utcnow content name s)))
    !! upload_location (uploads_dir s) file_id name = Some content.
Proof. intros Hok. rewrite (save_upload_success _ _ _ _ _ Hok). apply registered_file. Qed.

Lemma save_upload_file_exists file_id utcnow content name s :
  result (save_upload file_id utcnow content name s) = Return file_id ->
  result (file_exists file_id (final (save_upload file_id utcnow content name s)))
    = Return true.
Proof.
  intros Hok. rewrite (save_upload_success _ _ _ _ _ Hok).
  rewrite (file_exists_run _ _ _ (registered_entry file_id utcnow content name s)).
  cbn [result path]. rewrite registered_file.
  now rewrite bool_decide_eq_true_2 by eauto.
Qed.

(** X8: what was uploaded can be fetched.  After a [save_upload] that returned
    the id, [download_file] answers for that id with the location, the
    sanitized name and the type [application/pdf] and changes nothing;
    the file at the location holds the content; [file_exists] answers
    true, [get_file_path] the location, and the entry records the length
    of the content. *)
Theorem save_upload_then_download file_id utcnow content name s :
  result (save_upload file_id utcnow content name s) = Return file_id ->
  let s' := final (save_upload file_id utcnow content name s) in
  let p := upload_location (uploads_dir s) file_id name in
  download_file file_id s' =
    Run (Return (FileResponse p (_sanitize_filename name) "application/pdf")) s' [] /\
  files (fs s') !! p = Some content /\
  result (file_exists file_id s') = Return true /\
  result (get_file_path file_id s') = Return p /\
  (size_bytes <$> metadata s' !! file_id) = Some (length content).
Proof.
  intros Hok s' p. subst s'. rewrite (save_upload_success _ _ _ _ _ Hok).
  pose proof (registered_entry file_id utcnow content name s) as He.
  pose proof (registered_file file_id utcnow content name s) as Hf. fold p in He, Hf.
  split; [|split; [|split; [|split]]].
  - rewrite (download_file_found _ _ _ He) by (cbn [path]; rewrite Hf; eauto). reflexivity.
  - exact Hf.
  - rewrite (file_exists_run _ _ _ He). cbn [result path]. rewrite Hf.
    now rewrite bool_decide_eq_true_2 by eauto.
  - now rewrite (get_file_path_run _ _ _ He).
  - now rewrite He.
Qed.

Lemma save_upload_then_download_witness :
  FM.files (FM.fs Sample.one_upload)
    !! FM.upload_location (FM.uploads_dir Sample.fresh) "f1" "report.pdf"
    = Some Sample.pdf_bytes.
Proof.
  apply (save_upload_then_download "f1" Sample.upload_time Sample.pdf_bytes "report.pdf"
           Sample.fresh).
  vm_compute. reflexivity.
Defined.

(** X9: a later upload under another id leaves an earlier one alone, whether
    it succeeds or fails: the entry of the earlier id is unchanged, its
    file still holds its content, and it can still be downloaded. *)
Theorem save_upload_keeps_earlier_uploads
    id1 t1 content1 name1 id2 t2 content2 name2 s :
  id1 <> id2 ->
  result (save_upload id1 t1 content1 name1 s) = Return id1 ->
  let s1 := final (save_upload id1 t1 content1 name1 s) in
  let s2 := final (save_upload id2 t2 content2 name2 s1) in
  metadata s2 !! id1 = metadata s1 !! id1 /\
  files (fs s2) !! upload_location (uploads_dir s) id1 name1 = Some content1 /\
  download_file id1 s2 =
    Run (Return (FileResponse (upload_location (uploads_dir s) id1 name1)
                   (_sanitize_filename name1) "application/pdf")) s2 [].
Proof.
  intros N Hok s1 s2.
  pose proof (save_upload_file id1 t1 content1 name1 s Hok) as Hf. fold s1 in Hf.
  destruct (save_upload_frame id2 t2 content2 name2 s1) as (_ & _ & _ & Hm & Hq).
  fold s2 in Hm, Hq.
  assert (uploads_dir s1 = uploads_dir s) as Hd
    by apply (save_upload_frame id1 t1 content1 name1 s).
  assert (metadata s2 !! id1 = metadata s1 !! id1) as M by (apply Hm; congruence).
  assert (files (fs s2) !! upload_location (uploads_dir s) id1 name1 = Some content1) as F.
  { rewrite Hq; [exact Hf|]. rewrite Hd. intros E.
    now apply upload_location_apart in E. }
  split; [exact M | split; [exact F|]].
  unfold s1 in M. rewrite (save_upload_success _ _ _ _ _ Hok), registered_entry in M.
  rewrite (download_file_found _ _ _ M) by (cbn [path]; rewrite F; eauto). reflexivity.
Qed.

Lemma save_upload_keeps_earlier_uploads_witness :
  FM.files (FM.fs (FM.final (FM.save_upload "f2" Sample.upload_time Sample.pdf_bytes
                               "report.pdf" Sample.one_upload)))
    !! FM.upload_location (FM.uploads_dir Sample.fresh) "f1" "report.pdf"
    = Some Sample.pdf_bytes.
Proof.
  apply (save_upload_keeps_earlier_uploads "f1" Sample.upload_time Sample.pdf_bytes
           "report.pdf" "f2" Sample.upload_time Sample.pdf_bytes "report.pdf" Sample.fresh).
  - discriminate.
  - vm_compute. reflexivity.
Defined.

(** What [delete_file] leaves of the files. *)
Lemma delete_file_files file_id s :
  files (fs (final (FM.delete_file file_id s))) =
    match metadata s !! file_id with
    | Some m => if unlink_raises file_id s then files (fs s)
                else delete (path m) (files (fs s))
    | None => files (fs s)
    end.
Proof.
  destruct (metadata s !! file_id) as [m|] eqn:H.
  - rewrite (delete_file_known _ _ _ H).
    destruct (unlink_raises file_id s) eqn:U.
    + apply unlink_raises_spec in U. destruct U as (m' & Hm & He & Hp).
      rewrite H in Hm. inversion Hm; subst m'.
      now rewrite !bool_decide_eq_true_2.
    + destruct (bool_decide (is_Some (files (fs s) !! path m))) eqn:E.
      * destruct (bool_decide (path m ∈ protected (fs s))) eqn:P; [|reflexivity].
        apply bool_decide_eq_true in E, P.
        assert (unlink_raises file_id s = true) as U' by (apply unlink_raises_spec; eauto).
        congruence.
      * apply bool_decide_eq_false in E. cbv zeta. cbn [final fs files set_metadata].
        symmetry. apply delete_id.
        destruct (files (fs s) !! path m) eqn:F; [|reflexivity]. exfalso. apply E. eauto.
  - now rewrite delete_file_unknown.
Qed.

Lemma delete_file_other_entries file_id s other :
  other <> file_id ->
  metadata (final (FM.delete_file file_id s)) !! other = metadata s !! other.
Proof.
  intros N. rewrite delete_file_metadata. destruct (unlink_raises file_id s); [reflexivity|].
  now apply lookup_delete_ne.
Qed.

Lemma delete_file_gone file_id s m :
  metadata s !! file_id = Some m -> unlink_raises file_id s = false ->
  files (fs (final (FM.delete_file file_id s))) !! path m = None /\
  metadata (final (FM.delete_file file_id s)) !! file_id = None.
Proof.
  intros Hm U. rewrite delete_file_metadata, delete_file_files, Hm, U.
  split; apply lookup_delete_eq.
Qed.

(** X10: what [delete_file] touches: the entry of its id and the file of that
    entry, nothing else.  The entries of all other ids and all files at
    other paths are as before; and when the unlink is not refused, the
    file of the entry is gone together with the entry. *)
Theorem delete_file_removes_only_its_own file_id s :
  let s' := final (FM.delete_file file_id s) in
  (forall other, other <> file_id -> metadata s' !! other = metadata s !! other) /\
  (forall q, (forall m, metadata s !! file_id = Some m -> q <> path m) ->
             files (fs s') !! q = files (fs s) !! q) /\
  (forall m, metadata s !! file_id = Some m -> unlink_raises file_id s = false ->
             files (fs s') !! path m = None /\ metadata s' !! file_id = None).
Proof.
  intros s'. subst s'. split; [|split].
  - intros other N. now apply delete_file_other_entries.
  - intros q Hq. rewrite delete_file_files.
    destruct (metadata s !! file_id) as [m|]; [|reflexivity].
    destruct (unlink_raises file_id s); [reflexivity|].
    apply lookup_delete_ne. intros E. now apply (Hq m).
  - intros m Hm U. now apply delete_file_gone.
Qed.

Lemma delete_file_removes_only_its_own_witness :
  FM.files (FM.fs (FM.final (FM.delete_file "f1" Sample.one_upload)))
    !! "/tmp/voice_pdf_assistant/uploads/f1.pdf" = None.
Proof.
  destruct (delete_file_removes_only_its_own "f1" Sample.one_upload) as (_ & _ & H).
  refine (proj1 (H {| FM.filename := "report.pdf";
                      FM.path := "/tmp/voice_pdf_assistant/uploads/f1.pdf";
                      FM.mime_type := "application/pdf";
                      FM.size_bytes := 4;
                      FM.created_at := "2024-02-29T12:34:56.000123";
                      FM.type := "upload" |} _ _)); vm_compute; reflexivity.
Defined.

(** X11: an upload that is deleted again leaves the entries, the files and the
    protections as they were before it came, when the id and the location
    were free; the id is not found afterwards. *)
Theorem save_upload_then_delete file_id utcnow content name s :
  metadata s !! file_id = None ->
  files (fs s) !! upload_location (uploads_dir s) file_id name = None ->
  result (save_upload file_id utcnow content name s) = Return file_id ->
  let s' := final (FM.delete_file file_id (final (save_upload file_id utcnow content name s))) in
  metadata s' = metadata s /\ files (fs s') = files (fs s) /\
  protected (fs s') = protected (fs s) /\
  not_found file_id s'.
Proof.
  intros Hfresh Hfree Hok s'. subst s'.
  assert (upload_location (uploads_dir s) file_id name ∉ protected (fs s)) as Hp.
  { revert Hok. rewrite save_upload_run. cbv zeta.
    destruct (bool_decide _) eqn:P; [discriminate|]. intros _.
    now apply bool_decide_eq_false in P. }
  rewrite (save_upload_success _ _ _ _ _ Hok).
  rewrite (delete_file_known _ _ _ (registered_entry file_id utcnow content name s)).
  cbn [path]. rewrite registered_file.
  rewrite bool_decide_eq_true_2 by eauto.
  rewrite bool_decide_eq_false_2 by exact Hp.
  cbv zeta. cbn [final].
  assert (delete file_id (<[file_id := {| filename := _sanitize_filename name;
            path := upload_location (uploads_dir s) file_id name;
            mime_type := "application/pdf"; size_bytes := length content;
            created_at := isoformat utcnow; type := "upload" |}]> (metadata s)) = metadata s)
    as Hm by now apply delete_insert_id.
  repeat split.
  - cbn. exact Hm.
  - cbn. rewrite delete_insert_eq. rewrite delete_insert_id; [reflexivity | exact Hfree].
  - apply not_found_iff. cbn. apply lookup_delete_eq.
  - apply not_found_iff. cbn. apply lookup_delete_eq.
Qed.

Lemma save_upload_then_delete_witness :
  FM.metadata
    (FM.final (FM.delete_file "f1"
                 (FM.final (FM.save_upload "f1" Sample.upload_time Sample.pdf_bytes
                              "report.pdf" Sample.fresh))))
    = FM.metadata Sample.fresh.
Proof.
  apply (save_upload_then_delete "f1" Sample.upload_time Sample.pdf_bytes "report.pdf"
           Sample.fresh); vm_compute; reflexivity.
Defined.

End Store.

Section Results.
Import FM.
Local Open Scope py_scope.

(** The ways a [save_result] can go. *)
Lemma save_result_run file_id utcnow src name mime s :
  let p := result_location (results_dir s) file_id name in
  save_result file_id utcnow src name mime s =
    match files (fs s) !! src with
    | None =>
        Run (Raise (ValueError ("Failed to save result: " ++
                                "[Errno 2] No such file or directory: '" ++ src ++ "'"))) s []
    | Some data =>
        if String.eqb src p
        then Run (Raise (ValueError ("Failed to save result: " ++
                                     "PosixPath('" ++ src ++ "') and PosixPath('" ++ p ++
                                     "') are the same file"))) s []
        else if bool_decide (p ∈ protected (fs s))
        then Run (Raise (ValueError ("Failed to save result: " ++
                                     "[Errno 13] Permission denied: '" ++ p ++ "'"))) s []
        else if (length data <=? free_bytes (fs s))%nat
        then
          let s' := set_metadata
                      (<[file_id := result_entry file_id utcnow name mime p data]> (metadata s))
                      (written p data s) in
          Run (Return file_id) s' [opened p s; written p data s; s']
        else Run (Raise (ValueError ("Failed to save result: " ++
                                     "[Errno 28] No space left on device")))
               (truncated p data s) [opened p s; truncated p data s]
    end.
Proof.
  intros p.
  assert (copy2 src p s =
          match files (fs s) !! src with
          | None => Run (Raise (FileNotFoundError
                                  ("[Errno 2] No such file or directory: '" ++ src ++ "'"))) s []
          | Some data =>
              if String.eqb src p
              then Run (Raise (OSError ("PosixPath('" ++ src ++ "') and PosixPath('" ++ p ++
                                        "') are the same file"))) s []
              else write_bytes p data s
          end) as C.
  { unfold copy2. rewrite (bind_read _ _ s s eq_refl).
    destruct (files (fs s) !! src); [|reflexivity]. now destruct (String.eqb src p). }
  unfold save_result. cbv zeta. fold p.
  destruct (files (fs s) !! src) as [data|].
  2:{ erewrite try_except_raise.
      2:{ rewrite (bind_read _ _ s s eq_refl). fold p. apply bind_raise. exact C. }
      reflexivity. }
  destruct (String.eqb src p).
  { erewrite try_except_raise.
    2:{ rewrite (bind_read _ _ s s eq_refl). fold p. apply bind_raise. exact C. }
    reflexivity. }
  rewrite write_bytes_run in C.
  destruct (bool_decide (p ∈ protected (fs s))).
  { erewrite try_except_raise.
    2:{ rewrite (bind_read _ _ s s eq_refl). fold p. apply bind_raise. exact C. }
    reflexivity. }
  destruct (length data <=? free_bytes (fs s))%nat.
  2:{ erewrite try_except_raise.
      2:{ rewrite (bind_read _ _ s s eq_refl). fold p. apply bind_raise. exact C. }
      reflexivity. }
  assert (files (fs (written p data s)) !! p = Some data) as W
    by (unfold written; cbn [files fs set_fs set_files]; apply lookup_insert_eq).
  erewrite try_except_return; [reflexivity|].
  rewrite (bind_read _ _ s s eq_refl). fold p.
  rewrite (bind_return _ _ _ _ _ _ C).
  rewrite (bind_read _ _ (written p data s) (written p data s) eq_refl).
  assert (stat_size p (written p data s) = Run (Return (length data)) (written p data s) [])
    as St.
  { unfold stat_size. rewrite (bind_read _ _ _ _ eq_refl). now rewrite W. }
  rewrite (bind_read _ _ _ _ St).
  erewrite bind_return by reflexivity. reflexivity.
Qed.

(** X12: [save_result] registers a copy of the source or nothing.  On success
    the new file in the results directory holds what the source holds,
    the source is still there, and the entry carries the length of the
    copy, the given type and the mark [result]; every failure is a
    [ValueError] and leaves the metadata as before; and a source that
    does not exist fails at once, with the store untouched. *)
Theorem save_result_registers_a_copy file_id utcnow src name mime s :
  let r := save_result file_id utcnow src name mime s in
  let p := result_location (results_dir s) file_id name in
  (result r = Return file_id ->
   exists data,
     files (fs s) !! src = Some data /\
     files (fs (final r)) !! p = Some data /\
     files (fs (final r)) !! src = Some data /\
     metadata (final r) !! file_id = Some (result_entry file_id utcnow name mime p data)) /\
  (forall e, result r = Raise e ->
     (exists msg, e = ValueError msg) /\ metadata (final r) = metadata s) /\
  (files (fs s) !! src = None ->
   r = Run (Raise (ValueError ("Failed to save result: " ++
                               "[Errno 2] No such file or directory: '" ++ src ++ "'"))) s []).
Proof.
  intros r p. subst r. rewrite save_result_run. fold p. cbv zeta.
  destruct (files (fs s) !! src) as [data|] eqn:F.
  - destruct (String.eqb_spec src p) as [E|N].
    { split; [discriminate|]. split; [|discriminate].
      intros e H. inversion H. eauto. }
    destruct (bool_decide (p ∈ protected (fs s))).
    { split; [discriminate|]. split; [|discriminate].
      intros e H. inversion H. eauto. }
    destruct (length data <=? free_bytes (fs s))%nat.
    + split; [|split; discriminate].
      intros _. exists data. cbv zeta.
      cbn [final metadata files fs set_metadata written opened set_fs set_files].
      split; [reflexivity|]. split; [apply lookup_insert_eq|]. split.
      * rewrite !lookup_insert_ne by congruence. exact F.
      * apply lookup_insert_eq.
    + split; [discriminate|]. split; [|discriminate].
      intros e H. inversion H. eauto.
  - split; [discriminate|]. split; [|reflexivity].
    intros e H. inversion H. eauto.
Qed.

Lemma save_result_registers_a_copy_witness :
  exists data,
    FM.files (FM.fs Sample.with_temp_file)
      !! "/tmp/voice_pdf_assistant/results/temp_t1.docx" = Some data /\
    FM.files (FM.fs (FM.final (FM.save_result "r1" Sample.upload_time
                                 "/tmp/voice_pdf_assistant/results/temp_t1.docx"
                                 "report_converted.docx" "application/msword"
                                 Sample.with_temp_file)))
      !! FM.result_location (FM.results_dir Sample.with_temp_file) "r1"
           "report_converted.docx"
      = Some data.
Proof.
  destruct (save_result_registers_a_copy "r1" Sample.upload_time
              "/tmp/voice_pdf_assistant/results/temp_t1.docx" "report_converted.docx"
              "application/msword" Sample.with_temp_file) as (H & _).
  destruct H as (data & H1 & H2 & _); [vm_compute; reflexivity|].
  exists data. split; [exact H1 | exact H2].
Defined.

End Results.

Section Restart.
Import Sched.

Lemma asleep_app l1 l2 :
  length (List.filter is_asleep (l1 ++ l2)) =
    (length (List.filter is_asleep l1) + length (List.filter is_asleep l2))%nat.
Proof. now rewrite List.filter_app, length_app. Qed.

(** X13: stopping and starting again does not end the loop that is asleep: it
    adds a second one.  After [stop], [start] and the first turn of the
    new loop the scheduler is running, the earlier tasks are as they were
    and one more loop is asleep; each loop that was asleep before still
    sweeps when it wakes and goes to sleep again. *)
Theorem restart_adds_a_loop s now :
  let s' := resume (length (tasks s)) now (start (stop s)) in
  is_running s' = true /\
  tasks s' = (tasks s ++ [Sleeping])%list /\
  asleep s' = S (asleep s) /\
  sweeps s' = sweeps s /\
  forall i now', tasks s !! i = Some Sleeping ->
    sweeps (resume i now' s') = S (sweeps s) /\
    tasks (resume i now' s') !! i = Some Sleeping.
Proof.
  intros s'.
  assert (s' = {| file_manager := file_manager s; is_running := true;
                  tasks := (tasks s ++ [Sleeping])%list; sweeps := sweeps s |}) as ->.
  { subst s'. unfold start, stop. cbn [is_running file_manager tasks sweeps].
    unfold resume. cbn [tasks].
    rewrite lookup_app_r by lia. rewrite Nat.sub_diag. cbn [lookup list_lookup].
    unfold loop_head. cbn [is_running tasks sweeps file_manager]. f_equal.
    rewrite insert_app_r_alt by lia. now rewrite Nat.sub_diag. }
  cbn [is_running tasks sweeps].
  split; [reflexivity|]. split; [reflexivity|]. split.
  { unfold asleep. cbn [tasks]. rewrite asleep_app. simpl. lia. }
  split; [reflexivity|].
  intros i now' H. pose proof (lookup_lt_Some _ _ _ H) as L.
  unfold resume. cbn [tasks]. rewrite lookup_app_l by exact L. rewrite H.
  unfold loop_head, _run_cleanup. cbn [tasks is_running sweeps]. split; [reflexivity|].
  apply list_lookup_insert_eq. rewrite length_app. lia.
Qed.

Lemma restart_adds_a_loop_witness :
  Sched.sweeps
    (Sched.resume 0 7200000000
       (Sched.resume (length (Sched.tasks Sample.sleeping_scheduler)) 3600000000
          (Sched.start (Sched.stop Sample.sleeping_scheduler))))
    = S (Sched.sweeps Sample.sleeping_scheduler).
Proof.
  destruct (restart_adds_a_loop Sample.sleeping_scheduler 3600000000) as (_ & _ & _ & _ & H).
  apply (H 0%nat 7200000000). reflexivity.
Defined.

Lemma resume_store i now s : file_manager (resume i now s) = file_manager s.
Proof.
  unfold resume. destruct (tasks s !! i) as [[| |]|]; try reflexivity.
  unfold loop_head, _run_cleanup. cbn [file_manager].
  unfold FM.try_except. rewrite cleanup_old_files_inert. reflexivity.
Qed.

(** X14: no event of the scheduler changes the store of the file manager: the
    sweeps that [_run_cleanup] runs through [cleanup_old_files] reclaim
    nothing, whatever the store holds and however often they run. *)
Theorem scheduler_never_changes_the_store s evs :
  file_manager (steps s evs) = file_manager s.
Proof.
  revert s. induction evs as [|e evs IH]; intros s; [reflexivity|].
  unfold steps in *. cbn [fold_left]. rewrite IH.
  destruct e as [| |i now]; cbn [step].
  - unfold start. now destruct (is_running s).
  - reflexivity.
  - apply resume_store.
Qed.

End Restart.

Section Endpoints.
Import FM Api.
Local Open Scope py_scope.

(** X15: the delete endpoint answers with its message of success for every id,
    known or not, and whatever the unlink does: its 404 is never raised,
    and the store is left as [FileManager.delete_file] leaves it. *)
Theorem delete_endpoint_always_succeeds file_id s :
  result (Api.delete_file file_id s) = Return ("File " ++ file_id ++ " deleted successfully") /\
  final (Api.delete_file file_id s) = final (FM.delete_file file_id s).
Proof.
  unfold Api.delete_file, try_except, bind, ret. cbn [result final trace].
  rewrite delete_file_result. cbn [result final trace]. now split.
Qed.

Lemma validate_pdf_pages_run fitz_open pdf_path s :
  validate_pdf_pages fitz_open pdf_path s =
    match files (fs s) !! pdf_path ≫= fitz_open with
    | None => Run (Raise (HTTPException 400 "Invalid PDF file. Unable to read document.")) s []
    | Some n =>
        if HARD_PAGE_LIMIT <? n
        then Run (Raise (HTTPException 413
                           ("PDF has too many pages. Maximum is " ++ pad_dec 0 HARD_PAGE_LIMIT ++
                            " pages. Your PDF has " ++ pad_dec 0 n ++ " pages."))) s []
        else Run (Return {| page_count := n;
                            is_within_default := n <=? DEFAULT_PAGE_LIMIT;
                            is_within_hard_limit := n <=? HARD_PAGE_LIMIT;
                            warning :=
                              if n <=? DEFAULT_PAGE_LIMIT then None
                              else Some ("PDF has " ++ pad_dec 0 n ++
                                         " pages. Processing may be slower for large documents.") |})
               s []
    end.
Proof.
  unfold validate_pdf_pages, try_except, bind, get, ret, raise. cbn [result final trace].
  destruct (files (fs s) !! pdf_path ≫= fitz_open) as [n|]; [|reflexivity].
  destruct (HARD_PAGE_LIMIT <? n); reflexivity.
Qed.

(** X16: an upload that is refused for its type or its size has stored nothing
    and scheduled nothing: the world is as before.  A type other than
    [application/pdf] is answered with 400, whatever the size; a PDF of
    more than 50 MB with 413 and a message that names its size. *)
Theorem upload_pdf_refused_early fitz_open file background_tasks file_id utcnow w :
  content_type file <> "application/pdf" \/ MAX_FILE_SIZE < Z.of_nat (length (body file)) ->
  let out := upload_pdf fitz_open file background_tasks file_id utcnow w in
  out.2 = w /\
  (content_type file <> "application/pdf" ->
   out.1 = Raise (HTTPException 400 "Invalid file type. Only PDF files are accepted.")) /\
  (content_type file = "application/pdf" ->
   out.1 = Raise (HTTPException 413
                    ("File too large. Maximum size is 50.0MB. Your file is " ++
                     format_2f (hundredths_mb (Z.of_nat (length (body file)))) ++ "MB."))).
Proof.
  intros H out. subst out. unfold upload_pdf.
  assert (exists e,
            upload_pdf_store fitz_open file file_id utcnow (Loop.store w)
              = Run (Raise e) (Loop.store w) [] /\
            (content_type file <> "application/pdf" ->
             e = HTTPException 400 "Invalid file type. Only PDF files are accepted.") /\
            (content_type file = "application/pdf" ->
             e = HTTPException 413
                   ("File too large. Maximum size is 50.0MB. Your file is " ++
                    format_2f (hundredths_mb (Z.of_nat (length (body file)))) ++ "MB.")))
    as (e & R & E1 & E2).
  { unfold upload_pdf_store.
    destruct (String.eqb_spec (content_type file) "application/pdf") as [E|N]; cbn [negb].
    - destruct H as [H|H]; [contradiction|]. apply Z.ltb_lt in H.
      eexists. split; [|split; [contradiction | reflexivity]].
      erewrite try_except_raise.
      2:{ rewrite (bind_read _ _ _ tt eq_refl). apply bind_raise.
          unfold validate_file_size. rewrite H. reflexivity. }
      reflexivity.
    - eexists. split; [|split; [reflexivity | contradiction]].
      erewrite try_except_raise by (apply bind_raise; reflexivity). reflexivity. }
  rewrite R. cbn [result final fst snd]. split; [now destruct w|].
  split; intros C; f_equal; auto.
Qed.

Lemma upload_pdf_refused_early_witness :
  (Api.upload_pdf (fun _ => Some 3) Sample.text_upload true "f1" Sample.upload_time
     Sample.fresh_world).2 = Sample.fresh_world.
Proof.
  apply (upload_pdf_refused_early (fun _ => Some 3) Sample.text_upload true "f1"
           Sample.upload_time Sample.fresh_world).
  left. discriminate.
Defined.

(** What [upload_pdf] does once the file is stored. *)
Lemma upload_pdf_after_save fitz_open file file_id st :
  (path <$> metadata st !! file_id)
    = Some (upload_location (uploads_dir st) file_id (upload_filename file)) ->
  files (fs st) !! upload_location (uploads_dir st) file_id (upload_filename file)
    = Some (body file) ->
  (file_path <- get_file_path file_id ;;
   pdf_validation <- validate_pdf_pages fitz_open file_path ;;
   ret {| response_file_id := file_id;
          response_filename := upload_filename file;
          response_page_count := page_count pdf_validation;
          response_size_mb := hundredths_mb (Z.of_nat (length (body file))) |}) st =
    match fitz_open (body file) with
    | None =>
        Run (Raise (HTTPException 400 "Invalid PDF file. Unable to read document.")) st []
    | Some n =>
        if HARD_PAGE_LIMIT <? n
        then Run (Raise (HTTPException 413
                           ("PDF has too many pages. Maximum is " ++
                            pad_dec 0 HARD_PAGE_LIMIT ++
                            " pages. Your PDF has " ++ pad_dec 0 n ++ " pages."))) st []
        else Run (Return {| response_file_id := file_id;
                            response_filename := upload_filename file;
                            response_page_count := n;
                            response_size_mb :=
                              hundredths_mb (Z.of_nat (length (body file))) |}) st []
    end.
Proof.
  intros He Hf.
  destruct (metadata st !! file_id) as [m|] eqn:Hm; [|discriminate].
  cbn in He. inversion He as [Hp]. clear He.
  rewrite (bind_read _ _ _ _ (get_file_path_run _ _ _ Hm)). rewrite Hp.
  set (p := upload_location (uploads_dir st) file_id (upload_filename file)) in *.
  pose proof (validate_pdf_pages_run fitz_open p st) as V. rewrite Hf in V.
  change (Some (body file) ≫= fitz_open) with (fitz_open (body file)) in V.
  destruct (fitz_open (body file)) as [n|].
  - destruct (HARD_PAGE_LIMIT <? n).
    + now apply bind_raise.
    + now rewrite (bind_read _ _ _ _ V).
  - now apply bind_raise.
Qed.

(** An upload of the right type and size: what the save leaves, and what
    PyMuPDF says of the stored bytes, decide. *)
Lemma upload_pdf_store_run fitz_open file file_id utcnow s :
  content_type file = "application/pdf" ->
  Z.of_nat (length (body file)) <= MAX_FILE_SIZE ->
  let r1 := save_upload file_id utcnow (body file) (upload_filename file) s in
  upload_pdf_store fitz_open file file_id utcnow s =
    match result r1 with
    | Raise e =>
        Run (Raise (HTTPException 500 ("Failed to upload PDF: " ++ exn_str e)))
          (final r1) (trace r1)
    | Return _ =>
        match fitz_open (body file) with
        | None =>
            Run (Raise (HTTPException 400 "Invalid PDF file. Unable to read document."))
              (final r1) (trace r1)
        | Some n =>
            if HARD_PAGE_LIMIT <? n
            then Run (Raise (HTTPException 413
                               ("PDF has too many pages. Maximum is " ++
                                pad_dec 0 HARD_PAGE_LIMIT ++
                                " pages. Your PDF has " ++ pad_dec 0 n ++ " pages.")))
                   (final r1) (trace r1)
            else Run (Return {| response_file_id := file_id;
                                response_filename := upload_filename file;
                                response_page_count := n;
                                response_size_mb :=
                                  hundredths_mb (Z.of_nat (length (body file))) |})
                   (final r1) (trace r1)
        end
    end.
Proof.
  intros Ht Hs r1. subst r1.
  pose proof (save_upload_run file_id utcnow (body file) (upload_filename file) s) as R.
  cbv zeta in R.
  set (p := upload_location (uploads_dir s) file_id (upload_filename file)) in *.
  assert (validate_file_size file s = Run (Return (body file)) s []) as V.
  { unfold validate_file_size.
    assert ((MAX_FILE_SIZE <? Z.of_nat (length (body file))) = false) as ->
      by (apply Z.ltb_ge; lia).
    reflexivity. }
  unfold upload_pdf_store. rewrite Ht, String.eqb_refl. cbn [negb].
  destruct (bool_decide (p ∈ protected (fs s))).
  { rewrite R. cbn [result final trace].
    erewrite try_except_raise.
    2:{ rewrite (bind_read _ _ s tt eq_refl), (bind_read _ _ _ _ V).
        apply bind_raise. exact R. }
    reflexivity. }
  destruct (length (body file) <=? free_bytes (fs s))%nat.
  2:{ rewrite R. cbn [result final trace].
      erewrite try_except_raise.
      2:{ rewrite (bind_read _ _ s tt eq_refl), (bind_read _ _ _ _ V).
          apply bind_raise. exact R. }
      reflexivity. }
  rewrite R. cbn [result final trace].
  set (reg := registered file_id utcnow (body file) (upload_filename file) s) in *.
  assert (uploads_dir reg = uploads_dir s) as Hd by reflexivity.
  pose proof (upload_pdf_after_save fitz_open file file_id reg) as T.
  rewrite Hd in T. fold p in T.
  specialize (T ltac:(unfold reg; now rewrite registered_entry)
                ltac:(unfold reg; apply registered_file)).
  destruct (fitz_open (body file)) as [n|].
  - destruct (HARD_PAGE_LIMIT <? n).
    + erewrite try_except_raise.
      2:{ rewrite (bind_read _ _ s tt eq_refl), (bind_read _ _ _ _ V).
          rewrite (bind_return _ _ _ _ _ _ R). rewrite T. reflexivity. }
      cbn [result final trace is_HTTPException raise app]. reflexivity.
    + erewrite try_except_return; [reflexivity|].
      rewrite (bind_read _ _ s tt eq_refl), (bind_read _ _ _ _ V).
      rewrite (bind_return _ _ _ _ _ _ R). rewrite T. cbn [result final trace app].
      reflexivity.
  - erewrite try_except_raise.
    2:{ rewrite (bind_read _ _ s tt eq_refl), (bind_read _ _ _ _ V).
        rewrite (bind_return _ _ _ _ _ _ R). rewrite T. reflexivity. }
    cbn [result final trace is_HTTPException raise app]. reflexivity.
Qed.

(** X17: an upload that PyMuPDF cannot read, or that has more than 100 pages,
    is refused (with 400 or 413) only after it has been stored: the file
    and its entry stay in the store, and no deletion is scheduled for
    them. *)
Theorem upload_pdf_refused_late fitz_open file background_tasks file_id utcnow w :
  content_type file = "application/pdf" ->
  Z.of_nat (length (body file)) <= MAX_FILE_SIZE ->
  result (save_upload file_id utcnow (body file) (upload_filename file) (Loop.store w))
    = Return file_id ->
  (fitz_open (body file) = None \/
   exists n, fitz_open (body file) = Some n /\ HARD_PAGE_LIMIT < n) ->
  let out := upload_pdf fitz_open file background_tasks file_id utcnow w in
  (exists detail, out.1 = Raise (HTTPException 400 detail) \/
                  out.1 = Raise (HTTPException 413 detail)) /\
  Loop.store out.2
    = final (save_upload file_id utcnow (body file) (upload_filename file) (Loop.store w)) /\
  result (file_exists file_id (Loop.store out.2)) = Return true /\
  files (fs (Loop.store out.2))
    !! upload_location (uploads_dir (Loop.store w)) file_id (upload_filename file)
    = Some (body file) /\
  Loop.sleeping out.2 = Loop.sleeping w.
Proof.
  intros Ht Hs Hok Hbad out. subst out. unfold upload_pdf.
  rewrite (upload_pdf_store_run _ _ _ _ _ Ht Hs). cbv zeta. rewrite Hok.
  pose proof (save_upload_file _ _ _ _ _ Hok) as Hf.
  pose proof (save_upload_file_exists _ _ _ _ _ Hok) as He.
  destruct Hbad as [->|(n & -> & Hn)].
  - cbn [result final fst snd Loop.store Loop.sleeping]. repeat split; eauto.
  - apply Z.ltb_lt in Hn. rewrite Hn.
    cbn [result final fst snd Loop.store Loop.sleeping]. repeat split; eauto.
Qed.

Lemma upload_pdf_refused_late_witness :
  Loop.sleeping (Api.upload_pdf (fun _ => None) Sample.pdf_upload true "f1"
                   Sample.upload_time Sample.fresh_world).2 = [] /\
  FM.result (FM.file_exists "f1"
               (Loop.store (Api.upload_pdf (fun _ => None) Sample.pdf_upload true "f1"
                              Sample.upload_time Sample.fresh_world).2)) = FM.Return true.
Proof.
  destruct (upload_pdf_refused_late (fun _ => None) Sample.pdf_upload true "f1"
              Sample.upload_time Sample.fresh_world) as (_ & _ & H1 & _ & H2).
  - reflexivity.
  - vm_compute. discriminate.
  - vm_compute. reflexivity.
  - now left.
  - split; [exact H2 | exact H1].
Defined.

Lemma upload_pdf_accepted_run fitz_open file file_id utcnow w n :
  content_type file = "application/pdf" ->
  Z.of_nat (length (body file)) <= MAX_FILE_SIZE ->
  result (save_upload file_id utcnow (body file) (upload_filename file) (Loop.store w))
    = Return file_id ->
  fitz_open (body file) = Some n -> n <= HARD_PAGE_LIMIT ->
  upload_pdf fitz_open file true file_id utcnow w =
    (Return {| response_file_id := file_id;
               response_filename := upload_filename file;
               response_page_count := n;
               response_size_mb := hundredths_mb (Z.of_nat (length (body file))) |},
     Loop.schedule_cleanup file_id 3600
       {| Loop.store := final (save_upload file_id utcnow (body file) (upload_filename file)
                                 (Loop.store w));
          Loop.clock := Loop.clock w;
          Loop.sleeping := Loop.sleeping w |}).
Proof.
  intros Ht Hs Hok Hn Hle. unfold upload_pdf.
  rewrite (upload_pdf_store_run _ _ _ _ _ Ht Hs). cbv zeta. rewrite Hok, Hn.
  assert ((HARD_PAGE_LIMIT <? n) = false) as -> by (apply Z.ltb_ge; lia).
  cbn [result final fst snd]. reflexivity.
Qed.

(** X18: an accepted upload: the answer names the id, the caller's own file
    name (not the sanitized one), the page count and the size; the store
    is the one [save_upload] left; and one deletion is scheduled for the
    id, 3600 seconds from now, after those already pending. *)
Theorem upload_pdf_accepted fitz_open file file_id utcnow w n :
  content_type file = "application/pdf" ->
  Z.of_nat (length (body file)) <= MAX_FILE_SIZE ->
  result (save_upload file_id utcnow (body file) (upload_filename file) (Loop.store w))
    = Return file_id ->
  fitz_open (body file) = Some n -> n <= HARD_PAGE_LIMIT ->
  let out := upload_pdf fitz_open file true file_id utcnow w in
  out.1 = Return {| response_file_id := file_id;
                    response_filename := upload_filename file;
                    response_page_count := n;
                    response_size_mb := hundredths_mb (Z.of_nat (length (body file))) |} /\
  Loop.store out.2
    = final (save_upload file_id utcnow (body file) (upload_filename file) (Loop.store w)) /\
  Loop.clock out.2 = Loop.clock w /\
  Loop.sleeping out.2 = (Loop.sleeping w ++ [(Loop.clock w + 3600, file_id)])%list.
Proof.
  intros Ht Hs Hok Hn Hle out. subst out.
  rewrite (upload_pdf_accepted_run _ _ _ _ _ _ Ht Hs Hok Hn Hle).
  cbn [fst snd]. unfold Loop.schedule_cleanup.
  cbn [Loop.store Loop.clock Loop.sleeping]. split; [|split; [|split]]; reflexivity.
Qed.

Lemma upload_pdf_accepted_witness :
  Loop.sleeping (Api.upload_pdf (fun _ => Some 3) Sample.pdf_upload true "f1"
                   Sample.upload_time Sample.fresh_world).2 = [(3600, "f1")].
Proof.
  apply (upload_pdf_accepted (fun _ => Some 3) Sample.pdf_upload "f1" Sample.upload_time
           Sample.fresh_world 3).
  - reflexivity.
  - vm_compute. discriminate.
  - vm_compute. reflexivity.
  - reflexivity.
  - vm_compute. discriminate.
Defined.

(** X19: the life of an accepted upload.  When nothing is protected and no
    deletion was pending for the id, the entry stays as it is while the
    loop has not reached the hour, and from the hour on the id is not
    found. *)
Theorem upload_pdf_expires fitz_open file file_id utcnow w n t :
  content_type file = "application/pdf" ->
  Z.of_nat (length (body file)) <= MAX_FILE_SIZE ->
  result (save_upload file_id utcnow (body file) (upload_filename file) (Loop.store w))
    = Return file_id ->
  fitz_open (body file) = Some n -> n <= HARD_PAGE_LIMIT ->
  protected (fs (Loop.store w)) = ∅ ->
  Loop.deadlines_of file_id w = [] ->
  let out := upload_pdf fitz_open file true file_id utcnow w in
  (t < Loop.clock w + 3600 ->
   metadata (Loop.store (Loop.run_until t out.2)) !! file_id
     = metadata (Loop.store out.2) !! file_id /\
   is_Some (metadata (Loop.store (Loop.run_until t out.2)) !! file_id)) /\
  (Loop.clock w + 3600 <= t ->
   not_found file_id (Loop.store (Loop.run_until t out.2))).
Proof.
  intros Ht Hs Hok Hn Hle Hp Hd out.
  pose proof (upload_pdf_accepted_run fitz_open file file_id utcnow w n Ht Hs Hok Hn Hle)
    as Hrun. fold out in Hrun.
  assert (Loop.store out.2
          = final (save_upload file_id utcnow (body file) (upload_filename file)
                     (Loop.store w))) as Hst by now rewrite Hrun.
  assert (Loop.sleeping out.2
          = (Loop.sleeping w ++ [(Loop.clock w + 3600, file_id)])%list) as Hsl
    by now rewrite Hrun.
  assert (forall d, In d (Loop.deadlines_of file_id out.2) <-> d = Loop.clock w + 3600) as D.
  { intros d. rewrite deadlines_of_In, Hsl, in_app_iff. simpl.
    rewrite <- deadlines_of_In, Hd. simpl. split.
    - intros [[]|[E|[]]]. now inversion E.
    - intros ->. right. now left. }
  split.
  - intros Hlt.
    assert (metadata (Loop.store (Loop.run_until t out.2)) !! file_id
            = metadata (Loop.store out.2) !! file_id) as E.
    { unfold Loop.run_until. cbn [Loop.store]. apply wake_all_others.
      intros [d f] Hin Ef. cbn in Ef. subst f.
      apply by_deadline_In, filter_In in Hin. destruct Hin as [Hin Hdue].
      cbn in Hdue. apply Z.leb_le in Hdue.
      apply deadlines_of_In, D in Hin. lia. }
    split; [exact E|]. rewrite E, Hst, (save_upload_success _ _ _ _ _ Hok), registered_entry.
    eauto.
  - intros Hge. apply not_found_iff. unfold Loop.run_until. cbn [Loop.store].
    apply (wake_all_deletes _ _ _ (Loop.clock w + 3600)).
    + rewrite Hst. now rewrite (proj1 (proj2 (proj2 (save_upload_frame _ _ _ _ _)))).
    + apply by_deadline_In, filter_In. split.
      * apply deadlines_of_In, D. reflexivity.
      * cbn. now apply Z.leb_le.
Qed.

Lemma upload_pdf_expires_witness :
  FM.not_found "f1"
    (Loop.store (Loop.run_until 3600
                   (Api.upload_pdf (fun _ => Some 3) Sample.pdf_upload true "f1"
                      Sample.upload_time Sample.fresh_world).2)).
Proof.
  apply (upload_pdf_expires (fun _ => Some 3) Sample.pdf_upload "f1" Sample.upload_time
           Sample.fresh_world 3 3600).
  - reflexivity.
  - vm_compute. discriminate.
  - vm_compute. reflexivity.
  - reflexivity.
  - vm_compute. discriminate.
  - vm_compute. reflexivity.
  - reflexivity.
  - vm_compute. discriminate.
Defined.

(** X20: a download changes nothing in the store, and it answers 200 exactly
    when the id has an entry and the file of the entry is there; its
    status is always one of 200, 404 and 500. *)
Theorem download_file_outcomes file_id s :
  final (download_file file_id s) = s /\
  trace (download_file file_id s) = [] /\
  (status_of (download_file file_id s) = 200 <->
   exists m, metadata s !! file_id = Some m /\ is_Some (files (fs s) !! path m)) /\
  (status_of (download_file file_id s) = 200 \/
   status_of (download_file file_id s) = 404 \/
   status_of (download_file file_id s) = 500).
Proof.
  destruct (metadata s !! file_id) as [m|] eqn:H.
  - destruct (files (fs s) !! path m) as [data|] eqn:F.
    + rewrite (download_file_found _ _ _ H) by (rewrite F; eauto).
      split; [reflexivity|]. split; [reflexivity|]. split; [|now left].
      split; [|reflexivity]. intros _. exists m. rewrite F. eauto.
    + assert (download_file file_id s =
              Run (Raise (HTTPException 404 ("File not found or has expired: " ++ file_id)))
                s []) as ->.
      { unfold download_file. erewrite try_except_raise.
        2:{ rewrite (bind_read _ _ _ _ (get_file_path_run _ _ _ H)).
            rewrite (bind_read _ _ _ _ (path_exists_run _ _)). rewrite F.
            rewrite bool_decide_eq_false_2 by (intros [x Hx]; discriminate).
            cbn [negb]. apply bind_raise. reflexivity. }
        reflexivity. }
      split; [reflexivity|]. split; [reflexivity|]. split; [|right; now left].
      unfold status_of. cbn [result]. split; [discriminate|].
      intros (m' & Hm & [x Hx]). congruence.
  - assert (download_file file_id s =
            Run (Raise (HTTPException 500
                          ("Failed to download file: " ++ "File not found: " ++ file_id)))
              s []) as ->.
    { unfold download_file. erewrite try_except_raise.
      2:{ apply bind_raise. unfold get_file_path.
          rewrite (bind_read _ _ _ _ eq_refl). rewrite H. reflexivity. }
      reflexivity. }
    split; [reflexivity|]. split; [reflexivity|]. split; [|right; now right].
    unfold status_of. cbn [result]. split; [discriminate|].
    intros (m' & Hm & _). discriminate.
Qed.

Lemma download_file_outcomes_witness :
  Api.status_of (Api.download_file "f1" Sample.one_upload) = 200.
Proof.
  apply (download_file_outcomes "f1" Sample.one_upload).
  eexists. split; [vm_compute; reflexivity|]. vm_compute. eexists. reflexivity.
Defined.

End Endpoints.

Section Order.
Import FM.

(** Two deletions give the same store in either order. *)
Lemma delete_file_commutes a b s :
  final (FM.delete_file a (final (FM.delete_file b s)))
    = final (FM.delete_file b (final (FM.delete_file a s))).
Proof.
  destruct (decide (a = b)) as [->|N]; [reflexivity|].
  rewrite (delete_file_final a (final _)), (delete_file_final b (final _)).
  rewrite (unlink_raises_after_delete b a s) by congruence.
  rewrite (unlink_raises_after_delete a b s) by exact N.
  rewrite !delete_file_final.
  destruct (unlink_raises a s), (unlink_raises b s); try reflexivity.
  cbn [metadata fs files protected free_bytes uploads_dir results_dir].
  rewrite !lookup_delete_ne by congruence.
  f_equal; [apply delete_delete|].
  f_equal. destruct (metadata s !! a), (metadata s !! b); try reflexivity.
  apply delete_delete.
Qed.

(** X21: the deletions of [cleanup_all] reach the same store in whatever order
    the ids are taken, so that the order of the keys of the dictionary
    does not matter. *)
Theorem delete_all_any_order ids ids' st :
  Permutation ids ids' -> delete_all ids st = delete_all ids' st.
Proof.
  intros P. revert st. induction P as [|x l l' P IH|x y l|l l' l'' P1 IH1 P2 IH2]; intros st.
  - reflexivity.
  - cbn [delete_all fold_left]. apply IH.
  - cbn [delete_all fold_left]. now rewrite delete_file_commutes.
  - now rewrite IH1.
Qed.

Lemma delete_all_any_order_witness :
  FM.delete_all ["f1"; "f2"] Sample.one_upload = FM.delete_all ["f2"; "f1"] Sample.one_upload.
Proof.
  apply (delete_all_any_order ["f1"; "f2"] ["f2"; "f1"] Sample.one_upload).
  apply perm_swap.
Defined.

End Order.

Section Shutdown.
Import FM.

Lemma delete_file_keeps_no_file file_id s q :
  is_Some (files (fs (final (FM.delete_file file_id s))) !! q) ->
  is_Some (files (fs s) !! q).
Proof.
  rewrite delete_file_files. destruct (metadata s !! file_id) as [m|]; [|easy].
  destruct (unlink_raises file_id s); [easy|].
  rewrite lookup_delete_is_Some. now intros [_ H].
Qed.

Lemma delete_file_keeps_no_entry file_id s other m :
  metadata (final (FM.delete_file file_id s)) !! other = Some m ->
  metadata s !! other = Some m /\
  (other = file_id -> path m ∈ protected (fs s) /\ is_Some (files (fs s) !! path m)).
Proof.
  rewrite delete_file_metadata. destruct (unlink_raises file_id s) eqn:U.
  - intros H. split; [exact H|]. intros ->.
    apply unlink_raises_spec in U. destruct U as (m' & Hm & He & Hp).
    rewrite H in Hm. inversion Hm; subst m'. now split.
  - rewrite lookup_delete_Some. intros [N H]. split; [exact H|]. congruence.
Qed.

Lemma delete_all_protected ids st :
  protected (fs (delete_all ids st)) = protected (fs st).
Proof.
  revert st. induction ids as [|x ids IH]; intros st; [reflexivity|].
  cbn [delete_all fold_left]. fold (delete_all ids (final (FM.delete_file x st))).
  now rewrite IH, delete_file_protected.
Qed.

Lemma delete_all_keeps_no_file ids st q :
  is_Some (files (fs (delete_all ids st)) !! q) -> is_Some (files (fs st) !! q).
Proof.
  revert st. induction ids as [|x ids IH]; intros st; [easy|].
  cbn [delete_all fold_left]. fold (delete_all ids (final (FM.delete_file x st))).
  intros H. apply IH in H. now apply delete_file_keeps_no_file in H.
Qed.

Lemma delete_all_keeps_no_entry ids st other m :
  metadata (delete_all ids st) !! other = Some m ->
  metadata st !! other = Some m /\
  (other ∈ ids -> path m ∈ protected (fs st) /\ is_Some (files (fs st) !! path m)).
Proof.
  revert st. induction ids as [|x ids IH]; intros st.
  - intros H. split; [exact H|]. intros E. now apply elem_of_nil in E.
  - cbn [delete_all fold_left]. fold (delete_all ids (final (FM.delete_file x st))).
    intros H. apply IH in H. destruct H as [H1 H2].
    apply delete_file_keeps_no_entry in H1. destruct H1 as [H1 H1'].
    split; [exact H1|]. intros E. apply elem_of_cons in E. destruct E as [E|E].
    + now apply H1'.
    + destruct (H2 E) as [Hp Hf]. rewrite delete_file_protected in Hp.
      split; [exact Hp | now apply delete_file_keeps_no_file in Hf].
Qed.

Lemma delete_all_removes_files ids st file_id m :
  protected (fs st) = ∅ -> file_id ∈ ids -> metadata st !! file_id = Some m ->
  files (fs (delete_all ids st)) !! path m = None.
Proof.
  revert st. induction ids as [|x ids IH]; intros st Hp E Hm.
  - now apply elem_of_nil in E.
  - cbn [delete_all fold_left]. fold (delete_all ids (final (FM.delete_file x st))).
    destruct (decide (file_id = x)) as [->|N].
    + destruct (delete_file_gone x st m Hm (unprotected_never_raises _ _ Hp)) as [Hf _].
      destruct (files (fs (delete_all ids (final (FM.delete_file x st)))) !! path m) eqn:F;
        [|reflexivity].
      assert (is_Some (files (fs (final (FM.delete_file x st))) !! path m)) as [y Hy]
        by (apply (delete_all_keeps_no_file ids); eauto).
      congruence.
    + apply elem_of_cons in E. destruct E as [E|E]; [contradiction|].
      apply IH; [now rewrite delete_file_protected | exact E |].
      now rewrite delete_file_other_entries.
Qed.

Lemma for_each_delete ids w :
  Dirs.for_each ids (fun file_id => Dirs.lift (FM.delete_file file_id)) w =
    (Return tt, {| Dirs.store := delete_all ids (Dirs.store w); Dirs.dirs := Dirs.dirs w |}).
Proof.
  revert w. induction ids as [|x ids IH]; intros w; [now destruct w|].
  cbn [Dirs.for_each]. unfold Dirs.bind, Dirs.lift at 1.
  rewrite delete_file_result. rewrite IH. reflexivity.
Qed.

Lemma remove_if_empty_store directory w :
  Dirs.store (Dirs.remove_if_empty directory w).2 = Dirs.store w /\
  Dirs.dirs (Dirs.remove_if_empty directory w).2 ⊆ Dirs.dirs w.
Proof.
  unfold Dirs.remove_if_empty, Dirs.bind, Dirs.path_exists.
  destruct (_ || _); [|now split].
  unfold Dirs.iterdir_any. destruct (bool_decide (directory ∈ Dirs.dirs w)); [|now split].
  destruct (existsb _ _) eqn:E; cbn [negb]; [now split|].
  unfold Dirs.rmdir. destruct (bool_decide _); [now split|].
  rewrite E. cbn [snd Dirs.store Dirs.dirs]. split; [reflexivity|].
  now apply subseteq_difference_l.
Qed.

Lemma remove_all_if_empty_store l w :
  Dirs.store (Dirs.for_each l Dirs.remove_if_empty w).2 = Dirs.store w /\
  Dirs.dirs (Dirs.for_each l Dirs.remove_if_empty w).2 ⊆ Dirs.dirs w.
Proof.
  revert w. induction l as [|d l IH]; intros w; [now split|].
  cbn [Dirs.for_each]. unfold Dirs.bind.
  destruct (remove_if_empty_store d w) as [S1 D1].
  destruct (Dirs.remove_if_empty d w) as [[[]|e] w1]; cbn [snd] in *.
  - destruct (IH w1) as [S2 D2]. split; [congruence | now transitivity (Dirs.dirs w1)].
  - now split.
Qed.

(** X22: [cleanup_all] returns normally.  The entries it leaves are entries of
    files whose unlink was refused; it creates no file and no directory;
    and where nothing is protected it leaves no entry, and no file that
    had one. *)
Theorem cleanup_all_clears w :
  let out := Dirs.cleanup_all w in
  out.1 = Return tt /\
  (forall file_id m,
     metadata (Dirs.store out.2) !! file_id = Some m ->
     metadata (Dirs.store w) !! file_id = Some m /\
     path m ∈ protected (fs (Dirs.store w)) /\
     is_Some (files (fs (Dirs.store w)) !! path m)) /\
  (forall q, is_Some (files (fs (Dirs.store out.2)) !! q) ->
             is_Some (files (fs (Dirs.store w)) !! q)) /\
  Dirs.dirs out.2 ⊆ Dirs.dirs w /\
  (protected (fs (Dirs.store w)) = ∅ ->
   metadata (Dirs.store out.2) = ∅ /\
   forall file_id m, metadata (Dirs.store w) !! file_id = Some m ->
                     files (fs (Dirs.store out.2)) !! path m = None).
Proof.
  intros out.
  set (ids := (map_to_list (metadata (Dirs.store w))).*1).
  set (w1 := {| Dirs.store := delete_all ids (Dirs.store w); Dirs.dirs := Dirs.dirs w |}).
  assert (out.1 = Return tt /\ Dirs.store out.2 = delete_all ids (Dirs.store w) /\
          Dirs.dirs out.2 ⊆ Dirs.dirs w) as (R & S & D).
  { subst out.
    change (Dirs.cleanup_all w)
      with (Dirs.try_except
              (fun w0 =>
                 Dirs.bind
                   (Dirs.for_each (map_to_list (metadata (Dirs.store w0))).*1
                      (fun file_id => Dirs.lift (FM.delete_file file_id)))
                   (fun _ => Dirs.for_each
                               [uploads_dir (Dirs.store w0); results_dir (Dirs.store w0)]
                               Dirs.remove_if_empty) w0)
              (fun e => Dirs.ret tt) w).
    unfold Dirs.try_except. cbv beta. fold ids.
    assert (Dirs.bind
              (Dirs.for_each ids (fun file_id => Dirs.lift (FM.delete_file file_id)))
              (fun _ => Dirs.for_each
                          [uploads_dir (Dirs.store w); results_dir (Dirs.store w)]
                          Dirs.remove_if_empty) w
            = Dirs.for_each [uploads_dir (Dirs.store w); results_dir (Dirs.store w)]
                Dirs.remove_if_empty w1) as B.
    { unfold Dirs.bind at 1. now rewrite for_each_delete. }
    rewrite B.
    destruct (remove_all_if_empty_store
                [uploads_dir (Dirs.store w); results_dir (Dirs.store w)] w1) as [S1 D1].
    destruct (Dirs.for_each _ Dirs.remove_if_empty w1) as [[[]|e] w2]; cbn [fst snd] in *;
      (split; [reflexivity | split; [exact S1 | exact D1]]). }
  assert (forall file_id m, metadata (Dirs.store w) !! file_id = Some m -> file_id ∈ ids) as K.
  { intros file_id m H. unfold ids. apply list_elem_of_fmap. exists (file_id, m).
    split; [reflexivity|]. now apply elem_of_map_to_list. }
  rewrite S. split; [exact R|]. split; [|split; [|split; [exact D|]]].
  - intros file_id m H. apply delete_all_keeps_no_entry in H. destruct H as [H1 H2].
    split; [exact H1|]. apply H2. now apply (K file_id m).
  - apply delete_all_keeps_no_file.
  - intros Hp. split.
    + apply map_eq. intros file_id. rewrite lookup_empty.
      destruct (metadata (delete_all ids (Dirs.store w)) !! file_id) as [m|] eqn:H;
        [|reflexivity].
      apply delete_all_keeps_no_entry in H. destruct H as [H1 H2].
      destruct (H2 (K _ _ H1)) as [Hin _]. rewrite Hp in Hin.
      now apply not_elem_of_empty in Hin.
    + intros file_id m H. apply (delete_all_removes_files ids _ file_id); eauto.
Qed.

Lemma cleanup_all_clears_witness :
  FM.metadata (Dirs.store (Dirs.cleanup_all Sample.at_shutdown).2) = ∅.
Proof.
  destruct (cleanup_all_clears Sample.at_shutdown) as (_ & _ & _ & _ & H).
  apply H. vm_compute. reflexivity.
Defined.

End Shutdown.

Section SafeNames.
Import FM.







End SafeNames.
